(** * SQLTableEditing: the table synchronisation engine of [sqlworker.cpp]

    A shallow embedding of [SQLWorker] (src/sqlworker.cpp) together with the
    two collaborators it drives: the Qt SQL connection over an SQLite file
    ([QSqlDatabase] / [QSqlQuery]) and the display grid ([QTableWidget]).

    The worker is written as state-passing functions over two pieces of
    state: the worker object itself ([SQLWorker]) and the world outside it
    ([World]: the database files, the connection registry, the record of
    every call made to the storage engine, and the schedule of the engine
    failures still to come).

    What is assumed of the collaborators, none of which is in the
    repository:
    - a statement the worker builds reaches the engine as text (it is kept
      in the record of calls); which table the name put into it stands
      for is the engine's decision and is not computed here: every file
      carries its own reading of names ([reads]), so that a name written
      in another case can reach a table and a name that would need
      quoting can be refused;
    - what an insert leaves is the engine's decision as well: the text it
      gives back for the values bound ([renders]), the place the new row
      takes among the rows it returns ([places]), and, for the delete of
      one row, the row its walk over the ROWIDs reaches ([walks]); an
      insert adds one row to the table named and a delete removes at
      most one;
    - any call to the engine may be refused (the failure schedule decides);
      beyond that, [DELETE FROM t] and [SELECT * FROM t] need the table to
      exist, an insert needs a non-empty column list made of columns of
      the table, and [PRAGMA table_info] on an unknown table returns no
      row;
    - a transaction is all or nothing: [rollback] brings the file back to
      what it held when the transaction began;
    - cell values are kept as the text the program sees through
      [QVariant::toString]; equality of cells in this development is
      equality of that text, and a stored NULL is the empty text;
    - the engine's own bookkeeping tables are tables like the others:
      what the engine writes into them by itself (the counter of an
      AUTOINCREMENT key in [sqlite_sequence]) is not followed.

    Of the worker, the two backup stubs and the destructor are left out,
    as is the unused member [TableBackups].  Of the window
    (src/mainwindow.cpp) the handlers that edit the grid, switch the modes,
    update and cancel are modelled, and the flat-text export; what builds
    the widgets, the file dialogs, the signals of the table selector, the
    PDF export and its HTML text are not. *)

From Stdlib Require Import String Ascii List Bool Arith Lia.
From Stdlib Require Import DecimalString ZArith Permutation.
Import ListNotations.
Local Open Scope string_scope.
Local Open Scope list_scope.

Set Implicit Arguments.

(* ================================================================== *)
(** ** Text helpers (QString / QStringList) *)
(* ================================================================== *)

Module QStr.

(** [QString::isEmpty]. *)
Definition isEmpty (s : string) : bool :=
  match s with EmptyString => true | String _ _ => false end.

(** [QStringList::join(sep)]. *)
Fixpoint join (sep : string) (l : list string) : string :=
  match l with
  | [] => ""
  | [x] => x
  | x :: rest => x ++ sep ++ join sep rest
  end.

(** [QString::arg(int)] for a non-negative number: decimal digits. *)
Definition number (n : nat) : string :=
  NilZero.string_of_uint (Nat.to_uint n).

(** ASCII lower-casing, as used by SQLite's LIKE. *)
Definition lower (c : ascii) : ascii :=
  let n := nat_of_ascii c in
  if Nat.leb 65 n && Nat.leb n 90 then ascii_of_nat (n + 32) else c.

(** SQLite's [LIKE]: [%] matches any run of characters (also none), [_]
    matches exactly one character, any other character matches itself
    without regard to ASCII case. *)
Fixpoint like (pat s : string) : bool :=
  match pat with
  | EmptyString =>
      match s with EmptyString => true | String _ _ => false end
  | String "%"%char pat' =>
      (fix star (t : string) : bool :=
         like pat' t
         || match t with
            | EmptyString => false
            | String _ t' => star t'
            end) s
  | String "_"%char pat' =>
      match s with
      | EmptyString => false
      | String _ s' => like pat' s'
      end
  | String c pat' =>
      match s with
      | EmptyString => false
      | String d s' => Ascii.eqb (lower c) (lower d) && like pat' s'
      end
  end.

(** Position of the first occurrence of [x] in [l]. *)
Fixpoint indexOf (x : string) (l : list string) : option nat :=
  match l with
  | [] => None
  | y :: rest =>
      if String.eqb y x then Some 0
      else option_map S (indexOf x rest)
  end.

Definition contains (x : string) (l : list string) : bool :=
  existsb (String.eqb x) l.

Fixpoint nodupb (l : list string) : bool :=
  match l with
  | [] => true
  | x :: rest => negb (contains x rest) && nodupb rest
  end.

End QStr.

(* ================================================================== *)
(** ** The SQL statements of the worker (the five constants) *)
(* ================================================================== *)

Module Sql.

(** [GET_TABLES_QUERY]: the pattern of the internal tables and the query. *)
Definition INTERNAL_PATTERN : string := "sqlite_%".

Definition GET_TABLES_QUERY : string :=
  "SELECT name FROM sqlite_master WHERE type='table' AND name NOT LIKE '"
    ++ INTERNAL_PATTERN ++ "'".

(** [GET_COLUMNS_QUERY.arg(t)]. *)
Definition GET_COLUMNS_QUERY (t : string) : string :=
  "PRAGMA table_info(" ++ t ++ ")".

(** [SELECT_ALL_QUERY.arg(t)]. *)
Definition SELECT_ALL_QUERY (t : string) : string :=
  "SELECT * FROM " ++ t.

(** [DELETE_ALL_QUERY.arg(t)]. *)
Definition DELETE_ALL_QUERY (t : string) : string :=
  "DELETE FROM " ++ t.

(** [INSERT_QUERY_TEMPLATE.arg(t, columns, values)]. *)
Definition INSERT_QUERY_TEMPLATE (t columns values : string) : string :=
  "INSERT INTO " ++ t ++ " (" ++ columns ++ ") VALUES (" ++ values ++ ")".

Definition SELECT_ONE : string := "SELECT 1".

(** The statement of [DeleteRowFromTable]: both [%1] take the table name,
    [%2] the row index in decimal. *)
Definition DELETE_ROW_QUERY (t : string) (rowIndex : nat) : string :=
  "DELETE FROM " ++ t ++ " WHERE ROWID = (SELECT ROWID FROM " ++ t
    ++ " LIMIT 1 OFFSET " ++ QStr.number rowIndex ++ ")".

End Sql.

(* ================================================================== *)
(** ** The storage engine: database files, connection, statements *)
(* ================================================================== *)

Module Engine.

(** A table of the file: the name it is stored under, the columns the
    engine reports for it, in schema order, and its rows in the order in
    which the engine returns them, every value as text. *)
Record Table := mkTable {
  tblName : string;
  tblColumns : list string;
  tblRows : list (list string) }.

(** A database file: its tables in the order of [sqlite_master], and how
    the engine answers for this file where the answer is its own decision
    and not the program's:
    - [reads text] is the stored name of the table that [text] stands for
      when it is put, as it is, where a statement expects a table name,
      and [None] when the engine does not accept the text there.  SQLite
      compares names without regard to case and refuses a name that would
      need quoting ([my table], [order]);
    - [renders name row] is the text the engine gives back for the values
      bound for a new row of table [name] (column affinity: a numeric
      column gives back [007] as [7]);
    - [places name rows row] is the position the new row takes among the
      rows the engine returns for the table, a position past the last row
      meaning after it (rows come back in ROWID order, which is the order
      of an integer primary key where the table has one);
    - [walks name rows k] is the position, among the rows the engine
      returns for the table, of the row whose ROWID it reaches at offset
      [k] of [SELECT ROWID FROM name] (it may walk an index instead of
      the table). *)
Record Database := mkDatabase {
  tables : list Table;
  reads : string -> option string;
  renders : string -> list string -> list string;
  places : string -> list (list string) -> list string -> nat;
  walks : string -> list (list string) -> nat -> nat }.

(** The same file and engine with other tables. *)
Definition withTables (ts : list Table) (db : Database) : Database :=
  mkDatabase ts (reads db) (renders db) (places db) (walks db).

(** What the worker asks of the engine, in the order it asks. *)
Inductive Event :=
| EvOpen (path : string)
| EvClose
| EvTransaction
| EvCommit
| EvRollback
| EvExec (sql : string)
| EvPrepare (sql : string)
| EvExecPrepared (sql : string) (binds : list string).

(** The world outside the worker.  [faults] is the schedule of engine
    failures: each fallible engine call consumes its head, [true] meaning
    that this call is refused by the engine whatever its arguments; an
    exhausted schedule means no further refusal. *)
Record World := mkWorld {
  disk : string -> Database;
  registry : list string;
  faults : list bool;
  trace : list Event }.

(** A [QSqlDatabase] handle.  [savepoint] is the image of the file taken
    when the open transaction began ([None]: no transaction is open). *)
Record QSqlDatabase := mkConn {
  databaseName : string;
  isOpen : bool;
  savepoint : option Database }.

Definition emit (e : Event) (w : World) : World :=
  mkWorld (disk w) (registry w) (faults w) (trace w ++ [e]).

(** Consume the next entry of the failure schedule. *)
Definition tick (w : World) : bool * World :=
  match faults w with
  | [] => (false, w)
  | b :: rest => (b, mkWorld (disk w) (registry w) rest (trace w))
  end.

(** One fallible call on connection [c]: recorded, then refused when the
    connection is closed or the schedule says so. *)
Definition call (c : QSqlDatabase) (e : Event) (w : World) : bool * World :=
  let '(bad, w1) := tick (emit e w) in
  (isOpen c && negb bad, w1).

Definition writeDisk (path : string) (db : Database) (w : World) : World :=
  mkWorld (fun p => if String.eqb p path then db else disk w p)
          (registry w) (faults w) (trace w).

Definition current (c : QSqlDatabase) (w : World) : Database :=
  disk w (databaseName c).

(** *** Connection registry ([QSqlDatabase::contains] and friends) *)

Definition contains (name : string) (w : World) : bool :=
  QStr.contains name (registry w).

Definition removeDatabase (name : string) (w : World) : World :=
  mkWorld (disk w)
          (filter (fun n => negb (String.eqb n name)) (registry w))
          (faults w) (trace w).

Definition addDatabase (name : string) (w : World) : QSqlDatabase * World :=
  (mkConn "" false None,
   mkWorld (disk w) (name :: registry w) (faults w) (trace w)).

Definition setDatabaseName (path : string) (c : QSqlDatabase) : QSqlDatabase :=
  mkConn path (isOpen c) (savepoint c).

(** *** Opening, closing, transactions *)

(** [QSqlDatabase::open]. *)
Definition open (c : QSqlDatabase) (w : World) : bool * QSqlDatabase * World :=
  let '(bad, w1) := tick (emit (EvOpen (databaseName c)) w) in
  if bad then (false, mkConn (databaseName c) false None, w1)
  else (true, mkConn (databaseName c) true None, w1).

(** [QSqlDatabase::rollback]: the file goes back to the image taken when
    the transaction began.  The worker never looks at its result. *)
Definition rollback (c : QSqlDatabase) (w : World) : QSqlDatabase * World :=
  let w1 := emit EvRollback w in
  match savepoint c with
  | Some image =>
      (mkConn (databaseName c) (isOpen c) None,
       writeDisk (databaseName c) image w1)
  | None => (c, w1)
  end.

(** [QSqlDatabase::close]: an open transaction is abandoned. *)
Definition close (c : QSqlDatabase) (w : World) : QSqlDatabase * World :=
  let w1 := emit EvClose w in
  match savepoint c with
  | Some image =>
      (mkConn (databaseName c) false None,
       writeDisk (databaseName c) image w1)
  | None => (mkConn (databaseName c) false None, w1)
  end.

(** [QSqlDatabase::transaction]: refused when one is already open. *)
Definition transaction (c : QSqlDatabase) (w : World)
  : bool * QSqlDatabase * World :=
  let '(ok, w1) := call c EvTransaction w in
  match savepoint c with
  | Some _ => (false, c, w1)
  | None =>
      if ok
      then (true, mkConn (databaseName c) (isOpen c) (Some (current c w1)), w1)
      else (false, c, w1)
  end.

(** [QSqlDatabase::commit]: on refusal the transaction stays open. *)
Definition commit (c : QSqlDatabase) (w : World)
  : bool * QSqlDatabase * World :=
  let '(ok, w1) := call c EvCommit w in
  match savepoint c with
  | Some _ =>
      if ok then (true, mkConn (databaseName c) (isOpen c) None, w1)
      else (false, c, w1)
  | None => (false, c, w1)
  end.

(** *** Statements *)

(** The first table stored under the name [stored]. *)
Definition findStored (stored : string) (ts : list Table) : option Table :=
  find (fun t => String.eqb (tblName t) stored) ts.

(** Rewrite the first table stored under the name [stored]. *)
Fixpoint updateStored (stored : string) (f : Table -> Table)
         (ts : list Table) : list Table :=
  match ts with
  | [] => []
  | t :: rest =>
      if String.eqb (tblName t) stored then f t :: rest
      else t :: updateStored stored f rest
  end.

(** The table the text [name] stands for in a statement, as the engine
    reads it. *)
Definition findTable (name : string) (db : Database) : option Table :=
  match reads db name with
  | Some stored => findStored stored (tables db)
  | None => None
  end.

(** Rewrite the table the text [name] stands for. *)
Definition updateTable (name : string) (f : Table -> Table) (db : Database)
  : Database :=
  match reads db name with
  | Some stored => withTables (updateStored stored f (tables db)) db
  | None => db
  end.

(** Result rows of [GET_TABLES_QUERY]: the tables of the file being the
    rows of [sqlite_master] of type 'table', one single-cell row for each
    of them whose name does not match the pattern. *)
Definition masterRows (db : Database) : list (list string) :=
  map (fun t => [tblName t])
      (filter (fun t => negb (QStr.like Sql.INTERNAL_PATTERN (tblName t)))
              (tables db)).

(** Result rows of [PRAGMA table_info(t)]: one row per column, the column
    name in field 1 (cid, name, type, notnull, dflt_value, pk; only the
    name is modelled).  An unknown table gives no row and no error; a
    text the engine does not accept as a name is an error, which the
    worker does not tell from no row. *)
Definition pragmaRows (t : string) (db : Database) : list (list string) :=
  match findTable t db with
  | Some tb => map (fun col => [""; col]) (tblColumns tb)
  | None => []
  end.

(** [QSqlQuery::exec(sql)] for a statement that reads [rows]. *)
Definition execRead (c : QSqlDatabase) (sql : string)
           (rows : option (list (list string))) (w : World)
  : option (list (list string)) * World :=
  let '(ok, w1) := call c (EvExec sql) w in
  (if ok then rows else None, w1).

Definition execSelectOne (c : QSqlDatabase) (w : World) :=
  execRead c Sql.SELECT_ONE (Some [["1"]]) w.

Definition execGetTables (c : QSqlDatabase) (w : World) :=
  execRead c Sql.GET_TABLES_QUERY (Some (masterRows (current c w))) w.

Definition execGetColumns (c : QSqlDatabase) (t : string) (w : World) :=
  execRead c (Sql.GET_COLUMNS_QUERY t) (Some (pragmaRows t (current c w))) w.

Definition execSelectAll (c : QSqlDatabase) (t : string) (w : World) :=
  execRead c (Sql.SELECT_ALL_QUERY t)
           (option_map tblRows (findTable t (current c w))) w.

(** [DELETE FROM t]: refused when [t] names no table. *)
Definition execDeleteAll (c : QSqlDatabase) (t : string) (w : World)
  : bool * World :=
  let '(ok, w1) := call c (EvExec (Sql.DELETE_ALL_QUERY t)) w in
  match findTable t (current c w1) with
  | Some _ =>
      if ok
      then (true,
            writeDisk (databaseName c)
              (updateTable t (fun tb => mkTable (tblName tb) (tblColumns tb) [])
                           (current c w1)) w1)
      else (false, w1)
  | None => (false, w1)
  end.

(** Whether the engine compiles [INSERT INTO t (columns) VALUES (?, ...)]:
    the table exists, at least one column is listed and every listed
    column is one of the table's. *)
Definition insertCompiles (t : string) (columns : list string) (db : Database)
  : bool :=
  match findTable t db with
  | Some tb =>
      negb (Nat.eqb (length columns) 0)
      && forallb (fun col => QStr.contains col (tblColumns tb)) columns
  | None => false
  end.

(** The values an insert binds, column by column of the table: each
    column takes the value bound at the first position where the
    statement lists it, and the empty text where it is not listed. *)
Definition storedRow (columns binds : list string) (tb : Table) : list string :=
  map (fun col =>
         match QStr.indexOf col columns with
         | Some i => nth i binds ""
         | None => ""
         end)
      (tblColumns tb).

(** [QSqlQuery::prepare(insert)]. *)
Definition prepareInsert (c : QSqlDatabase) (t : string)
           (columns : list string) (sql : string) (w : World)
  : bool * World :=
  let '(ok, w1) := call c (EvPrepare sql) w in
  (ok && insertCompiles t columns (current c w1), w1).

(** [x] put at position [p] of [l], after the last element when there is
    no such position. *)
Definition insertAt {A : Type} (p : nat) (x : A) (l : list A) : list A :=
  firstn p l ++ x :: skipn p l.

(** The rows the engine returns for table [name] of [db] once [row] has
    been inserted: the rows it returned before, and the new row as the
    engine renders it, at the place the engine gives it. *)
Definition landed (db : Database) (name : string)
           (rows : list (list string)) (row : list string)
  : list (list string) :=
  let kept := renders db name row in
  insertAt (places db name rows kept) kept rows.

(** [QSqlQuery::exec()] of the prepared insert with its bound values. *)
Definition execInsert (c : QSqlDatabase) (t : string)
           (columns : list string) (sql : string) (binds : list string)
           (w : World) : bool * World :=
  let '(ok, w1) := call c (EvExecPrepared sql binds) w in
  if ok && insertCompiles t columns (current c w1)
  then (true,
        writeDisk (databaseName c)
          (updateTable t
             (fun tb => mkTable (tblName tb) (tblColumns tb)
                          (landed (current c w1) (tblName tb) (tblRows tb)
                                  (storedRow columns binds tb)))
             (current c w1)) w1)
  else (false, w1).

(** A list without its element at position [k]; the list itself when
    there is no such position. *)
Definition removeNth {A : Type} (k : nat) (l : list A) : list A :=
  firstn k l ++ skipn (S k) l.

(** The rows left by the delete of the row at offset [k]: when the table
    has at most [k] rows the inner select is empty and nothing is removed;
    otherwise the row removed is the one the engine's walk reaches. *)
Definition withoutRow (db : Database) (name : string) (k : nat)
           (rows : list (list string)) : list (list string) :=
  if Nat.ltb k (length rows) then removeNth (walks db name rows k) rows
  else rows.

(** [DELETE FROM t WHERE ROWID = (SELECT ROWID FROM t LIMIT 1 OFFSET k)]:
    no error when the inner select is empty. *)
Definition execDeleteRow (c : QSqlDatabase) (t : string) (k : nat) (w : World)
  : bool * World :=
  let '(ok, w1) := call c (EvExec (Sql.DELETE_ROW_QUERY t k)) w in
  match findTable t (current c w1) with
  | Some _ =>
      if ok
      then (true,
            writeDisk (databaseName c)
              (updateTable t
                 (fun tb => mkTable (tblName tb) (tblColumns tb)
                              (withoutRow (current c w1) (tblName tb) k
                                          (tblRows tb)))
                 (current c w1)) w1)
      else (false, w1)
  | None => (false, w1)
  end.

End Engine.

(* ================================================================== *)
(** ** The display grid ([QTableWidget]) *)
(* ================================================================== *)

Module Grid.

(** The items of the widget: a header item per column and a cell item per
    row and column; [None] is the null pointer, [Some text] an item. *)
Record QTableWidget := mkWidget {
  headerItems : list (option string);
  cellItems : list (list (option string)) }.

Definition columnCount (tw : QTableWidget) : nat := length (headerItems tw).
Definition rowCount (tw : QTableWidget) : nat := length (cellItems tw).

Definition horizontalHeaderItem (col : nat) (tw : QTableWidget) : option string :=
  nth col (headerItems tw) None.

Definition item (row col : nat) (tw : QTableWidget) : option string :=
  nth col (nth row (cellItems tw) []) None.

(** [_cellItem ? _cellItem->text() : ""]. *)
Definition cellText (it : option string) : string :=
  match it with Some text => text | None => "" end.

Definition resize {A : Type} (n : nat) (d : A) (l : list A) : list A :=
  firstn n l ++ repeat d (n - length l).

Fixpoint replaceNth {A : Type} (i : nat) (x : A) (l : list A) : list A :=
  match l, i with
  | [], _ => []
  | _ :: rest, 0 => x :: rest
  | y :: rest, S j => y :: replaceNth j x rest
  end.

(** [clear]: every item and header goes, the dimensions stay. *)
Definition clear (tw : QTableWidget) : QTableWidget :=
  mkWidget (map (fun _ => None) (headerItems tw))
           (map (fun _ => repeat None (columnCount tw)) (cellItems tw)).

Definition setColumnCount (n : nat) (tw : QTableWidget) : QTableWidget :=
  mkWidget (resize n None (headerItems tw))
           (map (resize n None) (cellItems tw)).

Fixpoint relabel (items : list (option string)) (labels : list string)
  : list (option string) :=
  match items, labels with
  | _ :: items', l :: labels' => Some l :: relabel items' labels'
  | _, _ => items
  end.

(** [setHorizontalHeaderLabels]: labels go to the existing columns. *)
Definition setHorizontalHeaderLabels (labels : list string) (tw : QTableWidget)
  : QTableWidget :=
  mkWidget (relabel (headerItems tw) labels) (cellItems tw).

(** [insertRow(i)]: an empty row before position [i]. *)
Definition insertRow (i : nat) (tw : QTableWidget) : QTableWidget :=
  if Nat.leb i (rowCount tw)
  then mkWidget (headerItems tw)
                (firstn i (cellItems tw)
                 ++ repeat None (columnCount tw) :: skipn i (cellItems tw))
  else tw.

(** [setItem(row, col, new QTableWidgetItem(text))]. *)
Definition setItem (row col : nat) (text : string) (tw : QTableWidget)
  : QTableWidget :=
  if Nat.ltb row (rowCount tw) && Nat.ltb col (columnCount tw)
  then mkWidget (headerItems tw)
                (replaceNth row
                   (replaceNth col (Some text) (nth row (cellItems tw) []))
                   (cellItems tw))
  else tw.

Definition setRowCount (n : nat) (tw : QTableWidget) : QTableWidget :=
  mkWidget (headerItems tw)
           (resize n (repeat None (columnCount tw)) (cellItems tw)).

(** The grid as the worker reads it when committing: row by row, the
    text of every cell of the first [columnCount] columns. *)
Definition rowTexts (tw : QTableWidget) (row : nat) : list string :=
  map (fun col => cellText (item row col tw)) (seq 0 (columnCount tw)).

Definition texts (tw : QTableWidget) : list (list string) :=
  map (rowTexts tw) (seq 0 (rowCount tw)).

(** [removeRow(row)]: nothing happens when there is no such row. *)
Definition removeRow (row : nat) (tw : QTableWidget) : QTableWidget :=
  if Nat.ltb row (rowCount tw)
  then mkWidget (headerItems tw)
                (firstn row (cellItems tw) ++ skipn (S row) (cellItems tw))
  else tw.

End Grid.

(* ================================================================== *)
(** ** The worker ([SQLWorker]) *)
(* ================================================================== *)

Module SQLWorker.
Import Engine Grid.

Record SQLWorker := mkWorker {
  CurrentFilePath : string;
  AvailableTableNames : list string;
  FileLoaded : bool;
  ConnectionName : string;
  SqlDatabase : QSqlDatabase }.

Definition withDb (c : QSqlDatabase) (self : SQLWorker) : SQLWorker :=
  mkWorker (CurrentFilePath self) (AvailableTableNames self)
           (FileLoaded self) (ConnectionName self) c.

(** [GenerateConnectionName], the UUID being chosen by the caller. *)
Definition GenerateConnectionName (uuid : string) : string :=
  "SQLWorker_Connection_" ++ uuid.

(** The constructor. *)
Definition new (uuid : string) : SQLWorker :=
  mkWorker "" [] false (GenerateConnectionName uuid) (mkConn "" false None).

Definition GetTableNames (self : SQLWorker) : list string :=
  AvailableTableNames self.

Definition GetCurrentFilePath (self : SQLWorker) : string :=
  CurrentFilePath self.

Definition IsFileLoaded (self : SQLWorker) : bool :=
  FileLoaded self && isOpen (SqlDatabase self).

(** [ValidateDatabaseConnection].  The query object is built from the
    statement text, which already runs it once; [exec()] runs it again
    and only this second result is looked at.  The two runs are refused
    independently of each other. *)
Definition ValidateDatabaseConnection (self : SQLWorker) (w : World)
  : bool * World :=
  if negb (isOpen (SqlDatabase self)) then (false, w)
  else
    let '(_, w1) := execSelectOne (SqlDatabase self) w in
    let '(res, w2) := execSelectOne (SqlDatabase self) w1 in
    match res with
    | None => (false, w2)
    | Some _ => (true, w2)
    end.

(** [ParseSQLStructure]; the query object is built as in
    [ValidateDatabaseConnection]. *)
Definition ParseSQLStructure (self : SQLWorker) (w : World)
  : SQLWorker * World :=
  let cleared :=
    mkWorker (CurrentFilePath self) [] (FileLoaded self)
             (ConnectionName self) (SqlDatabase self) in
  let '(_, w1) := execGetTables (SqlDatabase self) w in
  let '(res, w2) := execGetTables (SqlDatabase self) w1 in
  match res with
  | None => (cleared, w2)
  | Some rows =>
      let names :=
        fold_left
          (fun acc row =>
             let _tableName := nth 0 row "" in
             if negb (QStr.isEmpty _tableName) then acc ++ [_tableName]
             else acc)
          rows (AvailableTableNames cleared) in
      (mkWorker (CurrentFilePath self) names (FileLoaded self)
                (ConnectionName self) (SqlDatabase self), w2)
  end.

(** [GetTableColumns]. *)
Definition GetTableColumns (tableName : string) (self : SQLWorker) (w : World)
  : list string * World :=
  let '(res, w1) := execGetColumns (SqlDatabase self) tableName w in
  match res with
  | None => ([], w1)
  | Some rows =>
      (fold_left (fun _columns row => _columns ++ [nth 1 row ""]) rows [], w1)
  end.

(** [LoadSQLFile]. *)
Definition LoadSQLFile (filePath : string) (self : SQLWorker) (w : World)
  : bool * SQLWorker * World :=
  if QStr.isEmpty filePath then (false, self, w)
  else
    let '(_, w1) :=
      if isOpen (SqlDatabase self) then close (SqlDatabase self) w
      else (SqlDatabase self, w) in
    let w2 :=
      if contains (ConnectionName self) w1
      then removeDatabase (ConnectionName self) w1 else w1 in
    let '(c3, w3) := addDatabase (ConnectionName self) w2 in
    let '(opened, c4, w4) := open (setDatabaseName filePath c3) w3 in
    let self4 := withDb c4 self in
    if negb opened then (false, self4, w4)
    else
      let '(valid, w5) := ValidateDatabaseConnection self4 w4 in
      if negb valid then
        let '(c6, w6) := close c4 w5 in
        (false, withDb c6 self4, w6)
      else
        let self7 :=
          mkWorker filePath (AvailableTableNames self4) (FileLoaded self4)
                   (ConnectionName self4) (SqlDatabase self4) in
        let '(self8, w8) := ParseSQLStructure self7 w5 in
        (true,
         mkWorker (CurrentFilePath self8) (AvailableTableNames self8) true
                  (ConnectionName self8) (SqlDatabase self8),
         w8).

(** The [while (_query.next())] loop of [LoadTableData]. *)
Fixpoint LoadTableData_rows (columns : nat) (rows : list (list string))
         (_rowIndex : nat) (tw : QTableWidget) : nat * QTableWidget :=
  match rows with
  | [] => (_rowIndex, tw)
  | record :: rest =>
      let tw1 := insertRow _rowIndex tw in
      let tw2 :=
        fold_left
          (fun acc _col => setItem _rowIndex _col (nth _col record "") acc)
          (seq 0 columns) tw1 in
      LoadTableData_rows columns rest (S _rowIndex) tw2
  end.

(** [LoadTableData]; a null widget pointer is [None]. *)
Definition LoadTableData (tableName : string) (tableWidget : option QTableWidget)
           (self : SQLWorker) (w : World)
  : bool * option QTableWidget * World :=
  match tableWidget with
  | None => (false, tableWidget, w)
  | Some tw =>
      if negb (FileLoaded self) || QStr.isEmpty tableName
      then (false, tableWidget, w)
      else if negb (isOpen (SqlDatabase self)) then (false, tableWidget, w)
      else
        let '(_columnNames, w1) := GetTableColumns tableName self w in
        if Nat.eqb (length _columnNames) 0 then (false, tableWidget, w1)
        else
          let '(res, w2) := execSelectAll (SqlDatabase self) tableName w1 in
          match res with
          | None => (false, tableWidget, w2)
          | Some rows =>
              let tw1 := clear tw in
              let tw2 := setColumnCount (length _columnNames) tw1 in
              let tw3 := setHorizontalHeaderLabels _columnNames tw2 in
              let '(_rowIndex, tw4) :=
                LoadTableData_rows (length _columnNames) rows 0 tw3 in
              (true, Some (setRowCount _rowIndex tw4), w2)
          end
  end.

(** The column-name loop of [UpdateCompleteTable] (lines 286-300). *)
Fixpoint UpdateCompleteTable_columns (tableName : string) (tw : QTableWidget)
         (self : SQLWorker) (cols : list nat) (_columnNames : list string)
         (w : World) : list string * World :=
  match cols with
  | [] => (_columnNames, w)
  | _col :: rest =>
      match horizontalHeaderItem _col tw with
      | Some text =>
          UpdateCompleteTable_columns tableName tw self rest
            (_columnNames ++ [text]) w
      | None =>
          let '(_dbColumns, w1) := GetTableColumns tableName self w in
          if Nat.ltb _col (length _dbColumns)
          then UpdateCompleteTable_columns tableName tw self rest
                 (_columnNames ++ [nth _col _dbColumns ""]) w1
          else UpdateCompleteTable_columns tableName tw self rest
                 (_columnNames ++ [("Column_" ++ QStr.number (_col + 1))%string]) w1
      end
  end.

(** The row loop of [UpdateCompleteTable] (lines 321-344).
    [_insertQuery.finish()] only releases the previous result and makes no
    call that can be refused. *)
Fixpoint UpdateCompleteTable_rows (tableName : string) (tw : QTableWidget)
         (_columnNames : list string) (_insertQueryString : string)
         (rows : list nat) (self : SQLWorker) (w : World)
  : bool * SQLWorker * World :=
  match rows with
  | [] => (true, self, w)
  | _row :: rest =>
      let '(prepared, w1) :=
        prepareInsert (SqlDatabase self) tableName _columnNames
                      _insertQueryString w in
      if negb prepared then
        let '(c, w2) := rollback (SqlDatabase self) w1 in
        (false, withDb c self, w2)
      else
        let binds := rowTexts tw _row in
        let '(done, w2) :=
          execInsert (SqlDatabase self) tableName _columnNames
                     _insertQueryString binds w1 in
        if negb done then
          let '(c, w3) := rollback (SqlDatabase self) w2 in
          (false, withDb c self, w3)
        else
          UpdateCompleteTable_rows tableName tw _columnNames
            _insertQueryString rest self w2
  end.

(** The text of the insert statement for the resolved column names. *)
Definition insertQueryString (tableName : string) (_columnNames : list string)
  : string :=
  Sql.INSERT_QUERY_TEMPLATE tableName
    (QStr.join ", " _columnNames)
    (QStr.join ", " (map (fun _ => "?") _columnNames)).

(** [UpdateCompleteTable]; a null widget pointer is [None]. *)
Definition UpdateCompleteTable (tableName : string)
           (tableWidget : option QTableWidget)
           (self : SQLWorker) (w : World) : bool * SQLWorker * World :=
  match tableWidget with
  | None => (false, self, w)
  | Some tw =>
      if negb (FileLoaded self) || QStr.isEmpty tableName
      then (false, self, w)
      else if negb (isOpen (SqlDatabase self)) then (false, self, w)
      else
        let '(started, c1, w1) := transaction (SqlDatabase self) w in
        let self1 := withDb c1 self in
        if negb started then (false, self1, w1)
        else
          let '(deleted, w2) := execDeleteAll c1 tableName w1 in
          if negb deleted then
            let '(c3, w3) := rollback c1 w2 in
            (false, withDb c3 self1, w3)
          else
            let '(_columnNames, w3) :=
              UpdateCompleteTable_columns tableName tw self1
                (seq 0 (columnCount tw)) [] w2 in
            let _insertQueryString :=
              insertQueryString tableName _columnNames in
            let '(prepared, w4) :=
              prepareInsert c1 tableName _columnNames _insertQueryString w3 in
            if negb prepared then
              let '(c5, w5) := rollback c1 w4 in
              (false, withDb c5 self1, w5)
            else
              let '(inserted, self6, w6) :=
                UpdateCompleteTable_rows tableName tw _columnNames
                  _insertQueryString (seq 0 (rowCount tw)) self1 w4 in
              if negb inserted then (false, self6, w6)
              else
                let '(committed, c7, w7) := commit (SqlDatabase self6) w6 in
                if negb committed then
                  let '(c8, w8) := rollback c7 w7 in
                  (false, withDb c8 self6, w8)
                else (true, withDb c7 self6, w7)
  end.

(** [AddRowToTable] (lines 171-220).  The statement is built as in
    [UpdateCompleteTable]; the connection is not tested and no transaction
    is opened. *)
Definition AddRowToTable (tableName : string) (rowData : list string)
           (self : SQLWorker) (w : World) : bool * World :=
  if negb (FileLoaded self) || QStr.isEmpty tableName then (false, w)
  else
    let '(_columnNames, w1) := GetTableColumns tableName self w in
    if Nat.eqb (length _columnNames) 0 then (false, w1)
    else
      let _queryString := insertQueryString tableName _columnNames in
      let '(prepared, w2) :=
        prepareInsert (SqlDatabase self) tableName _columnNames
                      _queryString w1 in
      if negb prepared then (false, w2)
      else
        let binds :=
          map (fun _i => if Nat.ltb _i (length rowData)
                         then nth _i rowData "" else "")
              (seq 0 (length _columnNames)) in
        let '(done, w3) :=
          execInsert (SqlDatabase self) tableName _columnNames
                     _queryString binds w2 in
        if negb done then (false, w3) else (true, w3).

(** [DeleteRowFromTable] (lines 225-246); [rowIndex] is an [int]. *)
Definition DeleteRowFromTable (tableName : string) (rowIndex : Z)
           (self : SQLWorker) (w : World) : bool * World :=
  if negb (FileLoaded self) || QStr.isEmpty tableName
     || Z.ltb rowIndex 0
  then (false, w)
  else execDeleteRow (SqlDatabase self) tableName (Z.to_nat rowIndex) w.

(** [SaveSQLFile]. *)
Definition SaveSQLFile (self : SQLWorker) : bool :=
  if negb (FileLoaded self) then false else true.

End SQLWorker.

(* ================================================================== *)
(** ** Vocabulary of the specification *)
(* ================================================================== *)

Module Spec.
Import Engine Grid SQLWorker.

(** The engine refuses no further call. *)
Definition calm (w : World) : Prop :=
  Forall (fun b => b = false) (faults w).

(** What engine calls that only read leave behind: the calls [e] added
    to the record, the files and the registry as they were. *)
Record stepped (e : list Event) (w w' : World) : Prop := mkStepped {
  stepped_disk : disk w' = disk w;
  stepped_registry : registry w' = registry w;
  stepped_trace : trace w' = trace w ++ e;
  stepped_calm : calm w -> calm w' }.

(** Every file holds after [w'] what it held after [w]. *)
Definition sameStorage (w w' : World) : Prop :=
  forall path, disk w' path = disk w path.

(** Files other than [path] hold in [w'] what they held in [w]. *)
Definition elsewhere (path : string) (w w' : World) : Prop :=
  forall p, String.eqb p path = false -> disk w' p = disk w p.

(** Shape of a table as SQLite keeps it: at least one column, no column
    name twice, every row as wide as the column list. *)
Definition wfTable (tb : Table) : bool :=
  negb (Nat.eqb (length (tblColumns tb)) 0)
  && QStr.nodupb (tblColumns tb)
  && forallb (fun r => Nat.eqb (length r) (length (tblColumns tb)))
             (tblRows tb).

(** The engine returns the rows of table [tb] in the order in which they
    were inserted: a new row comes after the rows already there. *)
Definition keepsOrder (db : Database) (tb : Table) : Prop :=
  forall rows row, length rows <= places db (tblName tb) rows row.

(** The engine gives back for table [tb] the text that was bound. *)
Definition keepsText (db : Database) (tb : Table) : Prop :=
  forall row, renders db (tblName tb) row = row.

(** The engine walks the ROWIDs of table [tb] in the order in which it
    returns the rows. *)
Definition walksInOrder (db : Database) (tb : Table) : Prop :=
  forall rows k, walks db (tblName tb) rows k = k.

(** The rows the engine returns for the table stored as [name] once it
    has been emptied and [rows] have been inserted one after the other. *)
Definition refilled (db : Database) (name : string)
           (rows : list (list string)) : list (list string) :=
  fold_left (landed db name) rows [].

(** What a load into [n] columns shows of a stored row: its first [n]
    values, the empty text where the row is shorter. *)
Definition shownRow (n : nat) (record : list string) : list string :=
  map (fun col => nth col record "") (seq 0 n).

(** The textual round trip of the values of a row of table [tb]: bound
    by an insert, rendered by the engine, read by a load. *)
Definition roundTrip (db : Database) (tb : Table) (row : list string)
  : list string :=
  shownRow (length (tblColumns tb)) (renders db (tblName tb) row).

(** Column-name resolution in the words of the specification: the grid's
    own header label if supplied; otherwise the catalog's column at the
    same position; otherwise the placeholder [Column_<n+1>]. *)
Definition columnNameAt (header : option string) (catalog : list string)
           (n : nat) : string :=
  match header with
  | Some label => label
  | None =>
      match nth_error catalog n with
      | Some col => col
      | None => ("Column_" ++ QStr.number (n + 1))%string
      end
  end.

(** The name written for position [n] when the table's columns are
    [catalog]: the rule above, the catalog counting as empty when the
    engine refused the column query made for that position. *)
Definition resolvedAs (tw : QTableWidget) (catalog : list string)
           (n : nat) (name : string) : Prop :=
  name = columnNameAt (horizontalHeaderItem n tw) catalog n
  \/ name = columnNameAt (horizontalHeaderItem n tw) [] n.

(** Positions of the grid that carry no header item. *)
Definition noHeader (tw : QTableWidget) (n : nat) : bool :=
  match horizontalHeaderItem n tw with Some _ => false | None => true end.

Definition headerless (tw : QTableWidget) : list nat :=
  filter (noHeader tw) (seq 0 (columnCount tw)).

(** Engine calls of the insert phase of a commit for statement [sql]. *)
Definition insertPhase (sql : string) (e : Event) : Prop :=
  match e with
  | EvPrepare s => s = sql
  | EvExecPrepared s _ => s = sql
  | EvCommit | EvRollback => True
  | _ => False
  end.

(** The calls made for the rows of a commit that goes through. *)
Definition rowCalls (sql : string) (tw : QTableWidget) : list Event :=
  flat_map (fun row => [EvPrepare sql; EvExecPrepared sql (rowTexts tw row)])
           (seq 0 (rowCount tw)).

(** The user tables of a database in the words of the specification:
    every table but the internal ones, these being told by the name
    pattern, in catalog order. *)
Definition userTables (db : Database) : list string :=
  map tblName
      (filter (fun t => negb (QStr.like Sql.INTERNAL_PATTERN (tblName t)))
              (tables db)).


(** The grid [LoadTableData] builds from the columns and rows read. *)
Definition loadedGrid (columns : list string) (rows : list (list string))
  : QTableWidget :=
  mkWidget (map Some columns)
           (map (fun record =>
                   map (fun col => Some (nth col record ""))
                       (seq 0 (length columns)))
                rows).

(** The table [tb] of [db] after the row loop of a commit has inserted
    the grid rows [rows]. *)
Definition appended (db : Database) (tw : QTableWidget) (names : list string)
           (rows : list nat) (tb : Table) : Table :=
  mkTable (tblName tb) (tblColumns tb)
          (fold_left (landed db (tblName tb))
                     (map (fun row => storedRow names (rowTexts tw row) tb)
                          rows)
                     (tblRows tb)).

(** The calls that open a commit, and those of its column resolution:
    one column query for each position without header. *)
Definition deleteCalls (t : string) : list Event :=
  [EvTransaction; EvExec (Sql.DELETE_ALL_QUERY t)].

Definition resolutionCalls (t : string) (tw : QTableWidget) : list Event :=
  map (fun _ => EvExec (Sql.GET_COLUMNS_QUERY t)) (headerless tw).

(** The column names of a commit when no column query is refused. *)
Definition resolvedNames (tw : QTableWidget) (catalog : list string)
  : list string :=
  map (fun n => columnNameAt (horizontalHeaderItem n tw) catalog n)
      (seq 0 (columnCount tw)).

(** The rows a commit that goes through inserts into the table. *)
Definition committedRows (tw : QTableWidget) (names : list string)
           (tb : Table) : list (list string) :=
  map (fun row => storedRow names (rowTexts tw row) tb)
      (seq 0 (rowCount tw)).

(** The table [tableName] emptied and refilled with [rows]. *)
Definition replaceRows (tableName : string) (rows : list (list string))
           (db : Database) : Database :=
  updateTable tableName
    (fun tb => mkTable (tblName tb) (tblColumns tb)
                       (refilled db (tblName tb) rows)) db.

End Spec.

(* ================================================================== *)
(** ** Sample data *)
(* ================================================================== *)

Module Sample.
Import Engine Grid SQLWorker.

Definition users : Table :=
  mkTable "users" ["id"; "name"] [["1"; "Ann"]; ["2"; "Bo"]].

Definition sqlite_sequence : Table :=
  mkTable "sqlite_sequence" ["name"; "seq"] [["users"; "2"]].

Definition notes : Table := mkTable "notes" ["id"; "body"] [].

Definition unnamed : Table := mkTable "" ["x"] [].

(** A file whose engine takes every name as it is written, gives back
    the text bound, returns the rows in the order of their insertion and
    walks them in that order. *)
Definition plain (ts : list Table) : Database :=
  mkDatabase ts Some (fun _ row => row) (fun _ rows _ => length rows)
             (fun _ _ k => k).

(** The tables of [desk.db]: [people], with [id] as its integer primary
    key; [tags], two text columns and no key; [my table], whose name
    holds a space; [gauge], whose column [span], generated as [high]
    minus [low], sits between the two and is returned with the rows but
    is not in the column list the engine reports. *)
Definition people : Table :=
  mkTable "people" ["id"; "name"] [["1"; "Ann"]; ["2"; "Bo"]].

Definition tags : Table := mkTable "tags" ["code"; "label"] [["a"; "red"]].

Definition my_table : Table := mkTable "my table" ["x"] [].

Definition gauge : Table :=
  mkTable "gauge" ["low"; "high"] [["1"; "4"; "5"]].

(** A decimal numeral read as a number. *)
Fixpoint digits (s : string) (acc : nat) : option nat :=
  match s with
  | EmptyString => Some acc
  | String c rest =>
      let n := nat_of_ascii c in
      if Nat.leb 48 n && Nat.leb n 57
      then digits rest (10 * acc + (n - 48))
      else None
  end.

Definition toNat (s : string) : option nat :=
  match s with
  | EmptyString => None
  | String _ _ => digits s 0
  end.

Definition keyOf (row : list string) : option nat := toNat (nth 0 row "").

(** Letters, digits and the underscore: the characters of a name that
    needs no quoting. *)
Definition wordChar (c : ascii) : bool :=
  let n := nat_of_ascii c in
  (Nat.leb 48 n && Nat.leb n 57) || (Nat.leb 65 n && Nat.leb n 90)
  || (Nat.leb 97 n && Nat.leb n 122) || Nat.eqb n 95.

Fixpoint word (s : string) : bool :=
  match s with
  | EmptyString => true
  | String c rest => wordChar c && word rest
  end.

Fixpoint lowered (s : string) : string :=
  match s with
  | EmptyString => EmptyString
  | String c rest => String (QStr.lower c) (lowered rest)
  end.

(** Names as the engine of [desk.db] reads them: a name made of word
    characters stands for the table stored under its lower-case
    spelling; any other text is refused. *)
Definition deskReads (text : string) : option string :=
  if negb (QStr.isEmpty text) && word text then Some (lowered text)
  else None.

(** The text given back by [desk.db]: the key of [people] comes back as
    the number it denotes; a row of [gauge] comes back with its generated
    column. *)
Definition deskRenders (name : string) (row : list string) : list string :=
  if String.eqb name "people" then
    match row with
    | key :: rest =>
        match toNat key with
        | Some n => QStr.number n :: rest
        | None => row
        end
    | [] => row
    end
  else if String.eqb name "gauge" then
    match row with
    | [low; high] =>
        match toNat low, toNat high with
        | Some l, Some h => [low; QStr.number (h - l); high]
        | _, _ => row
        end
    | _ => row
    end
  else row.

(** The place of a new row in [desk.db]: [people] is kept in the order of
    its key, a new row going after the rows whose key is not larger; the
    other tables are kept in the order of insertion. *)
Definition deskPlaces (name : string) (rows : list (list string))
           (row : list string) : nat :=
  if String.eqb name "people" then
    match keyOf row with
    | Some n =>
        length (filter (fun r => match keyOf r with
                                 | Some m => Nat.leb m n
                                 | None => true
                                 end) rows)
    | None => length rows
    end
  else length rows.

(** The walk over the ROWIDs in [desk.db]: [tags] is walked through an
    index kept in descending order, the other tables in the order of
    their rows. *)
Definition deskWalks (name : string) (rows : list (list string)) (k : nat)
  : nat :=
  if String.eqb name "tags" then length rows - 1 - k else k.

Definition desk_db : Database :=
  mkDatabase [people; tags; my_table; gauge]
             deskReads deskRenders deskPlaces deskWalks.

(** [shop.db] holds two user tables and an internal one; [odd.db] holds a
    table whose name is the empty text; [desk.db] is read by an engine
    that behaves as SQLite does for its tables. *)
Definition files (path : string) : Database :=
  if String.eqb path "shop.db" then plain [users; sqlite_sequence; notes]
  else if String.eqb path "odd.db" then plain [users; unnamed]
  else if String.eqb path "desk.db" then desk_db
  else plain [].

Definition fresh (schedule : list bool) : World :=
  mkWorld files [] schedule [].

(** The worker after [LoadSQLFile("shop.db")], and the world it left,
    with [schedule] as the failures to come. *)
Definition loaded : SQLWorker :=
  snd (fst (LoadSQLFile "shop.db" (new "0001") (fresh []))).

Definition ready (schedule : list bool) : World :=
  let w := snd (LoadSQLFile "shop.db" (new "0001") (fresh [])) in
  mkWorld (disk w) (registry w) schedule (trace w).

Definition grid : QTableWidget :=
  mkWidget [Some "id"; Some "name"]
           [[Some "1"; Some "Anna"]; [Some "2"; Some "Bo"]; [Some "3"; None]].


Definition counters : QTableWidget :=
  mkWidget [Some "name"; Some "seq"] [[Some "users"; Some "7"]].

Definition headersOnly : QTableWidget :=
  mkWidget [Some "id"; None] [].

Definition blank : QTableWidget := mkWidget [] [].

(** The worker after [LoadSQLFile("desk.db")], and the world it left. *)
Definition atDesk : SQLWorker :=
  snd (fst (LoadSQLFile "desk.db" (new "0003") (fresh []))).

Definition deskReady (schedule : list bool) : World :=
  let w := snd (LoadSQLFile "desk.db" (new "0003") (fresh [])) in
  mkWorld (disk w) (registry w) schedule (trace w).


Definition zeros : QTableWidget :=
  mkWidget [Some "id"; Some "name"] [[Some "007"; Some "Cy"]].

(** A grid for [tags]. *)
Definition labels : QTableWidget :=
  mkWidget [Some "code"; Some "label"]
           [[Some "b"; Some "blue"]; [Some "a"; Some "red"]].

(** A grid without rows whose first and third columns carry no header. *)
Definition gaps : QTableWidget :=
  mkWidget [None; Some "name"; None] [].

End Sample.

(* ================================================================== *)
(** ** The flat-text export of the window ([ExportTableToExcel]) *)
(* ================================================================== *)

Module Csv.
Import Grid.

Definition COMMA : ascii := "044"%char.
Definition QUOTE : ascii := "034"%char.
Definition NEWLINE : ascii := "010"%char.

(** The three bytes written before the text. *)
Definition BOM : string :=
  String "239"%char (String "187"%char (String "191"%char "")).

(** [QString::contains(QChar)]. *)
Fixpoint containsChar (c : ascii) (s : string) : bool :=
  match s with
  | EmptyString => false
  | String d rest => Ascii.eqb d c || containsChar c rest
  end.

(** [text.replace(quote, two quotes)]. *)
Fixpoint doubleQuotes (s : string) : string :=
  match s with
  | EmptyString => EmptyString
  | String d rest =>
      if Ascii.eqb d QUOTE then String QUOTE (String QUOTE (doubleQuotes rest))
      else String d (doubleQuotes rest)
  end.

(** The escaping applied to every header and cell (lines 638-641 and
    655-658). *)
Definition field (text : string) : string :=
  if containsChar COMMA text || containsChar QUOTE text
     || containsChar NEWLINE text
  then String QUOTE (doubleQuotes text ++ String QUOTE "")
  else text.

(** [_headerItem ? _headerItem->text() : QString("Column_%1").arg(_col + 1)]. *)
Definition headerText (tw : QTableWidget) (_col : nat) : string :=
  match horizontalHeaderItem _col tw with
  | Some text => text
  | None => "Column_" ++ QStr.number (_col + 1)
  end.

(** One streamed line: the fields joined by commas, then a newline. *)
Definition line (fields : list string) : string :=
  QStr.join (String COMMA "") fields ++ String NEWLINE "".

(** What [ExportTableToExcel] writes once the file is open. *)
Definition content (tw : QTableWidget) : string :=
  BOM
  ++ line (map (fun _col => field (headerText tw _col))
               (seq 0 (columnCount tw)))
  ++ String.concat ""
       (map (fun _row =>
               line (map (fun _col => field (cellText (item _row _col tw)))
                         (seq 0 (columnCount tw))))
            (seq 0 (rowCount tw))).

(** [ExportTableToExcel]; [opened] tells whether [QFile::open] succeeds,
    the second result is the text of the file written. *)
Definition ExportTableToExcel (opened : bool) (tw : QTableWidget)
  : bool * option string :=
  if negb opened then (false, None) else (true, Some (content tw)).

(** Number of occurrences of a character. *)
Fixpoint countChar (c : ascii) (s : string) : nat :=
  match s with
  | EmptyString => 0
  | String d rest => (if Ascii.eqb d c then 1 else 0) + countChar c rest
  end.

(** Reading a field back: what is between the outer quotes, every
    doubled quote taken once; a field without quotes as it is. *)
Fixpoint undouble (s : string) : string :=
  match s with
  | EmptyString => EmptyString
  | String d rest =>
      if Ascii.eqb d QUOTE then
        match rest with
        | String e rest' =>
            if Ascii.eqb e QUOTE then String QUOTE (undouble rest')
            else EmptyString
        | EmptyString => EmptyString
        end
      else String d (undouble rest)
  end.

Definition unfield (s : string) : string :=
  match s with
  | String d rest => if Ascii.eqb d QUOTE then undouble rest else s
  | EmptyString => s
  end.

End Csv.

(* ================================================================== *)
(** ** The window ([MainWindow]): grid edits, modes, update and cancel *)
(* ================================================================== *)

Module Window.
Import Engine Grid.

(** The edit triggers the window ever sets on the grid. *)
Inductive EditTriggers :=
| NoEditTriggers
| DoubleClicked
| DoubleClickedOrEditKeyPressed.

(** The members of the window that its handlers read or write, and the
    edit triggers of the grid.  Button styles, check marks and enabled
    states are written by the handlers and never decide what they do;
    they are left out. *)
Record MainWindow := mkWindow {
  DataTable : QTableWidget;
  editTriggers : EditTriggers;
  Worker : SQLWorker.SQLWorker;
  CurrentFilePath : string;
  CurrentTableName : string;
  IsAddMode : bool;
  IsDeleteMode : bool;
  IsEditMode : bool;
  HasUnsavedChanges : bool }.

(** The constructor, the UUID of the worker being chosen by the caller. *)
Definition new (uuid : string) : MainWindow :=
  mkWindow (mkWidget [] []) NoEditTriggers (SQLWorker.new uuid)
           "" "" false false false false.

Definition setTable (tw : QTableWidget) (m : MainWindow) : MainWindow :=
  mkWindow tw (editTriggers m) (Worker m) (CurrentFilePath m)
           (CurrentTableName m) (IsAddMode m) (IsDeleteMode m)
           (IsEditMode m) (HasUnsavedChanges m).

Definition setEditTriggers (t : EditTriggers) (m : MainWindow) : MainWindow :=
  mkWindow (DataTable m) t (Worker m) (CurrentFilePath m)
           (CurrentTableName m) (IsAddMode m) (IsDeleteMode m)
           (IsEditMode m) (HasUnsavedChanges m).

Definition setWorker (self : SQLWorker.SQLWorker) (m : MainWindow)
  : MainWindow :=
  mkWindow (DataTable m) (editTriggers m) self (CurrentFilePath m)
           (CurrentTableName m) (IsAddMode m) (IsDeleteMode m)
           (IsEditMode m) (HasUnsavedChanges m).

Definition setTableName (name : string) (m : MainWindow) : MainWindow :=
  mkWindow (DataTable m) (editTriggers m) (Worker m) (CurrentFilePath m)
           name (IsAddMode m) (IsDeleteMode m) (IsEditMode m)
           (HasUnsavedChanges m).

Definition setModes (add delete edit : bool) (m : MainWindow) : MainWindow :=
  mkWindow (DataTable m) (editTriggers m) (Worker m) (CurrentFilePath m)
           (CurrentTableName m) add delete edit (HasUnsavedChanges m).

Definition setUnsaved (b : bool) (m : MainWindow) : MainWindow :=
  mkWindow (DataTable m) (editTriggers m) (Worker m) (CurrentFilePath m)
           (CurrentTableName m) (IsAddMode m) (IsDeleteMode m)
           (IsEditMode m) b.

(** [EnableTableEditing] and [DisableTableEditing]. *)
Definition EnableTableEditing (m : MainWindow) : MainWindow :=
  setEditTriggers DoubleClickedOrEditKeyPressed m.

Definition DisableTableEditing (m : MainWindow) : MainWindow :=
  setEditTriggers NoEditTriggers m.

(** [ResetToggleButtons]. *)
Definition ResetToggleButtons (m : MainWindow) : MainWindow :=
  setEditTriggers NoEditTriggers (setModes false false false m).

(** [AddNewRow]. *)
Definition AddNewRow (m : MainWindow) : MainWindow :=
  let _newRow := rowCount (DataTable m) in
  let tw1 := insertRow _newRow (DataTable m) in
  let tw2 :=
    fold_left (fun acc _col => setItem _newRow _col "" acc)
              (seq 0 (columnCount tw1)) tw1 in
  setUnsaved true (setEditTriggers DoubleClicked (setTable tw2 m)).

(** [DeleteRow]; [row] is an [int]. *)
Definition DeleteRow (row : Z) (m : MainWindow) : MainWindow :=
  if Z.leb 0 row && Z.ltb row (Z.of_nat (rowCount (DataTable m)))
  then setUnsaved true (setTable (removeRow (Z.to_nat row) (DataTable m)) m)
  else m.

(** [MainWindow::LoadTableData]. *)
Definition LoadTableData (m : MainWindow) (w : World) : MainWindow * World :=
  if QStr.isEmpty (CurrentTableName m)
     || negb (SQLWorker.IsFileLoaded (Worker m))
  then (m, w)
  else
    let '(ok, tableWidget, w1) :=
      SQLWorker.LoadTableData (CurrentTableName m) (Some (DataTable m))
                              (Worker m) w in
    let tw := match tableWidget with
              | Some g => g
              | None => DataTable m
              end in
    if ok then (setUnsaved false (setTable tw m), w1)
    else (setTable tw m, w1).

(** [OnAddButtonClicked]. *)
Definition OnAddButtonClicked (m : MainWindow) : MainWindow :=
  if IsAddMode m
  then DisableTableEditing
         (setModes false (IsDeleteMode m) (IsEditMode m) m)
  else
    let m1 := ResetToggleButtons m in
    AddNewRow (setModes true (IsDeleteMode m1) (IsEditMode m1) m1).

(** [OnDeleteButtonClicked]. *)
Definition OnDeleteButtonClicked (m : MainWindow) : MainWindow :=
  if IsDeleteMode m
  then setModes (IsAddMode m) false (IsEditMode m) m
  else
    let m1 := ResetToggleButtons m in
    setModes (IsAddMode m1) true (IsEditMode m1) m1.

(** [OnEditButtonClicked]. *)
Definition OnEditButtonClicked (m : MainWindow) : MainWindow :=
  if IsEditMode m
  then DisableTableEditing
         (setModes (IsAddMode m) (IsDeleteMode m) false m)
  else
    let m1 := ResetToggleButtons m in
    EnableTableEditing (setModes (IsAddMode m1) (IsDeleteMode m1) true m1).

(** Nothing to save and nothing to discard: the first test of
    [OnUpdateButtonClicked] and of [OnCancelButtonClicked]. *)
Definition idle (m : MainWindow) : bool :=
  negb (HasUnsavedChanges m) && negb (IsAddMode m)
  && negb (IsDeleteMode m) && negb (IsEditMode m).

(** [OnUpdateButtonClicked]; its three branches make the same call. *)
Definition OnUpdateButtonClicked (m : MainWindow) (w : World)
  : MainWindow * World :=
  if idle m then (m, w)
  else
    let '(success, self1, w1) :=
      SQLWorker.UpdateCompleteTable (CurrentTableName m)
                                    (Some (DataTable m)) (Worker m) w in
    let m1 := setWorker self1 m in
    if success then
      let '(m2, w2) := LoadTableData (ResetToggleButtons m1) w1 in
      (setUnsaved false m2, w2)
    else (m1, w1).

(** [OnCancelButtonClicked]; [yes] is the answer to the confirmation. *)
Definition OnCancelButtonClicked (yes : bool) (m : MainWindow) (w : World)
  : MainWindow * World :=
  if idle m then (m, w)
  else if yes then
    let '(m2, w2) := LoadTableData (ResetToggleButtons m) w in
    (setUnsaved false m2, w2)
  else (m, w).

(** [OnRowDoubleClicked]; [yes] is the answer to the confirmation, asked
    only in delete mode and for a row index that is not negative. *)
Definition OnRowDoubleClicked (row : Z) (yes : bool) (m : MainWindow)
  : MainWindow :=
  if IsDeleteMode m && Z.leb 0 row
  then if yes then setUnsaved true (DeleteRow row m) else m
  else m.

(** [OnTableSelectionChanged]; [currentIndex] and [currentText] are those
    of the table selector. *)
Definition OnTableSelectionChanged (currentIndex : Z) (currentText : string)
           (m : MainWindow) (w : World) : MainWindow * World :=
  if Z.leb 0 currentIndex
  then
    let '(m1, w1) := LoadTableData (setTableName currentText m) w in
    (ResetToggleButtons m1, w1)
  else (m, w).

(** What the user can do to the window once a table is shown, with the
    handler [SetupConnections] connects to each. *)
Inductive Click :=
| AddClicked
| DeleteClicked
| EditClicked
| UpdateClicked
| CancelClicked (yes : bool)
| RowDoubleClicked (row : Z) (yes : bool)
| TableSelected (currentIndex : Z) (currentText : string).

Definition handle (click : Click) (m : MainWindow) (w : World)
  : MainWindow * World :=
  match click with
  | AddClicked => (OnAddButtonClicked m, w)
  | DeleteClicked => (OnDeleteButtonClicked m, w)
  | EditClicked => (OnEditButtonClicked m, w)
  | UpdateClicked => OnUpdateButtonClicked m w
  | CancelClicked yes => OnCancelButtonClicked yes m w
  | RowDoubleClicked row yes => (OnRowDoubleClicked row yes m, w)
  | TableSelected i text => OnTableSelectionChanged i text m w
  end.

Fixpoint session (clicks : list Click) (m : MainWindow) (w : World)
  : MainWindow * World :=
  match clicks with
  | [] => (m, w)
  | click :: rest =>
      let '(m1, w1) := handle click m w in session rest m1 w1
  end.

(** At most one mode is active, and the grid takes edits exactly as the
    active mode says. *)
Definition modeShape (m : MainWindow) : Prop :=
  match IsAddMode m, IsDeleteMode m, IsEditMode m with
  | false, false, false => editTriggers m = NoEditTriggers
  | true, false, false => editTriggers m = DoubleClicked
  | false, true, false => editTriggers m = NoEditTriggers
  | false, false, true => editTriggers m = DoubleClickedOrEditKeyPressed
  | _, _, _ => False
  end.

End Window.

(* ================================================================== *)
(** ** Further vocabulary and sample data *)
(* ================================================================== *)

Module More.
Import Engine Grid SQLWorker.

(** [rowData] cut or filled with empty texts to [n] values. *)
Definition padded (n : nat) (rowData : list string) : list string :=
  firstn n rowData ++ repeat "" (n - length rowData).

(** Names and column lists of the tables of a file. *)
Definition schema (db : Database) : list (string * list string) :=
  map (fun tb => (tblName tb, tblColumns tb)) (tables db).

(** A window showing [users] of [shop.db], just loaded. *)
Definition shown : Window.MainWindow :=
  Window.mkWindow
    (Spec.loadedGrid ["id"; "name"] [["1"; "Ann"]; ["2"; "Bo"]])
    Window.NoEditTriggers Sample.loaded "shop.db" "users"
    false false false false.

(** A window showing [tags] of [desk.db], just loaded. *)
Definition labelled : Window.MainWindow :=
  Window.mkWindow
    (Spec.loadedGrid ["code"; "label"] [["a"; "red"]])
    Window.NoEditTriggers Sample.atDesk "desk.db" "tags"
    false false false false.

End More.

(* ================================================================== *)
(** ** Facts about the engine *)
(* ================================================================== *)

Import Engine Grid SQLWorker Spec.

Unset Implicit Arguments.

Arguments Sql.GET_TABLES_QUERY : simpl never.
Arguments Sql.GET_COLUMNS_QUERY : simpl never.
Arguments Sql.SELECT_ALL_QUERY : simpl never.
Arguments Sql.DELETE_ALL_QUERY : simpl never.
Arguments Sql.INSERT_QUERY_TEMPLATE : simpl never.
Arguments Sql.SELECT_ONE : simpl never.
Arguments insertQueryString : simpl never.
Arguments QStr.number : simpl never.

Lemma stepped_refl w : stepped [] w w.
Proof. split; auto. now rewrite app_nil_r. Qed.

Lemma stepped_trans e1 e2 w1 w2 w3 :
  stepped e1 w1 w2 -> stepped e2 w2 w3 -> stepped (e1 ++ e2) w1 w3.
Proof.
  intros [d1 r1 t1 c1] [d2 r2 t2 c2]. split.
  - congruence.
  - congruence.
  - rewrite t2, t1. now rewrite app_assoc.
  - auto.
Qed.

Lemma call_stepped c e w :
  stepped [e] w (snd (call c e w)).
Proof.
  unfold call, tick, emit. simpl.
  destruct (faults w) as [|b rest] eqn:F; simpl; split; simpl; auto;
    unfold calm; simpl; rewrite F; intros H; auto.
  now inversion H.
Qed.

Lemma call_calm c e w :
  calm w -> fst (call c e w) = isOpen c.
Proof.
  unfold call, tick, emit, calm. simpl.
  destruct (faults w) as [|b rest]; simpl; intros H.
  - now rewrite andb_true_r.
  - inversion H; subst. now rewrite andb_true_r.
Qed.

Lemma call_closed c e w :
  isOpen c = false -> fst (call c e w) = false.
Proof.
  intros H. unfold call. destruct (tick (emit e w)). simpl. now rewrite H.
Qed.

Lemma execRead_stepped c sql rows w :
  stepped [EvExec sql] w (snd (execRead c sql rows w)).
Proof.
  unfold execRead. pose proof (call_stepped c (EvExec sql) w) as H.
  destruct (call c (EvExec sql) w). exact H.
Qed.

Lemma execRead_calm c sql rows w :
  calm w -> isOpen c = true -> fst (execRead c sql rows w) = rows.
Proof.
  intros Hc Ho. unfold execRead.
  pose proof (call_calm c (EvExec sql) w Hc) as H.
  destruct (call c (EvExec sql) w). simpl in *. now rewrite H, Ho.
Qed.

Lemma execRead_result c sql rows w :
  fst (execRead c sql rows w) = rows \/ fst (execRead c sql rows w) = None.
Proof.
  unfold execRead. destruct (call c (EvExec sql) w) as [[|] ?]; auto.
Qed.

Lemma prepareInsert_stepped c t cols sql w :
  stepped [EvPrepare sql] w (snd (prepareInsert c t cols sql w)).
Proof.
  unfold prepareInsert. pose proof (call_stepped c (EvPrepare sql) w) as H.
  destruct (call c (EvPrepare sql) w). exact H.
Qed.

(** *** Writing to the file *)

Lemma findStored_updateStored n f ts :
  (forall tb, tblName (f tb) = tblName tb) ->
  findStored n (updateStored n f ts) = option_map f (findStored n ts).
Proof.
  intros Hf. unfold findStored.
  induction ts as [|tb ts IH]; simpl; auto.
  destruct (String.eqb (tblName tb) n) eqn:E; simpl.
  - now rewrite Hf, E.
  - now rewrite E.
Qed.

Lemma updateStored_compose n f g ts :
  (forall tb, tblName (g tb) = tblName tb) ->
  updateStored n f (updateStored n g ts)
  = updateStored n (fun tb => f (g tb)) ts.
Proof.
  intros Hg. induction ts as [|tb ts IH]; simpl; auto.
  destruct (String.eqb (tblName tb) n) eqn:E; simpl.
  - now rewrite Hg, E.
  - now rewrite E, IH.
Qed.

Lemma updateStored_ext n f g ts :
  (forall tb, findStored n ts = Some tb -> f tb = g tb) ->
  updateStored n f ts = updateStored n g ts.
Proof.
  unfold findStored. induction ts as [|x ts IH]; simpl; intros H; auto.
  destruct (String.eqb (tblName x) n).
  - now rewrite H.
  - now rewrite IH.
Qed.

Lemma updateStored_same n f ts :
  (forall tb, f tb = tb) -> updateStored n f ts = ts.
Proof.
  intros H. induction ts as [|x ts IH]; simpl; auto.
  destruct (String.eqb (tblName x) n); congruence.
Qed.

Lemma withTables_same db : withTables (tables db) db = db.
Proof. now destruct db. Qed.

(** Writing to a table leaves the engine of the file as it is. *)
Lemma updateTable_engine t f db :
  reads (updateTable t f db) = reads db /\
  renders (updateTable t f db) = renders db /\
  places (updateTable t f db) = places db /\
  walks (updateTable t f db) = walks db.
Proof. unfold updateTable. destruct (reads db t); auto. Qed.

Lemma landed_updateTable t f db :
  landed (updateTable t f db) = landed db.
Proof.
  destruct (updateTable_engine t f db) as (_ & R & P & _).
  unfold landed. now rewrite R, P.
Qed.


Lemma findTable_updateTable t f db :
  (forall tb, tblName (f tb) = tblName tb) ->
  findTable t (updateTable t f db) = option_map f (findTable t db).
Proof.
  intros Hf. unfold findTable, updateTable.
  destruct (reads db t) as [n|] eqn:R; cbn [reads withTables tables].
  - rewrite R. now apply findStored_updateStored.
  - now rewrite R.
Qed.

Lemma updateTable_compose t f g db :
  (forall tb, tblName (g tb) = tblName tb) ->
  updateTable t f (updateTable t g db) = updateTable t (fun tb => f (g tb)) db.
Proof.
  intros Hg. unfold updateTable.
  destruct (reads db t) as [n|] eqn:R; cbn [reads withTables tables].
  - rewrite R. unfold withTables. cbn [reads renders places walks tables].
    now rewrite updateStored_compose.
  - now rewrite R.
Qed.

Lemma updateStored_fixed n f ts tb :
  findStored n ts = Some tb -> f tb = tb -> updateStored n f ts = ts.
Proof.
  unfold findStored. induction ts as [|x ts IH]; simpl; intros F E; auto.
  destruct (String.eqb (tblName x) n).
  - inversion F; subst. now rewrite E.
  - now rewrite IH.
Qed.

Lemma updateTable_fixed t f db tb :
  findTable t db = Some tb -> f tb = tb -> updateTable t f db = db.
Proof.
  unfold findTable, updateTable. destruct (reads db t) as [n|]; auto.
  intros F E. rewrite (updateStored_fixed n f (tables db) tb F E).
  apply withTables_same.
Qed.

Lemma updateTable_ext t f g db :
  (forall tb, findTable t db = Some tb -> f tb = g tb) ->
  updateTable t f db = updateTable t g db.
Proof.
  unfold findTable, updateTable. destruct (reads db t) as [n|]; auto.
  intros H. f_equal. now apply updateStored_ext.
Qed.

Lemma insertCompiles_updateTable t cols f db :
  (forall tb, tblName (f tb) = tblName tb) ->
  (forall tb, tblColumns (f tb) = tblColumns tb) ->
  insertCompiles t cols (updateTable t f db) = insertCompiles t cols db.
Proof.
  intros Hn Hc. unfold insertCompiles.
  rewrite findTable_updateTable by assumption.
  destruct (findTable t db); simpl; auto. now rewrite Hc.
Qed.

(** *** Transactions *)

Lemma elsewhere_refl path w : elsewhere path w w.
Proof. now intros p _. Qed.

Lemma elsewhere_trans path w1 w2 w3 :
  elsewhere path w1 w2 -> elsewhere path w2 w3 -> elsewhere path w1 w3.
Proof. intros H1 H2 p Hp. now rewrite H2, H1. Qed.

Lemma stepped_elsewhere e path w w' : stepped e w w' -> elsewhere path w w'.
Proof. intros [d _ _ _] p _. now rewrite d. Qed.

Lemma transaction_started c w c1 w1 :
  transaction c w = (true, c1, w1) ->
  savepoint c = None /\ isOpen c = true /\
  c1 = mkConn (databaseName c) true (Some (current c w)) /\
  stepped [EvTransaction] w w1.
Proof.
  unfold transaction. pose proof (call_stepped c EvTransaction w) as St.
  destruct (call c EvTransaction w) as [ok w0] eqn:C. simpl in St.
  destruct (savepoint c); [discriminate|].
  destruct ok; [|discriminate]. intros H; inversion H; subst.
  assert (Ho : isOpen c = true).
  { unfold call in C. destruct (tick (emit EvTransaction w)).
    inversion C. destruct (isOpen c); auto. }
  repeat split; auto; try apply St.
  unfold current. now rewrite Ho, (stepped_disk St).
Qed.

Lemma transaction_refused c w c1 w1 :
  transaction c w = (false, c1, w1) ->
  c1 = c /\ stepped [EvTransaction] w w1.
Proof.
  unfold transaction. pose proof (call_stepped c EvTransaction w) as St.
  destruct (call c EvTransaction w) as [ok w0]. simpl in St.
  destruct (savepoint c); [|destruct ok]; intros H; inversion H; subst; auto.
Qed.

Lemma transaction_calm c w :
  calm w -> isOpen c = true -> savepoint c = None ->
  fst (fst (transaction c w)) = true.
Proof.
  intros Hc Ho Hs. unfold transaction.
  pose proof (call_calm c EvTransaction w Hc) as H.
  destruct (call c EvTransaction w) as [ok w0]. simpl in H.
  rewrite Hs. subst ok. now rewrite Ho.
Qed.

Lemma rollback_restores c w image :
  savepoint c = Some image ->
  let '(c', w') := rollback c w in
  c' = mkConn (databaseName c) (isOpen c) None /\
  (forall p, disk w' p
             = if String.eqb p (databaseName c) then image else disk w p) /\
  trace w' = trace w ++ [EvRollback] /\
  registry w' = registry w /\ faults w' = faults w.
Proof. intros H. unfold rollback. rewrite H. simpl. auto. Qed.

Lemma commit_result c w image :
  savepoint c = Some image ->
  let '(ok, c', w') := commit c w in
  stepped [EvCommit] w w' /\
  (ok = true -> c' = mkConn (databaseName c) (isOpen c) None) /\
  (ok = false -> c' = c).
Proof.
  intros H. unfold commit. pose proof (call_stepped c EvCommit w) as St.
  destruct (call c EvCommit w) as [ok w0]. simpl in St. rewrite H.
  destruct ok; (split; [exact St|]); split; intros E; auto; discriminate.
Qed.

Lemma commit_calm c w image :
  calm w -> isOpen c = true -> savepoint c = Some image ->
  fst (fst (commit c w)) = true.
Proof.
  intros Hc Ho Hs. unfold commit.
  pose proof (call_calm c EvCommit w Hc) as H.
  destruct (call c EvCommit w) as [ok w0]. simpl in H.
  rewrite Hs. subst ok. now rewrite Ho.
Qed.

(** What [DELETE FROM t] does when it goes through, and when it does not. *)
Lemma execDeleteAll_result c t w :
  let '(ok, w') := execDeleteAll c t w in
  trace w' = trace w ++ [EvExec (Sql.DELETE_ALL_QUERY t)] /\
  registry w' = registry w /\
  (calm w -> calm w') /\
  elsewhere (databaseName c) w w' /\
  (ok = false -> disk w' = disk w) /\
  (ok = true ->
   exists tb, findTable t (current c w) = Some tb /\
     disk w' (databaseName c) = replaceRows t [] (current c w)).
Proof.
  unfold execDeleteAll.
  pose proof (call_stepped c (EvExec (Sql.DELETE_ALL_QUERY t)) w) as St.
  destruct (call c (EvExec (Sql.DELETE_ALL_QUERY t)) w) as [ok w0].
  simpl in St. destruct St as [d r tr cm]. unfold current. rewrite d.
  destruct (findTable t (disk w (databaseName c))) as [tb|] eqn:F.
  - destruct ok; simpl.
    + repeat split; auto.
      * intros p Hp. simpl. now rewrite Hp, d.
      * discriminate.
      * intros _. exists tb. split; auto.
        unfold replaceRows. now rewrite String.eqb_refl.
    + repeat split; auto.
      * intros p _. now rewrite d.
      * discriminate.
  - repeat split; auto.
    + intros p _. now rewrite d.
    + discriminate.
Qed.

Lemma execInsert_result c t cols sql binds w :
  let '(ok, w') := execInsert c t cols sql binds w in
  trace w' = trace w ++ [EvExecPrepared sql binds] /\
  registry w' = registry w /\
  (calm w -> calm w') /\
  elsewhere (databaseName c) w w' /\
  (ok = false -> disk w' = disk w) /\
  (ok = true ->
   insertCompiles t cols (current c w) = true /\
   disk w' (databaseName c)
   = updateTable t
       (fun tb => mkTable (tblName tb) (tblColumns tb)
                    (landed (current c w) (tblName tb) (tblRows tb)
                            (storedRow cols binds tb)))
       (current c w)).
Proof.
  unfold execInsert.
  pose proof (call_stepped c (EvExecPrepared sql binds) w) as St.
  destruct (call c (EvExecPrepared sql binds) w) as [ok w0].
  simpl in St. destruct St as [d r tr cm]. unfold current. rewrite d.
  destruct (ok && insertCompiles t cols (disk w (databaseName c))) eqn:E; simpl.
  - apply andb_true_iff in E. destruct E as [_ E].
    repeat split; auto.
    + intros p Hp. simpl. now rewrite Hp, d.
    + discriminate.
    + now rewrite String.eqb_refl.
  - repeat split; auto; try discriminate.
    intros p _. now rewrite d.
Qed.

Lemma execInsert_calm c t cols sql binds w :
  calm w -> isOpen c = true -> insertCompiles t cols (current c w) = true ->
  fst (execInsert c t cols sql binds w) = true.
Proof.
  intros Hc Ho Hi. unfold execInsert.
  pose proof (call_calm c (EvExecPrepared sql binds) w Hc) as H.
  pose proof (call_stepped c (EvExecPrepared sql binds) w) as St.
  destruct (call c (EvExecPrepared sql binds) w) as [ok w0]. simpl in *.
  unfold current in *. rewrite (stepped_disk St), Hi. subst ok.
  now rewrite Ho.
Qed.

Lemma prepareInsert_result c t cols sql w :
  fst (prepareInsert c t cols sql w) = true ->
  insertCompiles t cols (current c w) = true.
Proof.
  unfold prepareInsert.
  pose proof (call_stepped c (EvPrepare sql) w) as St.
  destruct (call c (EvPrepare sql) w) as [ok w0]. simpl in *.
  unfold current. rewrite (stepped_disk St). intros H.
  now apply andb_true_iff in H.
Qed.

Lemma prepareInsert_calm c t cols sql w :
  calm w -> isOpen c = true ->
  fst (prepareInsert c t cols sql w) = insertCompiles t cols (current c w).
Proof.
  intros Hc Ho. unfold prepareInsert.
  pose proof (call_calm c (EvPrepare sql) w Hc) as H.
  pose proof (call_stepped c (EvPrepare sql) w) as St.
  destruct (call c (EvPrepare sql) w) as [ok w0]. simpl in *.
  unfold current. rewrite (stepped_disk St). subst ok. now rewrite Ho.
Qed.

(* ================================================================== *)
(** ** Facts about the worker's helpers *)
(* ================================================================== *)

Lemma pragma_names_from acc cols :
  fold_left (fun _columns row => _columns ++ [nth 1 row ""])
            (map (fun col => [""; col]) cols) acc
  = acc ++ cols.
Proof.
  revert acc. induction cols as [|col cols IH]; intros acc; simpl.
  - now rewrite app_nil_r.
  - rewrite IH. now rewrite <- app_assoc.
Qed.

Lemma GetTableColumns_stepped t self w :
  stepped [EvExec (Sql.GET_COLUMNS_QUERY t)] w (snd (GetTableColumns t self w)).
Proof.
  unfold GetTableColumns, execGetColumns.
  pose proof (execRead_stepped (SqlDatabase self) (Sql.GET_COLUMNS_QUERY t)
                (Some (pragmaRows t (current (SqlDatabase self) w))) w) as St.
  destruct (execRead _ _ _ w) as [[rows|] w1]; exact St.
Qed.

Lemma GetTableColumns_result t self w tb :
  findTable t (current (SqlDatabase self) w) = Some tb ->
  fst (GetTableColumns t self w) = tblColumns tb
  \/ fst (GetTableColumns t self w) = [].
Proof.
  intros F. unfold GetTableColumns, execGetColumns.
  destruct (execRead_result (SqlDatabase self) (Sql.GET_COLUMNS_QUERY t)
              (Some (pragmaRows t (current (SqlDatabase self) w))) w) as [H|H];
    destruct (execRead _ _ _ w) as [res w1]; simpl in H; subst res; simpl; auto.
  left. unfold pragmaRows. rewrite F. apply (pragma_names_from []).
Qed.

Lemma GetTableColumns_calm t self w tb :
  calm w -> isOpen (SqlDatabase self) = true ->
  findTable t (current (SqlDatabase self) w) = Some tb ->
  fst (GetTableColumns t self w) = tblColumns tb.
Proof.
  intros Hc Ho F. unfold GetTableColumns, execGetColumns.
  pose proof (execRead_calm (SqlDatabase self) (Sql.GET_COLUMNS_QUERY t)
                (Some (pragmaRows t (current (SqlDatabase self) w))) w Hc Ho) as H.
  destruct (execRead _ _ _ w) as [res w1]; simpl in H; subst res; simpl.
  unfold pragmaRows. rewrite F. apply (pragma_names_from []).
Qed.

(** A query that brings back a column list comes from a table. *)
Lemma GetTableColumns_nonempty t self w :
  length (fst (GetTableColumns t self w)) <> 0 ->
  isOpen (SqlDatabase self) = true /\
  exists tb, findTable t (current (SqlDatabase self) w) = Some tb /\
             fst (GetTableColumns t self w) = tblColumns tb.
Proof.
  unfold GetTableColumns, execGetColumns, execRead.
  destruct (isOpen (SqlDatabase self)) eqn:Ho.
  - destruct (call _ _ w) as [[|] w1]; simpl; [|congruence].
    unfold pragmaRows.
    destruct (findTable t (current (SqlDatabase self) w)) as [tb|];
      simpl; [|congruence].
    intros _. split; auto. exists tb. split; auto.
    apply (pragma_names_from []).
  - pose proof (call_closed (SqlDatabase self)
                  (EvExec (Sql.GET_COLUMNS_QUERY t)) w Ho) as H.
    destruct (call _ _ w) as [ok w1]. simpl in H. subst ok. simpl. congruence.
Qed.

(** The source's choice between catalog column and placeholder is the
    specification's rule for a position without header. *)
Lemma columnNameAt_catalog catalog n :
  (if Nat.ltb n (length catalog) then nth n catalog ""
   else ("Column_" ++ QStr.number (n + 1))%string)
  = columnNameAt None catalog n.
Proof.
  unfold columnNameAt.
  destruct (Nat.ltb n (length catalog)) eqn:E.
  - apply Nat.ltb_lt in E.
    destruct (nth_error catalog n) as [col|] eqn:N.
    + now apply nth_error_nth.
    + apply nth_error_None in N. lia.
  - apply Nat.ltb_ge in E. apply nth_error_None in E. now rewrite E.
Qed.

Lemma columns_loop t tw self tb cols :
  forall acc w,
    findTable t (current (SqlDatabase self) w) = Some tb ->
    let '(names, w') := UpdateCompleteTable_columns t tw self cols acc w in
    exists added,
      names = acc ++ added /\
      Forall2 (resolvedAs tw (tblColumns tb)) cols added /\
      stepped (map (fun _ => EvExec (Sql.GET_COLUMNS_QUERY t))
                   (filter (noHeader tw) cols)) w w' /\
      (calm w -> isOpen (SqlDatabase self) = true ->
       added = map (fun n => columnNameAt (horizontalHeaderItem n tw)
                                          (tblColumns tb) n) cols).
Proof.
  induction cols as [|col cols IH]; intros acc w F;
    cbn [UpdateCompleteTable_columns filter map].
  - exists []. rewrite app_nil_r.
    refine (conj eq_refl (conj _ (conj (stepped_refl w) _))); auto.
  - unfold noHeader at 1.
    destruct (horizontalHeaderItem col tw) as [text|] eqn:Hd.
    + specialize (IH (acc ++ [text]) w F).
      destruct (UpdateCompleteTable_columns t tw self cols (acc ++ [text]) w)
        as [names w'].
      destruct IH as (added & E & R & St & Cm).
      exists (text :: added). rewrite E, <- app_assoc. simpl.
      refine (conj eq_refl (conj _ (conj St _))).
      * constructor; auto. left. unfold columnNameAt. now rewrite Hd.
      * intros Hc Ho. now rewrite (Cm Hc Ho).
    + pose proof (GetTableColumns_stepped t self w) as St0.
      pose proof (GetTableColumns_result t self w tb F) as Res.
      pose proof (fun Hc Ho => GetTableColumns_calm t self w tb Hc Ho F) as Cal.
      destruct (GetTableColumns t self w) as [dbColumns w1].
      cbn [fst snd] in *.
      assert (F1 : findTable t (current (SqlDatabase self) w1) = Some tb).
      { unfold current in *. now rewrite (stepped_disk St0). }
      assert (E0 : (if Nat.ltb col (length dbColumns)
                    then UpdateCompleteTable_columns t tw self cols
                           (acc ++ [nth col dbColumns ""]) w1
                    else UpdateCompleteTable_columns t tw self cols
                           (acc ++ [("Column_" ++ QStr.number (col + 1))%string]) w1)
                   = UpdateCompleteTable_columns t tw self cols
                       (acc ++ [columnNameAt None dbColumns col]) w1).
      { rewrite <- columnNameAt_catalog.
        now destruct (Nat.ltb col (length dbColumns)). }
      rewrite E0. clear E0.
      specialize (IH (acc ++ [columnNameAt None dbColumns col]) w1 F1).
      destruct (UpdateCompleteTable_columns t tw self cols
                  (acc ++ [columnNameAt None dbColumns col]) w1) as [names w'].
      destruct IH as (added & E & R & St & Cm).
      exists (columnNameAt None dbColumns col :: added).
      rewrite E, <- app_assoc. simpl.
      refine (conj eq_refl (conj _ (conj (stepped_trans _ _ _ _ _ St0 St) _))).
      * constructor; auto. unfold resolvedAs. rewrite Hd.
        destruct Res as [-> | ->]; auto.
      * intros Hc Ho. rewrite (Cal Hc Ho).
        now rewrite (Cm (stepped_calm St0 Hc) Ho).
Qed.

Lemma updateTable_same t f db :
  (forall tb, f tb = tb) -> updateTable t f db = db.
Proof.
  intros H. unfold updateTable. destruct (reads db t) as [n|]; auto.
  rewrite updateStored_same by assumption. apply withTables_same.
Qed.

Lemma rows_loop t tw names sql image rows :
  forall self w,
    savepoint (SqlDatabase self) = Some image ->
    let '(ok, self', w') :=
      UpdateCompleteTable_rows t tw names sql rows self w in
    elsewhere (databaseName (SqlDatabase self)) w w' /\
    registry w' = registry w /\
    (exists rest,
        trace w' = trace w ++ rest /\ Forall (insertPhase sql) rest /\
        (ok = true ->
         rest = flat_map (fun row => [EvPrepare sql;
                                      EvExecPrepared sql (rowTexts tw row)])
                         rows)) /\
    (ok = false ->
     disk w' (databaseName (SqlDatabase self)) = image /\
     self' = withDb (mkConn (databaseName (SqlDatabase self))
                            (isOpen (SqlDatabase self)) None) self) /\
    (ok = true ->
     self' = self /\ (calm w -> calm w') /\
     disk w' (databaseName (SqlDatabase self))
     = updateTable t
         (appended (disk w (databaseName (SqlDatabase self))) tw names rows)
         (disk w (databaseName (SqlDatabase self)))).
Proof.
  induction rows as [|row rows IH]; intros self w Sv;
    cbn [UpdateCompleteTable_rows].
  - refine (conj (elsewhere_refl _ w) (conj eq_refl (conj _ (conj _ _)))).
    + exists []. rewrite app_nil_r. auto.
    + discriminate.
    + intros _. refine (conj eq_refl (conj (fun H => H) _)).
      symmetry. apply updateTable_same. intros [n c r].
      reflexivity.
  - set (c := SqlDatabase self) in *.
    pose proof (prepareInsert_stepped c t names sql w) as St1.
    destruct (prepareInsert c t names sql w) as [prepared w1].
    cbn [snd] in St1.
    destruct prepared; cbn [negb].
    + pose proof (execInsert_result c t names sql (rowTexts tw row) w1) as Ins.
      destruct (execInsert c t names sql (rowTexts tw row) w1) as [done w2].
      destruct Ins as (Tr & Rg & Cm & El & Dk0 & Dk1).
      destruct done; cbn [negb].
      * specialize (IH self w2 Sv). fold c in IH.
        destruct (UpdateCompleteTable_rows t tw names sql rows self w2)
          as [[ok self'] w'].
        destruct IH as (El' & Rg' & (rest & Tr' & Ph & Ex) & Bad & Good).
        refine (conj _ (conj _ (conj _ (conj Bad _)))).
        -- eapply elsewhere_trans; [apply (stepped_elsewhere _ _ _ _ St1)|].
           eapply elsewhere_trans; eauto.
        -- rewrite Rg', Rg. apply (stepped_registry St1).
        -- exists (EvPrepare sql :: EvExecPrepared sql (rowTexts tw row) :: rest).
           split; [|split].
           ++ rewrite Tr', Tr, (stepped_trace St1).
              now rewrite <- !app_assoc.
           ++ repeat constructor; auto.
           ++ intros E. simpl. now rewrite (Ex E).
        -- intros E. destruct (Good E) as (-> & Cm' & Dk).
           refine (conj eq_refl (conj _ _)).
           ++ intros H. apply Cm', Cm, (stepped_calm St1), H.
           ++ rewrite Dk. destruct (Dk1 eq_refl) as (_ & ->).
              unfold current. rewrite (stepped_disk St1).
              unfold appended. rewrite landed_updateTable.
              rewrite updateTable_compose by reflexivity.
              apply updateTable_ext. intros [n cs rs] _.
              reflexivity.
      * pose proof (rollback_restores c w2 image Sv) as Rb.
        destruct (rollback c w2) as [c' w3].
        destruct Rb as (-> & Dk & Tr' & Rg' & _).
        refine (conj _ (conj _ (conj _ (conj _ _)))).
        -- intros p Hp. rewrite Dk, Hp, (Dk0 eq_refl).
           now rewrite (stepped_disk St1).
        -- rewrite Rg', Rg. apply (stepped_registry St1).
        -- exists [EvPrepare sql; EvExecPrepared sql (rowTexts tw row);
                   EvRollback].
           split; [|split].
           ++ rewrite Tr', Tr, (stepped_trace St1).
              now rewrite <- !app_assoc.
           ++ repeat constructor; auto.
           ++ discriminate.
        -- intros _. split; auto. now rewrite Dk, String.eqb_refl.
        -- discriminate.
    + pose proof (rollback_restores c w1 image Sv) as Rb.
      destruct (rollback c w1) as [c' w3].
      destruct Rb as (-> & Dk & Tr' & Rg' & _).
      refine (conj _ (conj _ (conj _ (conj _ _)))).
      * intros p Hp. rewrite Dk, Hp. now rewrite (stepped_disk St1).
      * rewrite Rg'. apply (stepped_registry St1).
      * exists [EvPrepare sql; EvRollback].
        split; [|split].
        -- rewrite Tr', (stepped_trace St1). now rewrite <- !app_assoc.
        -- repeat constructor; auto.
        -- discriminate.
      * intros _. split; auto. now rewrite Dk, String.eqb_refl.
      * discriminate.
Qed.

Lemma rows_calm t tw names sql rows :
  forall self w,
    calm w -> isOpen (SqlDatabase self) = true ->
    insertCompiles t names (current (SqlDatabase self) w) = true ->
    fst (fst (UpdateCompleteTable_rows t tw names sql rows self w)) = true.
Proof.
  induction rows as [|row rows IH]; intros self w Hc Ho Hi;
    cbn [UpdateCompleteTable_rows]; auto.
  set (c := SqlDatabase self) in *.
  pose proof (prepareInsert_stepped c t names sql w) as St1.
  pose proof (prepareInsert_calm c t names sql w Hc Ho) as P.
  destruct (prepareInsert c t names sql w) as [prepared w1].
  cbn [fst snd] in *. rewrite Hi in P. subst prepared. cbn [negb].
  assert (Hi1 : insertCompiles t names (current c w1) = true).
  { unfold current in *. now rewrite (stepped_disk St1). }
  pose proof (execInsert_result c t names sql (rowTexts tw row) w1) as Ins.
  pose proof (execInsert_calm c t names sql (rowTexts tw row) w1
                (stepped_calm St1 Hc) Ho Hi1) as D.
  destruct (execInsert c t names sql (rowTexts tw row) w1) as [done w2].
  cbn [fst] in D. subst done. cbn [negb].
  destruct Ins as (_ & _ & Cm & _ & _ & Dk).
  destruct (Dk eq_refl) as (_ & Dk').
  apply IH; auto.
  - apply Cm, (stepped_calm St1), Hc.
  - fold c. unfold current in *. rewrite Dk'.
    now rewrite insertCompiles_updateTable by reflexivity.
Qed.

Lemma execDeleteAll_calm c t w tb :
  calm w -> isOpen c = true -> findTable t (current c w) = Some tb ->
  fst (execDeleteAll c t w) = true.
Proof.
  intros Hc Ho F. unfold execDeleteAll.
  pose proof (call_calm c (EvExec (Sql.DELETE_ALL_QUERY t)) w Hc) as H.
  pose proof (call_stepped c (EvExec (Sql.DELETE_ALL_QUERY t)) w) as St.
  destruct (call c (EvExec (Sql.DELETE_ALL_QUERY t)) w) as [ok w0].
  cbn [fst snd] in *. unfold current in *. rewrite (stepped_disk St), F.
  subst ok. now rewrite Ho.
Qed.

Lemma UpdateCompleteTable_run t tw self w :
  FileLoaded self = true -> QStr.isEmpty t = false ->
  isOpen (SqlDatabase self) = true ->
  let '(ok, self', w') := UpdateCompleteTable t (Some tw) self w in
  elsewhere (databaseName (SqlDatabase self)) w w' /\
  registry w' = registry w /\
  (ok = false ->
   disk w' (databaseName (SqlDatabase self))
   = disk w (databaseName (SqlDatabase self))) /\
  ((ok = false /\ self' = self /\
    trace w' = trace w ++ [EvTransaction] /\
    (calm w -> savepoint (SqlDatabase self) <> None))
   \/
   (ok = false /\ savepoint (SqlDatabase self) = None /\
    trace w' = trace w ++ deleteCalls t ++ [EvRollback] /\
    (calm w -> findTable t (current (SqlDatabase self) w) = None))
   \/
   (exists tb names rest,
       savepoint (SqlDatabase self) = None /\
       findTable t (current (SqlDatabase self) w) = Some tb /\
       Forall2 (resolvedAs tw (tblColumns tb)) (seq 0 (columnCount tw)) names /\
       (calm w -> names = resolvedNames tw (tblColumns tb)) /\
       trace w' = trace w ++ deleteCalls t ++ resolutionCalls t tw
                  ++ EvPrepare (insertQueryString t names) :: rest /\
       Forall (insertPhase (insertQueryString t names)) rest /\
       self' = withDb (mkConn (databaseName (SqlDatabase self)) true None) self /\
       (calm w -> ok = insertCompiles t names (current (SqlDatabase self) w)) /\
       (ok = true ->
        rest = rowCalls (insertQueryString t names) tw ++ [EvCommit] /\
        insertCompiles t names (current (SqlDatabase self) w) = true /\
        disk w' (databaseName (SqlDatabase self))
        = replaceRows t (committedRows tw names tb) (current (SqlDatabase self) w) /\
        (calm w -> calm w')))).
Proof.
  intros Hl Hn Ho. unfold UpdateCompleteTable.
  rewrite Hl, Hn, Ho. cbn [negb orb].
  set (c := SqlDatabase self) in *. set (path := databaseName c) in *.
  destruct (transaction c w) as [[started c1] w1] eqn:T.
  destruct started; cbn [negb].
  2:{ destruct (transaction_refused _ _ _ _ T) as (-> & St).
      refine (conj (stepped_elsewhere _ _ _ _ St)
                (conj (stepped_registry St) (conj _ _))).
      - intros _. now rewrite (stepped_disk St).
      - left. refine (conj eq_refl (conj _ (conj (stepped_trace St) _))).
        + destruct self; reflexivity.
        + intros Hc Sv.
          pose proof (transaction_calm c w Hc Ho Sv) as X.
          rewrite T in X. discriminate. }
  destruct (transaction_started _ _ _ _ T) as (Sv & _ & -> & St1).
  clear T. fold path.
  set (c1 := mkConn path true (Some (current c w))).
  assert (Cur1 : current c1 w1 = current c w).
  { unfold current. cbn [databaseName c1]. fold path.
    now rewrite (stepped_disk St1). }
  pose proof (execDeleteAll_result c1 t w1) as Del.
  pose proof (fun tb Hc => execDeleteAll_calm c1 t w1 tb Hc eq_refl) as DelC.
  destruct (execDeleteAll c1 t w1) as [deleted w2].
  destruct Del as (Tr2 & Rg2 & Cm2 & El2 & Dk2 & Dk2').
  rewrite Cur1 in *. cbn [databaseName c1] in *. cbn [fst] in DelC.
  destruct deleted; cbn [negb].
  2:{ pose proof (rollback_restores c1 w2 (current c w) eq_refl) as Rb.
      destruct (rollback c1 w2) as [c3 w3].
      destruct Rb as (-> & Dk3 & Tr3 & Rg3 & _).
      cbn [databaseName isOpen c1] in *.
      assert (D : forall p, disk w3 p = disk w p).
      { intros p. rewrite Dk3. destruct (String.eqb p path) eqn:E.
        - apply String.eqb_eq in E. now subst p.
        - now rewrite (Dk2 eq_refl), (stepped_disk St1). }
      refine (conj _ (conj _ (conj _ _))).
      - intros p _. apply D.
      - rewrite Rg3, Rg2. apply (stepped_registry St1).
      - intros _. apply D.
      - right; left. refine (conj eq_refl (conj Sv (conj _ _))).
        + rewrite Tr3, Tr2, (stepped_trace St1). unfold deleteCalls.
          now rewrite <- !app_assoc.
        + intros Hc.
          destruct (findTable t (current c w)) as [tb|] eqn:F; auto.
          specialize (DelC tb (stepped_calm St1 Hc) eq_refl). discriminate. }
  destruct (Dk2' eq_refl) as (tb & F & Dk2''). clear Dk2 Dk2' DelC.
  set (self1 := withDb c1 self).
  set (tb0 := mkTable (tblName tb) (tblColumns tb) []).
  assert (F2 : findTable t (current (SqlDatabase self1) w2) = Some tb0).
  { unfold current. cbn [SqlDatabase self1 withDb databaseName c1].
    rewrite Dk2''. unfold replaceRows.
    rewrite findTable_updateTable by reflexivity. now rewrite F. }
  pose proof (columns_loop t tw self1 tb0 (seq 0 (columnCount tw)) [] w2 F2)
    as Col.
  destruct (UpdateCompleteTable_columns t tw self1 (seq 0 (columnCount tw)) [] w2)
    as [names w3].
  destruct Col as (added & E & Res & St3 & Cal). cbn [app] in E. subst added.
  cbn [tblColumns tb0] in *.
  set (sql := insertQueryString t names).
  pose proof (prepareInsert_stepped c1 t names sql w3) as St4.
  pose proof (prepareInsert_result c1 t names sql w3) as Pr.
  pose proof (prepareInsert_calm c1 t names sql w3) as PrC.
  destruct (prepareInsert c1 t names sql w3) as [prepared w4].
  cbn [fst snd] in *.
  assert (Cur3 : disk w3 path = replaceRows t [] (current c w)).
  { now rewrite (stepped_disk St3). }
  assert (IC : insertCompiles t names (current c1 w3)
               = insertCompiles t names (current c w)).
  { unfold current at 1. cbn [databaseName c1]. rewrite Cur3.
    unfold replaceRows.
    now rewrite insertCompiles_updateTable by reflexivity. }
  rewrite IC in *.
  assert (TrPre : trace w4 = trace w ++ deleteCalls t ++ resolutionCalls t tw
                           ++ [EvPrepare sql]).
  { rewrite (stepped_trace St4), (stepped_trace St3), Tr2, (stepped_trace St1).
    unfold deleteCalls, resolutionCalls, headerless.
    now rewrite <- !app_assoc. }
  assert (CalN : calm w -> names = resolvedNames tw (tblColumns tb)).
  { intros Hc. apply Cal; auto. apply Cm2, (stepped_calm St1), Hc. }
  assert (Calm3 : calm w -> calm w3).
  { intros Hc. apply (stepped_calm St3), Cm2, (stepped_calm St1), Hc. }
  assert (El4 : elsewhere path w w4).
  { eapply elsewhere_trans; [apply (stepped_elsewhere _ _ _ _ St1)|].
    eapply elsewhere_trans; [apply El2|].
    eapply elsewhere_trans; [apply (stepped_elsewhere _ _ _ _ St3)|].
    apply (stepped_elsewhere _ _ _ _ St4). }
  assert (Rg4 : registry w4 = registry w).
  { rewrite (stepped_registry St4), (stepped_registry St3), Rg2.
    apply (stepped_registry St1). }
  destruct prepared; cbn [negb].
  2:{ pose proof (rollback_restores c1 w4 (current c w) eq_refl) as Rb.
      destruct (rollback c1 w4) as [c5 w5].
      destruct Rb as (-> & Dk5 & Tr5 & Rg5 & _).
      cbn [databaseName isOpen c1] in *.
      refine (conj _ (conj _ (conj _ _))).
      - intros p Hp. rewrite Dk5, Hp. now apply El4.
      - now rewrite Rg5.
      - intros _. now rewrite Dk5, String.eqb_refl.
      - right; right. exists tb, names, [EvRollback].
        refine (conj Sv (conj F (conj Res (conj CalN (conj _ (conj _ (conj _
                  (conj _ _)))))))).
        + rewrite Tr5, TrPre. now rewrite <- !app_assoc.
        + repeat constructor.
        + reflexivity.
        + intros Hc. now rewrite <- PrC by auto.
        + discriminate. }
  specialize (Pr eq_refl).
  pose proof (rows_loop t tw names sql (current c w) (seq 0 (rowCount tw))
                self1 w4 eq_refl) as Rows.
  pose proof (rows_calm t tw names sql (seq 0 (rowCount tw)) self1 w4) as RowsC.
  destruct (UpdateCompleteTable_rows t tw names sql (seq 0 (rowCount tw)) self1 w4)
    as [[inserted self6] w6].
  cbn [SqlDatabase self1 withDb databaseName isOpen c1 fst] in Rows, RowsC.
  destruct Rows as (El6 & Rg6 & (rest & Tr6 & Ph6 & Ex6) & Bad & Good).
  destruct inserted; cbn [negb].
  2:{ destruct (Bad eq_refl) as (Dk6 & ->).
      refine (conj _ (conj _ (conj _ _))).
      - eapply elsewhere_trans; eauto.
      - now rewrite Rg6.
      - intros _. exact Dk6.
      - right; right. exists tb, names, rest.
        refine (conj Sv (conj F (conj Res (conj CalN (conj _ (conj Ph6 (conj _
                  (conj _ _)))))))).
        + rewrite Tr6, TrPre. now rewrite <- !app_assoc.
        + reflexivity.
        + intros Hc. exfalso.
          assert (X : false = true); [|discriminate].
          apply RowsC; auto.
          * apply (stepped_calm St4), Calm3, Hc.
          * rewrite <- Pr, <- IC. unfold current. cbn [databaseName c1].
            now rewrite (stepped_disk St4).
        + discriminate. }
  destruct (Good eq_refl) as (-> & Cm6 & Dk6). specialize (Ex6 eq_refl).
  cbn [SqlDatabase self1 withDb].
  pose proof (commit_result c1 w6 (current c w) eq_refl) as Com.
  pose proof (commit_calm c1 w6 (current c w)) as ComC.
  destruct (commit c1 w6) as [[committed c7] w7].
  destruct Com as (St7 & Good7 & Bad7). cbn [fst] in ComC.
  assert (Final : disk w6 path = replaceRows t (committedRows tw names tb)
                                            (current c w)).
  { rewrite Dk6, (stepped_disk St4), Cur3.
    unfold replaceRows, appended. rewrite landed_updateTable.
    rewrite updateTable_compose by reflexivity.
    apply updateTable_ext. intros tb' F'.
    assert (tb' = tb) by congruence. subst tb'.
    reflexivity. }
  destruct committed; cbn [negb].
  - rewrite (Good7 eq_refl). cbn [databaseName isOpen c1].
    refine (conj _ (conj _ (conj _ _))).
    + eapply elsewhere_trans; [|apply (stepped_elsewhere _ _ _ _ St7)].
      eapply elsewhere_trans; eauto.
    + now rewrite (stepped_registry St7), Rg6.
    + discriminate.
    + right; right. exists tb, names, (rest ++ [EvCommit]).
      refine (conj Sv (conj F (conj Res (conj CalN (conj _ (conj _ (conj _
                (conj _ _)))))))).
      * rewrite (stepped_trace St7), Tr6, TrPre. now rewrite <- !app_assoc.
      * apply Forall_app. split; auto. repeat constructor.
      * reflexivity.
      * intros _. now rewrite Pr.
      * intros _. refine (conj _ (conj Pr (conj _ _))).
        -- now rewrite Ex6.
        -- now rewrite (stepped_disk St7).
        -- intros Hc. apply (stepped_calm St7), Cm6, (stepped_calm St4),
             Calm3, Hc.
  - rewrite (Bad7 eq_refl).
    pose proof (rollback_restores c1 w7 (current c w) eq_refl) as Rb.
    destruct (rollback c1 w7) as [c8 w8].
    destruct Rb as (-> & Dk8 & Tr8 & Rg8 & _).
    cbn [databaseName isOpen c1] in *.
    refine (conj _ (conj _ (conj _ _))).
    + intros p Hp. rewrite Dk8, Hp, (stepped_disk St7).
      eapply elsewhere_trans; eauto.
    + now rewrite Rg8, (stepped_registry St7), Rg6.
    + intros _. now rewrite Dk8, String.eqb_refl.
    + right; right. exists tb, names, (rest ++ [EvCommit; EvRollback]).
      refine (conj Sv (conj F (conj Res (conj CalN (conj _ (conj _ (conj _
                (conj _ _)))))))).
      * rewrite Tr8, (stepped_trace St7), Tr6, TrPre.
        now rewrite <- !app_assoc.
      * apply Forall_app. split; auto. repeat constructor.
      * reflexivity.
      * intros Hc. exfalso.
        assert (X : false = true); [|discriminate].
        apply ComC; auto.
        apply Cm6, (stepped_calm St4), Calm3, Hc.
      * discriminate.
Qed.

(* ================================================================== *)
(** ** Facts about the grid and the load *)
(* ================================================================== *)

Lemma replaceNth_app {A} (pre : list A) x y rest :
  replaceNth (length pre) x (pre ++ y :: rest) = pre ++ x :: rest.
Proof. induction pre as [|a pre IH]; simpl; auto. now rewrite IH. Qed.

Lemma nth_middle_row {A} (pre : list (list A)) r rest :
  nth (length pre) (pre ++ r :: rest) [] = r.
Proof. induction pre as [|a pre IH]; simpl; auto. Qed.

Lemma setItem_at hs done r old col text :
  col < length hs ->
  setItem (length done) col text (mkWidget hs (done ++ r :: old))
  = mkWidget hs (done ++ replaceNth col (Some text) r :: old).
Proof.
  intros Hc. unfold setItem, rowCount, columnCount. cbn [cellItems headerItems].
  rewrite length_app. cbn [length].
  replace (Nat.ltb (length done) (length done + S (length old))) with true
    by (symmetry; apply Nat.ltb_lt; lia).
  replace (Nat.ltb col (length hs)) with true
    by (symmetry; now apply Nat.ltb_lt).
  cbn [andb]. now rewrite nth_middle_row, replaceNth_app.
Qed.

Lemma fill_row hs done old (g : nat -> string) m :
  forall k,
    k + m = length hs ->
    fold_left (fun acc _col => setItem (length done) _col (g _col) acc)
              (seq k m)
              (mkWidget hs (done ++ (map (fun c => Some (g c)) (seq 0 k)
                                     ++ repeat None m) :: old))
    = mkWidget hs (done ++ map (fun c => Some (g c)) (seq 0 (k + m)) :: old).
Proof.
  induction m as [|m IH]; intros k Hk; cbn [seq fold_left repeat].
  - now rewrite app_nil_r, Nat.add_0_r.
  - rewrite setItem_at by lia.
    replace k with (length (map (fun c => Some (g c)) (seq 0 k))) at 2
      by now rewrite length_map, length_seq.
    rewrite replaceNth_app.
    replace (map (fun c => Some (g c)) (seq 0 k) ++ Some (g k) :: repeat None m)
      with (map (fun c => Some (g c)) (seq 0 (S k)) ++ repeat None m).
    + rewrite IH by lia. now rewrite Nat.add_succ_r.
    + rewrite seq_S, map_app, <- app_assoc. reflexivity.
Qed.

Lemma insertRow_at hs done old :
  insertRow (length done) (mkWidget hs (done ++ old))
  = mkWidget hs (done ++ repeat None (length hs) :: old).
Proof.
  unfold insertRow, rowCount, columnCount. cbn [cellItems headerItems].
  rewrite length_app.
  replace (Nat.leb (length done) (length done + length old)) with true
    by (symmetry; apply Nat.leb_le; lia).
  rewrite firstn_app, skipn_app, Nat.sub_diag, firstn_all, skipn_all.
  cbn [firstn skipn app]. now rewrite app_nil_r.
Qed.

Lemma LoadTableData_rows_spec hs old rows :
  forall done,
    LoadTableData_rows (length hs) rows (length done) (mkWidget hs (done ++ old))
    = (length done + length rows,
       mkWidget hs
         ((done ++ map (fun record =>
                          map (fun col => Some (nth col record ""))
                              (seq 0 (length hs)))
                       rows) ++ old)).
Proof.
  induction rows as [|record rows IH]; intros done; cbn [LoadTableData_rows map].
  - now rewrite Nat.add_0_r, app_nil_r.
  - rewrite insertRow_at.
    pose proof (fill_row hs done old (fun c => nth c record "") (length hs) 0
                  eq_refl) as Fill.
    cbn [seq map app Nat.add] in Fill. rewrite Fill.
    specialize (IH (done ++ [map (fun col => Some (nth col record ""))
                                 (seq 0 (length hs))])).
    rewrite length_app in IH. cbn [length] in IH.
    rewrite Nat.add_1_r in IH. rewrite <- !app_assoc in IH. cbn [app] in IH.
    rewrite <- app_assoc. cbn [app].
    rewrite IH. f_equal. cbn [length]. lia.
Qed.

Lemma relabel_all items labels :
  length items = length labels -> relabel items labels = map Some labels.
Proof.
  revert labels. induction items as [|i items IH]; intros [|l labels] H;
    simpl in *; try discriminate; auto.
  now rewrite IH by lia.
Qed.

Lemma resize_length {A} n (d : A) l : length (resize n d l) = n.
Proof.
  unfold resize. rewrite length_app, length_firstn, repeat_length. lia.
Qed.

Lemma resize_exact {A} (d : A) l rest :
  resize (length l) d (l ++ rest) = l.
Proof.
  unfold resize. rewrite firstn_app, Nat.sub_diag, firstn_all. cbn [firstn].
  rewrite app_nil_r, length_app.
  replace (length l - (length l + length rest)) with 0 by lia.
  cbn [repeat]. now rewrite app_nil_r.
Qed.

(** The grid left by the widget calls of [LoadTableData]. *)
Lemma LoadTableData_grid tw columns rows :
  (let tw3 := setHorizontalHeaderLabels columns
                (setColumnCount (length columns) (clear tw)) in
   let '(_rowIndex, tw4) := LoadTableData_rows (length columns) rows 0 tw3 in
   setRowCount _rowIndex tw4)
  = loadedGrid columns rows.
Proof.
  cbn zeta. unfold setHorizontalHeaderLabels, setColumnCount, clear.
  cbn [headerItems cellItems].
  rewrite relabel_all by apply resize_length.
  set (old := map (resize (length columns) None) _).
  pose proof (LoadTableData_rows_spec (map Some columns) old rows []) as L.
  rewrite length_map in L. cbn [length app Nat.add] in L. rewrite L.
  unfold setRowCount, loadedGrid. cbn [cellItems headerItems]. f_equal.
  set (loaded := map _ rows).
  replace (length rows) with (length loaded)
    by (unfold loaded; now rewrite length_map).
  apply resize_exact.
Qed.

Lemma isEmpty_false t : t <> "" -> QStr.isEmpty t = false.
Proof. destruct t; simpl; congruence. Qed.

Lemma execSelectAll_stepped c t w :
  stepped [EvExec (Sql.SELECT_ALL_QUERY t)] w (snd (execSelectAll c t w)).
Proof. apply execRead_stepped. Qed.

(** A load that succeeds has passed the guards, found the table and built
    the grid of its columns and rows. *)
Lemma LoadTableData_success t tw0 self w g w' :
  LoadTableData t (Some tw0) self w = (true, g, w') ->
  FileLoaded self = true /\ QStr.isEmpty t = false /\
  isOpen (SqlDatabase self) = true /\
  exists tb,
    findTable t (current (SqlDatabase self) w) = Some tb /\
    length (tblColumns tb) <> 0 /\
    g = Some (loadedGrid (tblColumns tb) (tblRows tb)) /\
    stepped [EvExec (Sql.GET_COLUMNS_QUERY t); EvExec (Sql.SELECT_ALL_QUERY t)]
            w w'.
Proof.
  unfold LoadTableData.
  destruct (FileLoaded self); cbn [negb orb]; [|discriminate].
  destruct (QStr.isEmpty t); [discriminate|].
  destruct (isOpen (SqlDatabase self)) eqn:Ho; cbn [negb]; [|discriminate].
  pose proof (GetTableColumns_stepped t self w) as St1.
  pose proof (GetTableColumns_nonempty t self w) as Cols.
  destruct (GetTableColumns t self w) as [cols w1]. cbn [fst snd] in *.
  destruct (Nat.eqb (length cols) 0) eqn:E; [discriminate|].
  apply Nat.eqb_neq in E. destruct (Cols E) as (_ & tb & F & ->).
  pose proof (execSelectAll_stepped (SqlDatabase self) t w1) as St2.
  pose proof (execRead_result (SqlDatabase self) (Sql.SELECT_ALL_QUERY t)
                (option_map tblRows
                   (findTable t (current (SqlDatabase self) w1))) w1) as R.
  unfold execSelectAll in *.
  destruct (execRead _ _ _ w1) as [res w2]. cbn [fst snd] in *.
  assert (F1 : findTable t (current (SqlDatabase self) w1) = Some tb).
  { unfold current in *. now rewrite (stepped_disk St1). }
  rewrite F1 in R. cbn [option_map] in R.
  destruct R as [-> | ->]; [|discriminate].
  pose proof (LoadTableData_grid tw0 (tblColumns tb) (tblRows tb)) as G.
  cbn zeta in G.
  destruct (LoadTableData_rows _ _ 0 _) as [ri tw4]. rewrite G.
  intros H. inversion H; subst.
  repeat (split; auto). exists tb. repeat (split; auto);
    try apply (stepped_trans _ _ _ _ _ St1 St2).
Qed.

Lemma LoadTableData_calm t tw0 self w tb :
  FileLoaded self = true -> QStr.isEmpty t = false ->
  isOpen (SqlDatabase self) = true -> calm w ->
  findTable t (current (SqlDatabase self) w) = Some tb ->
  length (tblColumns tb) <> 0 ->
  exists w',
    LoadTableData t (Some tw0) self w
    = (true, Some (loadedGrid (tblColumns tb) (tblRows tb)), w') /\
    stepped [EvExec (Sql.GET_COLUMNS_QUERY t); EvExec (Sql.SELECT_ALL_QUERY t)]
            w w'.
Proof.
  intros Hl Hn Ho Hc F Ne. unfold LoadTableData.
  rewrite Hl, Hn, Ho. cbn [negb orb].
  pose proof (GetTableColumns_stepped t self w) as St1.
  pose proof (GetTableColumns_calm t self w tb Hc Ho F) as Cols.
  destruct (GetTableColumns t self w) as [cols w1]. cbn [fst snd] in *.
  subst cols. apply Nat.eqb_neq in Ne. rewrite Ne.
  pose proof (execSelectAll_stepped (SqlDatabase self) t w1) as St2.
  pose proof (execRead_calm (SqlDatabase self) (Sql.SELECT_ALL_QUERY t)
                (option_map tblRows
                   (findTable t (current (SqlDatabase self) w1))) w1
                (stepped_calm St1 Hc) Ho) as R.
  unfold execSelectAll in *.
  destruct (execRead _ _ _ w1) as [res w2]. cbn [fst snd] in *.
  assert (F1 : findTable t (current (SqlDatabase self) w1) = Some tb).
  { unfold current in *. now rewrite (stepped_disk St1). }
  rewrite F1 in R. cbn [option_map] in R. subst res.
  pose proof (LoadTableData_grid tw0 (tblColumns tb) (tblRows tb)) as G.
  cbn zeta in G.
  destruct (LoadTableData_rows _ _ 0 _) as [ri tw4]. rewrite G.
  exists w2. split; auto. apply (stepped_trans _ _ _ _ _ St1 St2).
Qed.

(** *** Reading a grid back *)

Lemma map_nth_seq {A B} (h : A -> B) (d : A) (l : list A) :
  map (fun i => h (nth i l d)) (seq 0 (length l)) = map h l.
Proof.
  induction l as [|x l IH]; cbn [length seq map]; auto.
  rewrite <- seq_shift, map_map. cbn [nth]. now rewrite IH.
Qed.

Lemma texts_loadedGrid columns rows :
  texts (loadedGrid columns rows)
  = map (fun record => map (fun col => nth col record "")
                           (seq 0 (length columns))) rows.
Proof.
  unfold texts, rowTexts, item, rowCount, columnCount, loadedGrid.
  cbn [cellItems headerItems]. rewrite length_map.
  set (F := fun record : list string =>
              map (fun col => Some (nth col record "")) (seq 0 (length columns))).
  rewrite (map_nth_seq
             (fun r => map (fun col => cellText (nth col r None))
                           (seq 0 (length columns))) [] (map F rows)).
  rewrite map_map. apply map_ext. intros record. unfold F.
  set (L := map (fun col => Some (nth col record "")) (seq 0 (length columns))).
  replace (length columns) with (length L) at 1
    by (unfold L; now rewrite length_map, length_seq).
  rewrite (map_nth_seq cellText None L). unfold L. now rewrite map_map.
Qed.

Lemma pad_exact (record : list string) n :
  length record = n ->
  map (fun col => nth col record "") (seq 0 n) = record.
Proof.
  intros <-. rewrite (map_nth_seq (fun x => x) "" record). apply map_id.
Qed.

Lemma rowTexts_length tw row : length (rowTexts tw row) = columnCount tw.
Proof. unfold rowTexts. now rewrite length_map, length_seq. Qed.

(** *** The row an insert stores when the statement lists the table's
    own columns *)

Lemma contains_false_neq x l y :
  QStr.contains x l = false -> In y l -> String.eqb x y = false.
Proof.
  unfold QStr.contains. intros H Hy.
  destruct (String.eqb x y) eqn:E; auto.
  assert (existsb (String.eqb x) l = true); [|congruence].
  apply existsb_exists. eauto.
Qed.

Lemma stored_in_order cols :
  QStr.nodupb cols = true ->
  forall binds, length binds = length cols ->
    map (fun col => match QStr.indexOf col cols with
                    | Some i => nth i binds ""
                    | None => ""
                    end) cols
    = binds.
Proof.
  induction cols as [|c cols IH]; intros Nd [|b binds] Hl;
    cbn [length] in Hl; try discriminate; auto.
  cbn [QStr.nodupb] in Nd. apply andb_true_iff in Nd. destruct Nd as [Nc Nd].
  apply negb_true_iff in Nc.
  cbn [map QStr.indexOf]. rewrite String.eqb_refl. cbn [nth]. f_equal.
  etransitivity; [|apply (IH Nd binds); lia].
  apply map_ext_in. intros col Hin.
  rewrite (contains_false_neq c cols col Nc Hin).
  destruct (QStr.indexOf col cols); reflexivity.
Qed.

Lemma storedRow_own_columns tb binds :
  QStr.nodupb (tblColumns tb) = true ->
  length binds = length (tblColumns tb) ->
  storedRow (tblColumns tb) binds tb = binds.
Proof. intros Nd Hl. unfold storedRow. now apply stored_in_order. Qed.

Lemma wfTable_parts tb :
  wfTable tb = true ->
  length (tblColumns tb) <> 0 /\ QStr.nodupb (tblColumns tb) = true /\
  (forall r, In r (tblRows tb) -> length r = length (tblColumns tb)).
Proof.
  unfold wfTable. intros H.
  apply andb_true_iff in H. destruct H as [H Hr].
  apply andb_true_iff in H. destruct H as [Hn Hd].
  apply negb_true_iff, Nat.eqb_neq in Hn. repeat split; auto.
  intros r Hin. rewrite forallb_forall in Hr. now apply Nat.eqb_eq, Hr.
Qed.

Lemma Forall2_determined {A B} (R : A -> B -> Prop) (f : A -> B) l l' :
  Forall2 R l l' ->
  (forall x y, In x l -> R x y -> y = f x) ->
  l' = map f l.
Proof.
  intros F. induction F as [|x y l l' Rxy F IH]; intros H; cbn [map]; auto.
  f_equal.
  - apply H; simpl; auto.
  - apply IH. intros a b Ha. apply H. simpl; auto.
Qed.

(** A grid whose every column carries a header is written under exactly
    these headers. *)
Lemma resolved_headers tw catalog labels names :
  headerItems tw = map Some labels ->
  Forall2 (resolvedAs tw catalog) (seq 0 (columnCount tw)) names ->
  names = labels.
Proof.
  intros Hh R.
  assert (Hn : columnCount tw = length labels).
  { unfold columnCount. now rewrite Hh, length_map. }
  rewrite (Forall2_determined _ (fun n => nth n labels "") _ _ R).
  - rewrite Hn. now apply pad_exact.
  - intros n name Hin Rn. apply in_seq in Hin.
    unfold resolvedAs, columnNameAt, horizontalHeaderItem in Rn.
    rewrite Hh in Rn.
    rewrite (nth_indep _ None (Some "")) in Rn by (rewrite length_map; lia).
    rewrite (map_nth Some labels "" n) in Rn. now destruct Rn.
Qed.

(* ================================================================== *)
(** ** The commit: guards, atomicity, column names *)
(* ================================================================== *)

(** The guards of [UpdateCompleteTable] (lines 257-266). *)
Lemma guards_stop tableName tableWidget self w :
  FileLoaded self = false \/ tableName = "" \/ tableWidget = None
  \/ isOpen (SqlDatabase self) = false ->
  UpdateCompleteTable tableName tableWidget self w = (false, self, w).
Proof.
  intros H. unfold UpdateCompleteTable.
  destruct tableWidget as [tw|]; auto.
  destruct H as [H | [H | [H | H]]].
  - now rewrite H.
  - subst tableName. cbn [QStr.isEmpty]. now rewrite orb_true_r.
  - discriminate.
  - rewrite H. cbn [negb].
    now destruct (negb (FileLoaded self) || QStr.isEmpty tableName).
Qed.

(** C6. A commit asked with no file loaded, with an empty table name, with
    a null grid or on a closed connection returns false and leaves the
    worker and the whole world as they were: no transaction is started, no
    statement reaches the engine, no entry of the failure schedule is
    consumed, storage is untouched. *)
Theorem UpdateCompleteTable_guards tableName tableWidget self w :
  FileLoaded self = false \/ tableName = "" \/ tableWidget = None
  \/ isOpen (SqlDatabase self) = false ->
  UpdateCompleteTable tableName tableWidget self w = (false, self, w)
  /\ trace (snd (UpdateCompleteTable tableName tableWidget self w)) = trace w
  /\ sameStorage w (snd (UpdateCompleteTable tableName tableWidget self w)).
Proof.
  intros H. rewrite (guards_stop tableName tableWidget self w H).
  repeat split.
Qed.

Lemma UpdateCompleteTable_guards_witness :
  FileLoaded (new "0001") = false /\
  UpdateCompleteTable "users" (Some Sample.grid) (new "0001") (Sample.fresh [])
  = (false, new "0001", Sample.fresh []).
Proof.
  split; [reflexivity|].
  apply (UpdateCompleteTable_guards "users" (Some Sample.grid) (new "0001")
           (Sample.fresh [])).
  left. reflexivity.
Defined.

(** A commit either stops at its guards or runs with all of them passed. *)
Lemma UpdateCompleteTable_cases tableName tableWidget self w :
  UpdateCompleteTable tableName tableWidget self w = (false, self, w)
  \/ exists tw, tableWidget = Some tw /\ FileLoaded self = true /\
                QStr.isEmpty tableName = false /\
                isOpen (SqlDatabase self) = true.
Proof.
  destruct tableWidget as [tw|];
    [|left; apply guards_stop; auto].
  destruct (FileLoaded self) eqn:Hl;
    [|left; apply guards_stop; auto].
  destruct tableName as [|a s];
    [left; apply guards_stop; auto|].
  destruct (isOpen (SqlDatabase self)) eqn:Ho;
    [|left; apply guards_stop; auto].
  right. exists tw. auto.
Qed.

Lemma elsewhere_sameStorage path w w' :
  elsewhere path w w' -> disk w' path = disk w path -> sameStorage w w'.
Proof.
  intros El Here p. destruct (String.eqb p path) eqn:E.
  - apply String.eqb_eq in E. now subst p.
  - now apply El.
Qed.

(** C1. Whenever the commit returns false - the transaction could not be
    started, the delete-all was refused, preparing or running the insert of
    some row was refused, or the final commit was refused - every file, and
    so the table, holds after the call exactly what it held before it. *)
Theorem UpdateCompleteTable_failure_restores tableName tableWidget self w :
  fst (fst (UpdateCompleteTable tableName tableWidget self w)) = false ->
  sameStorage w (snd (UpdateCompleteTable tableName tableWidget self w)).
Proof.
  destruct (UpdateCompleteTable_cases tableName tableWidget self w)
    as [E | (tw & -> & Hl & Hn & Ho)].
  - rewrite E. intros _ p. reflexivity.
  - pose proof (UpdateCompleteTable_run tableName tw self w Hl Hn Ho) as Run.
    destruct (UpdateCompleteTable tableName (Some tw) self w)
      as [[ok self'] w'].
    cbn [fst snd]. intros ->.
    destruct Run as (El & _ & Here & _).
    apply (elsewhere_sameStorage _ _ _ El (Here eq_refl)).
Qed.

Lemma UpdateCompleteTable_failure_restores_witness :
  let schedule := [false; false; false; false; false; false; true] in
  let run := UpdateCompleteTable "users" (Some Sample.grid) Sample.loaded
                                 (Sample.ready schedule) in
  fst (fst run) = false /\ sameStorage (Sample.ready schedule) (snd run).
Proof.
  cbn zeta. split; [reflexivity|].
  apply UpdateCompleteTable_failure_restores. reflexivity.
Defined.

(** The second row's insert is the call that was refused in the run
    above: the first row had been inserted when the rollback came. *)
Example insert_failure_trace :
  let schedule := [false; false; false; false; false; false; true] in
  let sql := "INSERT INTO users (id, name) VALUES (?, ?)" in
  skipn 5 (trace (snd (UpdateCompleteTable "users" (Some Sample.grid)
                         Sample.loaded (Sample.ready schedule))))
  = [EvTransaction; EvExec "DELETE FROM users"; EvPrepare sql;
     EvPrepare sql; EvExecPrepared sql ["1"; "Anna"];
     EvPrepare sql; EvExecPrepared sql ["2"; "Bo"]; EvRollback].
Proof. reflexivity. Qed.


(** A grid with one header missing, on the sample table: one column query,
    then the insert statement with the catalog's name for that position. *)
Example resolves_once_trace :
  skipn 5 (trace (snd (UpdateCompleteTable "notes" (Some Sample.headersOnly)
                         Sample.loaded (Sample.ready []))))
  = [EvTransaction; EvExec "DELETE FROM notes";
     EvExec "PRAGMA table_info(notes)";
     EvPrepare "INSERT INTO notes (id, body) VALUES (?, ?)"; EvCommit].
Proof. reflexivity. Qed.

Example placeholder_name :
  columnNameAt None ["id"; "name"] 2 = "Column_3"
  /\ columnNameAt None ["id"; "name"] 1 = "name"
  /\ columnNameAt (Some "label") ["id"; "name"] 1 = "label".
Proof. repeat split. Qed.

(* ================================================================== *)
(** ** Table names and the catalog *)
(* ================================================================== *)

(** C3, as stated, fails.  [sqlite_sequence] is a table of [shop.db] that
    the catalog leaves out; it is not in the list [GetTableNames] returns
    after the load, yet the commit takes the name as it comes, puts it
    into [DELETE FROM sqlite_sequence] and into the insert statement,
    returns true and changes the file. *)
Lemma commit_outside_catalog :
  let run := UpdateCompleteTable "sqlite_sequence" (Some Sample.counters)
                                 Sample.loaded (Sample.ready []) in
  ~ In "sqlite_sequence" (GetTableNames Sample.loaded)
  /\ fst (fst run) = true
  /\ findTable "sqlite_sequence" (disk (snd run) "shop.db")
     = Some (mkTable "sqlite_sequence" ["name"; "seq"] [["users"; "7"]])
  /\ ~ sameStorage (Sample.ready []) (snd run)
  /\ In (EvExec (Sql.DELETE_ALL_QUERY "sqlite_sequence")) (trace (snd run)).
Proof.
  cbn zeta. split; [|split; [|split; [|split]]].
  - cbn. intros [H | [H | []]]; discriminate.
  - reflexivity.
  - reflexivity.
  - intros H. specialize (H "shop.db"). discriminate.
  - cbn. auto 10.
Qed.

(** A name that names nothing in the file reaches the engine as well: the
    transaction is started and the delete statement built from the name is
    submitted before the commit gives up. *)
Example commit_unknown_name_trace :
  let run := UpdateCompleteTable "ghost" (Some Sample.grid)
                                 Sample.loaded (Sample.ready []) in
  fst (fst run) = false
  /\ skipn 5 (trace (snd run))
     = [EvTransaction; EvExec "DELETE FROM ghost"; EvRollback].
Proof. split; reflexivity. Qed.

(** A name that is not in the catalog either, but that the engine reads
    as a table of the file: [PEOPLE], for the table [people] of
    [desk.db].  The commit goes through and the table is rewritten. *)
Example commit_other_spelling :
  let run := UpdateCompleteTable "PEOPLE" (Some Sample.zeros)
                                 Sample.atDesk (Sample.deskReady []) in
  GetTableNames Sample.atDesk = ["people"; "tags"; "my table"; "gauge"]
  /\ fst (fst run) = true
  /\ findTable "people" (disk (snd run) "desk.db")
     = Some (mkTable "people" ["id"; "name"] [["7"; "Cy"]])
  /\ skipn 5 (trace (snd run))
     = [EvTransaction; EvExec "DELETE FROM PEOPLE";
        EvPrepare "INSERT INTO PEOPLE (id, name) VALUES (?, ?)";
        EvPrepare "INSERT INTO PEOPLE (id, name) VALUES (?, ?)";
        EvExecPrepared "INSERT INTO PEOPLE (id, name) VALUES (?, ?)"
                       ["007"; "Cy"];
        EvCommit].
Proof. vm_compute. repeat split. Qed.

(** How the engine of [desk.db] reads three names. *)
Example desk_names :
  findTable "PEOPLE" Sample.desk_db = Some Sample.people
  /\ findTable "people" Sample.desk_db = Some Sample.people
  /\ findTable "my table" Sample.desk_db = None
  /\ In Sample.my_table (tables Sample.desk_db).
Proof. repeat split. cbn. auto. Qed.

(** C3, amended.  A commit on a non-empty name that is not in the catalog
    is not stopped by the worker: the name is not looked up in the catalog,
    the transaction is asked for and, once it is open, the delete
    statement built from the name as given is submitted.  It is the engine
    that decides: when it reads the name as no table of the open file the
    commit returns false, the refused delete being rolled back; and
    whenever the commit returns false every file is left as it was. *)
Theorem UpdateCompleteTable_unknown_table tableName tw self w :
  FileLoaded self = true -> tableName <> "" ->
  isOpen (SqlDatabase self) = true ->
  ~ In tableName (GetTableNames self) ->
  let '(ok, _, w') := UpdateCompleteTable tableName (Some tw) self w in
  (ok = false /\ trace w' = trace w ++ [EvTransaction]
   \/ exists rest,
        trace w' = trace w ++ EvTransaction
                     :: EvExec (Sql.DELETE_ALL_QUERY tableName) :: rest) /\
  (findTable tableName (current (SqlDatabase self) w) = None ->
   ok = false /\
   (trace w' = trace w ++ [EvTransaction]
    \/ trace w' = trace w ++ [EvTransaction;
                              EvExec (Sql.DELETE_ALL_QUERY tableName);
                              EvRollback])) /\
  (ok = false -> sameStorage w w').
Proof.
  intros Hl Hn Ho _.
  pose proof (UpdateCompleteTable_run tableName tw self w Hl
                (isEmpty_false _ Hn) Ho) as Run.
  destruct (UpdateCompleteTable tableName (Some tw) self w)
    as [[ok self'] w'].
  destruct Run as (El & _ & Here & Cases).
  refine (conj _ (conj _ _)).
  - destruct Cases as [A | [B | C]].
    + destruct A as (-> & _ & Tr & _). left. auto.
    + destruct B as (_ & _ & Tr & _). right. exists [EvRollback]. exact Tr.
    + destruct C as (tb & names & rest & _ & _ & _ & _ & Tr & _).
      right. eexists. exact Tr.
  - intros F. destruct Cases as [A | [B | C]].
    + destruct A as (-> & _ & Tr & _). auto.
    + destruct B as (-> & _ & Tr & _). auto.
    + destruct C as (tb & _ & _ & _ & F' & _). congruence.
  - intros ->. apply (elsewhere_sameStorage _ _ _ El (Here eq_refl)).
Qed.

Lemma UpdateCompleteTable_unknown_table_witness :
  let run := UpdateCompleteTable "ghost" (Some Sample.grid)
                                 Sample.loaded (Sample.ready []) in
  ~ In "ghost" (GetTableNames Sample.loaded)
  /\ findTable "ghost" (current (SqlDatabase Sample.loaded) (Sample.ready []))
     = None
  /\ fst (fst run) = false /\ sameStorage (Sample.ready []) (snd run).
Proof.
  cbn zeta.
  assert (Hg : ~ In "ghost" (GetTableNames Sample.loaded)).
  { cbn. intros [H | [H | []]]; discriminate. }
  split; [exact Hg|]. split; [reflexivity|].
  pose proof (UpdateCompleteTable_unknown_table "ghost" Sample.grid
                Sample.loaded (Sample.ready []) eq_refl
                ltac:(discriminate) eq_refl Hg) as H.
  destruct (UpdateCompleteTable "ghost" (Some Sample.grid) Sample.loaded
              (Sample.ready [])) as [[ok self'] w'].
  destruct H as (_ & H2 & H3). destruct (H2 eq_refl) as (Hok & _).
  cbn [fst snd]. split; [exact Hok | exact (H3 Hok)].
Defined.

(* ================================================================== *)
(** ** Commit and load together *)
(* ================================================================== *)

(** C10, as stated, fails.  The insert statement is prepared before the
    row loop, rows or no rows, from the column names the grid resolves to.
    A grid without rows whose third column carries no header resolves, on
    the two-column table [users], to the name [Column_3]; the engine
    refuses to prepare the statement, the commit returns false and the
    table keeps its rows.  A grid without any column fails in the same
    way, on a statement that lists no column. *)
Lemma empty_grid_unknown_column :
  let run := UpdateCompleteTable "users" (Some Sample.gaps) Sample.loaded
                                 (Sample.ready []) in
  rowCount Sample.gaps = 0 /\ columnCount Sample.gaps = 3
  /\ In "users" (GetTableNames Sample.loaded)
  /\ fst (fst run) = false
  /\ skipn 5 (trace (snd run))
     = [EvTransaction; EvExec "DELETE FROM users";
        EvExec "PRAGMA table_info(users)"; EvExec "PRAGMA table_info(users)";
        EvPrepare "INSERT INTO users (id, name, Column_3) VALUES (?, ?, ?)";
        EvRollback]
  /\ findTable "users" (disk (snd run) "shop.db") = Some Sample.users.
Proof.
  cbn zeta. split; [reflexivity|]. split; [reflexivity|].
  split; [left; reflexivity|]. repeat split.
Qed.

Example empty_grid_no_column :
  let run := UpdateCompleteTable "users" (Some Sample.blank) Sample.loaded
                                 (Sample.ready []) in
  fst (fst run) = false
  /\ skipn 5 (trace (snd run))
     = [EvTransaction; EvExec "DELETE FROM users";
        EvPrepare "INSERT INTO users () VALUES ()"; EvRollback].
Proof. cbn zeta. repeat split. Qed.

(** C10, amended.  On a loaded file, with no transaction pending and an
    engine that refuses nothing, committing a grid of zero rows and at
    least one column whose column names all resolve to columns of the
    table succeeds and leaves the table empty: the delete-all runs, the
    insert statement is prepared, no row is inserted and the transaction
    is committed. *)
Theorem UpdateCompleteTable_empty_grid tableName tw self w tb :
  FileLoaded self = true -> tableName <> "" ->
  isOpen (SqlDatabase self) = true ->
  savepoint (SqlDatabase self) = None ->
  calm w ->
  findTable tableName (current (SqlDatabase self) w) = Some tb ->
  rowCount tw = 0 -> columnCount tw <> 0 ->
  (forall name, In name (resolvedNames tw (tblColumns tb)) ->
                In name (tblColumns tb)) ->
  let '(ok, self', w') := UpdateCompleteTable tableName (Some tw) self w in
  ok = true /\
  findTable tableName (current (SqlDatabase self') w')
  = Some (mkTable (tblName tb) (tblColumns tb) []) /\
  trace w'
  = trace w ++ deleteCalls tableName ++ resolutionCalls tableName tw
    ++ [EvPrepare (insertQueryString tableName
                     (resolvedNames tw (tblColumns tb)));
        EvCommit].
Proof.
  intros Hl Hn Ho Sv Hc F Hr Hcols Hin.
  pose proof (UpdateCompleteTable_run tableName tw self w Hl
                (isEmpty_false _ Hn) Ho) as Run.
  destruct (UpdateCompleteTable tableName (Some tw) self w)
    as [[ok self'] w'].
  destruct Run as (_ & _ & _ & [A | [B | C]]).
  - destruct A as (_ & _ & _ & X). now destruct (X Hc).
  - destruct B as (_ & _ & _ & X). rewrite (X Hc) in F. discriminate.
  - destruct C as (tb' & names & rest & _ & F' & _ & Cal & Tr & _ & -> & Ok
                   & Good).
    assert (tb' = tb) by congruence. subst tb'.
    specialize (Cal Hc). subst names.
    assert (Comp : insertCompiles tableName (resolvedNames tw (tblColumns tb))
                     (current (SqlDatabase self) w) = true).
    { unfold insertCompiles. rewrite F. apply andb_true_iff. split.
      - apply negb_true_iff, Nat.eqb_neq. unfold resolvedNames.
        now rewrite length_map, length_seq.
      - apply forallb_forall. intros name Hname.
        unfold QStr.contains. apply existsb_exists.
        exists name. split; [now apply Hin | apply String.eqb_refl]. }
    specialize (Ok Hc). rewrite Comp in Ok. subst ok.
    destruct (Good eq_refl) as (-> & _ & D & _).
    refine (conj eq_refl (conj _ _)).
    + unfold current. cbn [SqlDatabase withDb databaseName]. rewrite D.
      unfold replaceRows. rewrite findTable_updateTable by reflexivity.
      rewrite F. cbn [option_map]. f_equal.
      unfold committedRows. now rewrite Hr.
    + rewrite Tr. unfold rowCalls. rewrite Hr. reflexivity.
Qed.

Lemma UpdateCompleteTable_empty_grid_witness :
  let run := UpdateCompleteTable "users" (Some Sample.headersOnly)
                                 Sample.loaded (Sample.ready []) in
  rowCount Sample.headersOnly = 0
  /\ fst (fst run) = true
  /\ findTable "users" (current (SqlDatabase (snd (fst run))) (snd run))
     = Some (mkTable "users" ["id"; "name"] []).
Proof.
  cbn zeta. split; [reflexivity|].
  assert (Hc : calm (Sample.ready [])) by constructor.
  pose proof (UpdateCompleteTable_empty_grid "users" Sample.headersOnly
                Sample.loaded (Sample.ready []) Sample.users eq_refl
                ltac:(discriminate) eq_refl eq_refl Hc eq_refl eq_refl
                ltac:(discriminate)) as H.
  destruct (UpdateCompleteTable "users" (Some Sample.headersOnly)
              Sample.loaded (Sample.ready [])) as [[ok self'] w'].
  cbn [fst snd].
  assert (Hin : forall name,
             In name (resolvedNames Sample.headersOnly
                        (tblColumns Sample.users)) ->
             In name (tblColumns Sample.users)).
  { intros name Hname. exact Hname. }
  destruct (H Hin) as (H1 & H2 & _). split; assumption.
Defined.

Lemma committedRows_own_columns tw tb :
  QStr.nodupb (tblColumns tb) = true ->
  columnCount tw = length (tblColumns tb) ->
  committedRows tw (tblColumns tb) tb = texts tw.
Proof.
  intros Nd Hc. unfold committedRows, texts. apply map_ext. intros row.
  apply storedRow_own_columns; auto. now rewrite rowTexts_length.
Qed.

Lemma shownRow_texts tw n :
  columnCount tw = n -> map (shownRow n) (texts tw) = texts tw.
Proof.
  intros Hc. rewrite <- (map_id (texts tw)) at 2. apply map_ext_in.
  intros record Hin. apply pad_exact.
  unfold texts in Hin. apply in_map_iff in Hin.
  destruct Hin as (row & <- & _). now rewrite rowTexts_length.
Qed.

Lemma texts_loadedGrid_texts tw columns :
  columnCount tw = length columns ->
  texts (loadedGrid columns (texts tw)) = texts tw.
Proof.
  intros Hc. rewrite texts_loadedGrid. now apply shownRow_texts.
Qed.

(** *** Where an inserted row lands *)

Lemma insertAt_last {A} p (x : A) l :
  length l <= p -> insertAt p x l = l ++ [x].
Proof.
  intros H. unfold insertAt.
  rewrite firstn_all2 by lia. now rewrite skipn_all2 by lia.
Qed.

Lemma insertAt_perm {A} p (x : A) l : Permutation (insertAt p x l) (l ++ [x]).
Proof.
  unfold insertAt. rewrite <- (firstn_skipn p l) at 3.
  rewrite <- app_assoc. apply Permutation_app_head.
  change (x :: skipn p l) with ([x] ++ skipn p l). apply Permutation_app_comm.
Qed.



Lemma landed_in_order db tb rows :
  keepsOrder db tb ->
  forall acc,
    fold_left (landed db (tblName tb)) rows acc
    = acc ++ map (renders db (tblName tb)) rows.
Proof.
  intros K. induction rows as [|row rows IH]; intros acc;
    cbn [fold_left map].
  - now rewrite app_nil_r.
  - rewrite IH. unfold landed. rewrite insertAt_last by apply K.
    now rewrite <- app_assoc.
Qed.



(** The textual round trip of a value: the key written [007] is read back
    as [7]. *)
Example leading_zeros_round_trip :
  let run := UpdateCompleteTable "people" (Some Sample.zeros)
                                 Sample.atDesk (Sample.deskReady []) in
  fst (fst run) = true /\
  option_map texts
    (snd (fst (LoadTableData "people" (Some Sample.blank)
                 (snd (fst run)) (snd run))))
  = Some [["7"; "Cy"]] /\
  map (roundTrip Sample.desk_db Sample.people) (texts Sample.zeros)
  = [["7"; "Cy"]].
Proof. vm_compute. repeat split. Qed.




(** The scenario of the specification: load [users], change a cell, add a
    row, commit, load again. *)
Example scenario_edit_append_commit :
  let run := UpdateCompleteTable "users" (Some Sample.grid) Sample.loaded
                                 (Sample.ready []) in
  option_map texts
    (snd (fst (LoadTableData "users" (Some Sample.blank)
                 (snd (fst run)) (snd run))))
  = Some [["1"; "Anna"]; ["2"; "Bo"]; ["3"; ""]].
Proof. reflexivity. Qed.

(** C4, as stated, fails.  The rows of [gauge] of [desk.db] carry three
    values, the column list the engine reports for it two names.  The load
    succeeds and shows, under [low] and [high], the first two values of the
    row: the value of the generated column stands under [high].  The
    commit of this grid, untouched, returns true and writes that value
    into [high]: where the table held 1, 4, 5 it holds 1, 3, 4. *)
Lemma load_then_commit_changes_gauge :
  let load := LoadTableData "gauge" (Some Sample.blank) Sample.atDesk
                            (Sample.deskReady []) in
  let g := loadedGrid ["low"; "high"] [["1"; "4"; "5"]] in
  let run := UpdateCompleteTable "gauge" (Some g) Sample.atDesk (snd load) in
  fst load = (true, Some g) /\
  findTable "gauge" (disk (snd load) "desk.db")
  = Some (mkTable "gauge" ["low"; "high"] [["1"; "4"; "5"]]) /\
  texts g = [["1"; "4"]] /\
  fst (fst run) = true /\
  findTable "gauge" (disk (snd run) "desk.db")
  = Some (mkTable "gauge" ["low"; "high"] [["1"; "3"; "4"]]) /\
  ~ sameStorage (snd load) (snd run).
Proof.
  cbn zeta. split; [reflexivity|]. split; [reflexivity|].
  split; [reflexivity|]. split; [reflexivity|]. split; [reflexivity|].
  intros H. pose proof (f_equal (findTable "gauge") (H "desk.db")) as X.
  vm_compute in X. discriminate.
Qed.

(** C4, amended.  When a load of table [tableName] succeeds, the table
    having distinct column names and rows that hold one value for each
    column of its column list, and the engine keeping these rows as they
    are when they are inserted again in the order it returned them,
    committing the grid the load returned, untouched, leaves every file
    holding what it held, as text: whether the commit goes through or is
    refused at any step, the stored content is that of before the load. *)
Theorem load_then_commit_unchanged tableName tw0 self w g w1 tb :
  LoadTableData tableName (Some tw0) self w = (true, Some g, w1) ->
  findTable tableName (current (SqlDatabase self) w) = Some tb ->
  wfTable tb = true ->
  refilled (current (SqlDatabase self) w) (tblName tb) (tblRows tb)
  = tblRows tb ->
  sameStorage w w1 /\
  sameStorage w1 (snd (UpdateCompleteTable tableName (Some g) self w1)).
Proof.
  intros L F0 Wt Back.
  destruct (LoadTableData_success _ _ _ _ _ _ L)
    as (Hl & Hn & Ho & tb' & F & Ne & Eg & St).
  assert (tb' = tb) by congruence. subst tb'.
  inversion Eg; subst g. clear Eg.
  split; [intros p; now rewrite (stepped_disk St)|].
  destruct (wfTable_parts tb Wt) as (_ & Nd & Rect).
  set (g := loadedGrid (tblColumns tb) (tblRows tb)).
  assert (Cur : current (SqlDatabase self) w1 = current (SqlDatabase self) w).
  { unfold current. now rewrite (stepped_disk St). }
  assert (F1 : findTable tableName (current (SqlDatabase self) w1) = Some tb)
    by now rewrite Cur.
  pose proof (UpdateCompleteTable_run tableName g self w1 Hl Hn Ho) as Run.
  destruct (UpdateCompleteTable tableName (Some g) self w1)
    as [[ok self'] w'].
  cbn [snd]. destruct Run as (El & _ & Here & Cases).
  apply (elsewhere_sameStorage _ _ _ El).
  destruct ok; [|now apply Here].
  destruct Cases as [A | [B | C]];
    [destruct A; discriminate | destruct B; discriminate |].
  destruct C as (tb' & names & rest & _ & F' & Res & _ & _ & _ & _ & _ & Good).
  assert (tb' = tb) by congruence. subst tb'.
  destruct (Good eq_refl) as (_ & _ & D & _).
  assert (names = tblColumns tb) by (eapply resolved_headers; eauto; reflexivity).
  subst names.
  assert (Hcc : columnCount g = length (tblColumns tb)).
  { unfold columnCount, g, loadedGrid. cbn [headerItems].
    now rewrite length_map. }
  rewrite committedRows_own_columns in D by assumption.
  assert (Tg : texts g = tblRows tb).
  { unfold g. rewrite texts_loadedGrid.
    rewrite <- (map_id (tblRows tb)) at 2. apply map_ext_in.
    intros record Hin. apply pad_exact. now apply Rect. }
  rewrite D, Tg. unfold replaceRows.
  apply updateTable_fixed with (tb := tb); [exact F1|].
  rewrite Cur, Back. now destruct tb.
Qed.

Lemma load_then_commit_unchanged_witness :
  let load := LoadTableData "people" (Some Sample.blank) Sample.atDesk
                            (Sample.deskReady []) in
  fst (fst load) = true /\
  match snd (fst load) with
  | Some g =>
      fst (fst (UpdateCompleteTable "people" (Some g) Sample.atDesk
                  (snd load)))
      = true /\
      sameStorage (snd load)
        (snd (UpdateCompleteTable "people" (Some g) Sample.atDesk
                (snd load)))
  | None => False
  end.
Proof.
  cbn zeta. split; [reflexivity|].
  destruct (LoadTableData "people" (Some Sample.blank) Sample.atDesk
              (Sample.deskReady [])) as [[ok og] w1] eqn:L.
  assert (Hok : ok = true)
    by (change ok with (fst (fst (ok, og, w1))); rewrite <- L; reflexivity).
  assert (Hg : og = Some (loadedGrid ["id"; "name"]
                                     [["1"; "Ann"]; ["2"; "Bo"]]))
    by (change og with (snd (fst (ok, og, w1))); rewrite <- L; reflexivity).
  subst ok og. cbn [fst snd]. split.
  - change w1 with (snd (true, Some (loadedGrid ["id"; "name"]
                                       [["1"; "Ann"]; ["2"; "Bo"]]), w1)).
    rewrite <- L. reflexivity.
  - apply (load_then_commit_unchanged "people" Sample.blank Sample.atDesk
             (Sample.deskReady []) _ w1 Sample.people L); reflexivity.
Defined.

(** C8, as stated, fails.  [my table] is a table of [desk.db], listed in
    the catalog, with one column and no row.  Its name goes into
    [PRAGMA table_info(my table)] as it is; the engine does not accept
    the text as a name, the column query brings back nothing and the load
    returns false. *)
Lemma LoadTableData_name_with_space :
  let load := LoadTableData "my table" (Some Sample.blank) Sample.atDesk
                            (Sample.deskReady []) in
  In Sample.my_table (tables (disk (Sample.deskReady []) "desk.db"))
  /\ In "my table" (GetTableNames Sample.atDesk)
  /\ tblRows Sample.my_table = []
  /\ fst (fst load) = false
  /\ skipn 5 (trace (snd load)) = [EvExec "PRAGMA table_info(my table)"].
Proof.
  cbn zeta. split; [right; right; left; reflexivity|].
  split; [right; right; left; reflexivity|]. repeat split.
Qed.

(** C8, amended.  On a loaded file and an engine that refuses nothing,
    loading a table that the engine finds under the name as it is written,
    and that has columns and no row, succeeds; the grid has as many
    columns as the column list the catalog returns for the table, carries
    these names as its headers, and has no row. *)
Theorem LoadTableData_empty_table tableName tw0 self w tb :
  FileLoaded self = true -> tableName <> "" ->
  isOpen (SqlDatabase self) = true -> calm w ->
  findTable tableName (current (SqlDatabase self) w) = Some tb ->
  tblColumns tb <> [] -> tblRows tb = [] ->
  exists g w',
    LoadTableData tableName (Some tw0) self w = (true, Some g, w') /\
    columnCount g = length (fst (GetTableColumns tableName self w)) /\
    headerItems g = map Some (fst (GetTableColumns tableName self w)) /\
    fst (GetTableColumns tableName self w) = tblColumns tb /\
    rowCount g = 0.
Proof.
  intros Hl Hn Ho Hc F Ne Hr.
  assert (Ne' : length (tblColumns tb) <> 0)
    by (destruct (tblColumns tb); simpl; congruence).
  destruct (LoadTableData_calm tableName tw0 self w tb Hl
              (isEmpty_false _ Hn) Ho Hc F Ne') as (w' & L & _).
  rewrite (GetTableColumns_calm tableName self w tb Hc Ho F).
  exists (loadedGrid (tblColumns tb) (tblRows tb)), w'.
  refine (conj L (conj _ (conj eq_refl (conj eq_refl _)))).
  - unfold columnCount, loadedGrid. cbn [headerItems]. now rewrite length_map.
  - rewrite Hr. reflexivity.
Qed.

Lemma LoadTableData_empty_table_witness :
  tblRows Sample.notes = [] /\
  exists g w',
    LoadTableData "notes" (Some Sample.grid) Sample.loaded (Sample.ready [])
    = (true, Some g, w') /\
    columnCount g = 2 /\ headerItems g = [Some "id"; Some "body"] /\
    rowCount g = 0.
Proof.
  split; [reflexivity|].
  assert (Hc : calm (Sample.ready [])) by constructor.
  destruct (LoadTableData_empty_table "notes" Sample.grid Sample.loaded
              (Sample.ready []) Sample.notes eq_refl ltac:(discriminate)
              eq_refl Hc eq_refl ltac:(discriminate) eq_refl)
    as (g & w' & L & Cc & Hh & _ & Rc).
  exists g, w'. refine (conj L (conj _ (conj _ Rc))).
  - rewrite Cc. reflexivity.
  - rewrite Hh. reflexivity.
Defined.

(* ================================================================== *)
(** ** Loading a file: the catalog *)
(* ================================================================== *)

Lemma call_schedule c e w :
  fst (call c e w) = isOpen c && negb (hd false (faults w)) /\
  faults (snd (call c e w)) = tl (faults w) /\
  disk (snd (call c e w)) = disk w.
Proof.
  unfold call, tick, emit. cbn [faults disk].
  destruct (faults w) as [|b rest]; cbn; auto.
Qed.

Lemma execRead_schedule c sql rows w :
  fst (execRead c sql rows w)
  = (if isOpen c && negb (hd false (faults w)) then rows else None) /\
  faults (snd (execRead c sql rows w)) = tl (faults w) /\
  disk (snd (execRead c sql rows w)) = disk w.
Proof.
  unfold execRead. destruct (call_schedule c (EvExec sql) w) as (A & B & C).
  destruct (call c (EvExec sql) w) as [ok w1]. cbn [fst snd] in *.
  now subst ok.
Qed.

Lemma ValidateDatabaseConnection_schedule self w :
  isOpen (SqlDatabase self) = true ->
  fst (ValidateDatabaseConnection self w) = negb (nth 1 (faults w) false) /\
  faults (snd (ValidateDatabaseConnection self w)) = tl (tl (faults w)) /\
  disk (snd (ValidateDatabaseConnection self w)) = disk w.
Proof.
  intros Ho. unfold ValidateDatabaseConnection, execSelectOne.
  rewrite Ho. cbn [negb].
  destruct (execRead_schedule (SqlDatabase self) Sql.SELECT_ONE
              (Some [["1"]]) w) as (_ & B1 & C1).
  destruct (execRead (SqlDatabase self) Sql.SELECT_ONE (Some [["1"]]) w)
    as [r1 w1]. cbn [fst snd] in *.
  destruct (execRead_schedule (SqlDatabase self) Sql.SELECT_ONE
              (Some [["1"]]) w1) as (A2 & B2 & C2).
  destruct (execRead (SqlDatabase self) Sql.SELECT_ONE (Some [["1"]]) w1)
    as [r2 w2]. cbn [fst snd] in *.
  rewrite Ho, B1 in A2. cbn [andb] in A2.
  assert (E : hd false (tl (faults w)) = nth 1 (faults w) false)
    by (destruct (faults w) as [|a [|b l]]; reflexivity).
  rewrite E in A2. subst r2.
  destruct (nth 1 (faults w) false); cbn [negb fst snd];
    rewrite B2, B1, C2, C1; auto.
Qed.

Lemma parsed_names rows : forall acc,
  fold_left
    (fun acc row =>
       let _tableName := nth 0 row "" in
       if negb (QStr.isEmpty _tableName) then acc ++ [_tableName] else acc)
    (map (fun name : string => [name]) rows) acc
  = acc ++ filter (fun name => negb (QStr.isEmpty name)) rows.
Proof.
  induction rows as [|name rows IH]; intros acc; cbn [map fold_left filter nth].
  - now rewrite app_nil_r.
  - rewrite IH. destruct (negb (QStr.isEmpty name)); auto.
    now rewrite <- app_assoc.
Qed.

Lemma masterRows_userTables db :
  masterRows db = map (fun name : string => [name]) (userTables db).
Proof. unfold masterRows, userTables. now rewrite map_map. Qed.

Lemma ParseSQLStructure_schedule self w :
  isOpen (SqlDatabase self) = true ->
  let '(self', w') := ParseSQLStructure self w in
  AvailableTableNames self'
  = (if nth 1 (faults w) false then []
     else filter (fun name => negb (QStr.isEmpty name))
                 (userTables (current (SqlDatabase self) w))) /\
  CurrentFilePath self' = CurrentFilePath self /\
  FileLoaded self' = FileLoaded self /\
  SqlDatabase self' = SqlDatabase self /\
  ConnectionName self' = ConnectionName self /\
  disk w' = disk w.
Proof.
  intros Ho. unfold ParseSQLStructure, execGetTables.
  destruct (execRead_schedule (SqlDatabase self) Sql.GET_TABLES_QUERY
              (Some (masterRows (current (SqlDatabase self) w))) w)
    as (_ & B1 & C1).
  destruct (execRead (SqlDatabase self) Sql.GET_TABLES_QUERY _ w)
    as [r1 w1]. cbn [fst snd] in *.
  destruct (execRead_schedule (SqlDatabase self) Sql.GET_TABLES_QUERY
              (Some (masterRows (current (SqlDatabase self) w1))) w1)
    as (A2 & B2 & C2).
  destruct (execRead (SqlDatabase self) Sql.GET_TABLES_QUERY _ w1)
    as [r2 w2]. cbn [fst snd] in *.
  rewrite Ho, B1 in A2. cbn [andb] in A2.
  assert (E : hd false (tl (faults w)) = nth 1 (faults w) false)
    by (destruct (faults w) as [|a [|b l]]; reflexivity).
  rewrite E in A2. subst r2. unfold current. rewrite C1.
  destruct (nth 1 (faults w) false); cbn [negb AvailableTableNames
    CurrentFilePath FileLoaded SqlDatabase ConnectionName].
  - repeat split; auto. congruence.
  - repeat split; auto; try congruence.
    rewrite masterRows_userTables. apply (parsed_names _ []).
Qed.

Lemma open_schedule c w :
  let '(ok, c', w') := open c w in
  ok = negb (hd false (faults w)) /\
  c' = mkConn (databaseName c) ok None /\
  faults w' = tl (faults w) /\ disk w' = disk w.
Proof.
  unfold open, tick, emit. cbn [faults disk registry trace].
  destruct (faults w) as [|[|] rest]; cbn; auto.
Qed.

Lemma close_schedule c w :
  isOpen (fst (close c w)) = false /\
  faults (snd (close c w)) = faults w.
Proof. unfold close. destruct (savepoint c); cbn; auto. Qed.

(** What [LoadSQLFile] leaves when it is given a path. *)
Lemma LoadSQLFile_run filePath self w :
  filePath <> "" ->
  let '(ok, self', w') := LoadSQLFile filePath self w in
  ConnectionName self' = ConnectionName self /\
  (ok = false ->
   isOpen (SqlDatabase self') = false /\
   AvailableTableNames self' = AvailableTableNames self /\
   CurrentFilePath self' = CurrentFilePath self /\
   FileLoaded self' = FileLoaded self) /\
  (ok = true ->
   SqlDatabase self' = mkConn filePath true None /\
   CurrentFilePath self' = filePath /\ FileLoaded self' = true /\
   AvailableTableNames self'
   = (if nth 4 (faults w) false then []
      else filter (fun name => negb (QStr.isEmpty name))
                  (userTables (disk w' filePath)))).
Proof.
  intros Hp. unfold LoadSQLFile. rewrite (isEmpty_false _ Hp).
  set (closed := if isOpen (SqlDatabase self)
                 then close (SqlDatabase self) w else (SqlDatabase self, w)).
  assert (F1 : faults (snd closed) = faults w).
  { unfold closed. destruct (isOpen (SqlDatabase self)); auto.
    apply close_schedule. }
  destruct closed as [c1 w1]. cbn [snd] in F1.
  set (w2 := if contains (ConnectionName self) w1
             then removeDatabase (ConnectionName self) w1 else w1).
  assert (F2 : faults w2 = faults w).
  { unfold w2. now destruct (contains (ConnectionName self) w1). }
  unfold addDatabase, setDatabaseName. cbn [databaseName isOpen savepoint].
  set (w3 := mkWorld (disk w2) (ConnectionName self :: registry w2)
                     (faults w2) (trace w2)).
  pose proof (open_schedule (mkConn filePath false None) w3) as Op.
  destruct (open (mkConn filePath false None) w3) as [[opened c4] w4].
  destruct Op as (Eo & -> & F4 & D4). unfold w3 in F4, Eo.
  cbn [databaseName faults] in *. rewrite F2 in F4, Eo. clear D4.
  destruct opened; cbn [negb].
  2:{ cbn. repeat split; auto; discriminate. }
  set (self4 := withDb (mkConn filePath true None) self).
  destruct (ValidateDatabaseConnection_schedule self4 w4 eq_refl)
    as (V & F5 & D5).
  destruct (ValidateDatabaseConnection self4 w4) as [valid w5].
  cbn [fst snd] in *.
  destruct valid; cbn [negb].
  2:{ destruct (close_schedule (mkConn filePath true None) w5) as (Cl & _).
      destruct (close (mkConn filePath true None) w5) as [c6 w6].
      cbn [fst] in Cl. cbn. repeat split; auto; discriminate. }
  set (self7 := mkWorker filePath _ _ _ _).
  pose proof (ParseSQLStructure_schedule self7 w5 eq_refl) as P.
  destruct (ParseSQLStructure self7 w5) as [self8 w8].
  destruct P as (N & Pa & Lo & Db & Cn & D8).
  cbn [self7 self4 CurrentFilePath FileLoaded SqlDatabase withDb
       AvailableTableNames ConnectionName] in *.
  split; [exact Cn|].
  split; [discriminate|]. intros _.
  cbn [CurrentFilePath FileLoaded SqlDatabase AvailableTableNames].
  refine (conj Db (conj Pa (conj eq_refl _))).
  rewrite N, F5, F4. unfold current. cbn [databaseName]. rewrite D8.
  replace (nth 1 (tl (tl (tl (faults w)))) false) with (nth 4 (faults w) false)
    by (destruct (faults w) as [|a [|b [|c [|d [|e l]]]]]; reflexivity).
  reflexivity.
Qed.




(** The same load with the table query refused: the load still returns
    true and the catalog is empty. *)
Example catalog_empty_on_error :
  let run := LoadSQLFile "shop.db" (new "0001")
                         (Sample.fresh [false; false; false; false; true]) in
  fst (fst run) = true /\ GetTableNames (snd (fst run)) = [].
Proof. split; reflexivity. Qed.

(** The pattern is SQLite's LIKE: [_] stands for any one character and
    letters match without regard to case. *)
Example internal_pattern :
  QStr.like Sql.INTERNAL_PATTERN "sqlite_sequence" = true
  /\ QStr.like Sql.INTERNAL_PATTERN "SQLiteData" = true
  /\ QStr.like Sql.INTERNAL_PATTERN "sqlite" = false
  /\ QStr.like Sql.INTERNAL_PATTERN "users" = false.
Proof. repeat split. Qed.

(** C9, as stated, fails.  After a successful load, [LoadSQLFile] with the
    empty path returns false at its first test, before the connection is
    touched: the old connection stays open and [IsFileLoaded] stays
    true. *)
Lemma failed_load_keeps_connection :
  fst (fst (LoadSQLFile "shop.db" (new "0001") (Sample.fresh []))) = true
  /\ let run := LoadSQLFile "" Sample.loaded (Sample.ready []) in
     fst (fst run) = false /\ IsFileLoaded (snd (fst run)) = true.
Proof. cbn zeta. repeat split. Qed.

(** C9, amended.  When [LoadSQLFile] is given a non-empty path and returns
    false, no connection is open afterwards, so [IsFileLoaded] is false,
    while [GetTableNames] and [GetCurrentFilePath] still answer what they
    answered before the call. *)
Theorem LoadSQLFile_failure_keeps_catalog filePath self w self' w' :
  filePath <> "" ->
  LoadSQLFile filePath self w = (false, self', w') ->
  IsFileLoaded self' = false /\
  GetTableNames self' = GetTableNames self /\
  GetCurrentFilePath self' = GetCurrentFilePath self.
Proof.
  intros Hp E.
  pose proof (LoadSQLFile_run filePath self w Hp) as Run.
  rewrite E in Run. destruct Run as (_ & Bad & _).
  destruct (Bad eq_refl) as (Ho & N & P & _).
  unfold IsFileLoaded, GetTableNames, GetCurrentFilePath.
  rewrite Ho, andb_false_r. auto.
Qed.

Lemma LoadSQLFile_failure_keeps_catalog_witness :
  let run := LoadSQLFile "gone.db" Sample.loaded (Sample.ready [true]) in
  fst (fst run) = false /\
  IsFileLoaded Sample.loaded = true /\
  IsFileLoaded (snd (fst run)) = false /\
  GetTableNames (snd (fst run)) = ["users"; "notes"] /\
  GetCurrentFilePath (snd (fst run)) = "shop.db".
Proof.
  cbn zeta.
  destruct (LoadSQLFile "gone.db" Sample.loaded (Sample.ready [true]))
    as [[ok self'] w'] eqn:E.
  assert (Hok : ok = false) by (now inversion E). subst ok.
  destruct (LoadSQLFile_failure_keeps_catalog "gone.db" Sample.loaded
              (Sample.ready [true]) self' w' ltac:(discriminate) E)
    as (H1 & H2 & H3).
  cbn [fst snd]. rewrite H1, H2, H3. repeat split.
Defined.

(* ================================================================== *)
(** ** Single-row operations: [AddRowToTable], [DeleteRowFromTable] *)
(* ================================================================== *)

Lemma padded_binds rowData n :
  map (fun _i => if Nat.ltb _i (length rowData) then nth _i rowData "" else "")
      (seq 0 n)
  = More.padded n rowData.
Proof.
  unfold More.padded. revert n.
  induction rowData as [|x rest IH]; intros n.
  - cbn [length firstn]. rewrite firstn_nil, Nat.sub_0_r. cbn [app].
    induction n as [|n IHn]; auto.
    rewrite seq_S, map_app, IHn. cbn [map Nat.add Nat.ltb Nat.leb].
    now rewrite <- repeat_cons.
  - destruct n as [|n]; auto.
    cbn [seq map firstn length Nat.sub nth app]. f_equal.
    rewrite <- seq_shift, map_map, <- IH. apply map_ext. intros i.
    reflexivity.
Qed.

Lemma padded_length n rowData : length (More.padded n rowData) = n.
Proof.
  unfold More.padded. rewrite length_app, length_firstn, repeat_length. lia.
Qed.

Lemma insertCompiles_own_columns t db tb :
  findTable t db = Some tb -> length (tblColumns tb) <> 0 ->
  insertCompiles t (tblColumns tb) db = true.
Proof.
  intros F Ne. unfold insertCompiles. rewrite F. apply andb_true_iff. split.
  - now apply negb_true_iff, Nat.eqb_neq.
  - apply forallb_forall. intros col Hin. unfold QStr.contains.
    apply existsb_exists. exists col. split; auto. apply String.eqb_refl.
Qed.

(** Every outcome of [AddRowToTable] past its first test. *)
Lemma AddRowToTable_run t rowData self w :
  FileLoaded self = true -> QStr.isEmpty t = false ->
  let '(ok, w') := AddRowToTable t rowData self w in
  elsewhere (databaseName (SqlDatabase self)) w w' /\
  (ok = false -> disk w' = disk w) /\
  (ok = true ->
   exists tb,
     findTable t (current (SqlDatabase self) w) = Some tb /\
     findTable t (disk w' (databaseName (SqlDatabase self)))
     = Some (mkTable (tblName tb) (tblColumns tb)
               (landed (current (SqlDatabase self) w) (tblName tb)
                  (tblRows tb)
                  (storedRow (tblColumns tb)
                     (More.padded (length (tblColumns tb)) rowData) tb)))) /\
  (findTable t (current (SqlDatabase self) w) = None ->
   ok = false /\ trace w' = trace w ++ [EvExec (Sql.GET_COLUMNS_QUERY t)]) /\
  (calm w -> isOpen (SqlDatabase self) = true ->
   forall tb, findTable t (current (SqlDatabase self) w) = Some tb ->
              length (tblColumns tb) <> 0 -> ok = true /\ calm w').
Proof.
  intros Hl Hn. unfold AddRowToTable. rewrite Hl, Hn. cbn [negb orb].
  set (c := SqlDatabase self).
  pose proof (GetTableColumns_stepped t self w) as St1.
  pose proof (GetTableColumns_nonempty t self w) as Cols.
  pose proof (fun tb Hc Ho => GetTableColumns_calm t self w tb Hc Ho) as ColsC.
  destruct (GetTableColumns t self w) as [cols w1]. cbn [fst snd] in *.
  fold c in Cols, ColsC.
  destruct (Nat.eqb (length cols) 0) eqn:E.
  { refine (conj (stepped_elsewhere _ _ _ _ St1)
              (conj (fun _ => stepped_disk St1) (conj _ (conj _ _)))).
    - discriminate.
    - intros _. split; auto. apply (stepped_trace St1).
    - intros Hc Ho tb F Ne. exfalso. apply Nat.eqb_eq in E.
      rewrite (ColsC tb Hc Ho F) in E. contradiction. }
  apply Nat.eqb_neq in E. destruct (Cols E) as (Ho & tb & F & ->).
  clear Cols ColsC.
  set (sql := insertQueryString t (tblColumns tb)).
  pose proof (prepareInsert_stepped c t (tblColumns tb) sql w1) as St2.
  pose proof (prepareInsert_calm c t (tblColumns tb) sql w1) as PrC.
  destruct (prepareInsert c t (tblColumns tb) sql w1) as [prepared w2].
  cbn [fst snd] in *.
  assert (F1 : findTable t (current c w1) = Some tb).
  { unfold current in *. now rewrite (stepped_disk St1). }
  assert (F2 : findTable t (current c w2) = Some tb).
  { unfold current in *. now rewrite (stepped_disk St2), (stepped_disk St1). }
  destruct prepared; cbn [negb].
  2:{ refine (conj _ (conj _ (conj _ (conj _ _)))).
      - eapply elsewhere_trans; eapply stepped_elsewhere; eauto.
      - intros _. now rewrite (stepped_disk St2), (stepped_disk St1).
      - discriminate.
      - intros X. rewrite X in F. discriminate.
      - intros Hc _ tb' F' Ne. exfalso.
        assert (tb' = tb) by congruence. subst tb'.
        rewrite (insertCompiles_own_columns t _ tb F1 Ne) in PrC.
        specialize (PrC (stepped_calm St1 Hc) Ho). discriminate. }
  rewrite padded_binds.
  set (binds := More.padded (length (tblColumns tb)) rowData).
  pose proof (execInsert_result c t (tblColumns tb) sql binds w2) as Ins.
  pose proof (execInsert_calm c t (tblColumns tb) sql binds w2) as InsC.
  destruct (execInsert c t (tblColumns tb) sql binds w2) as [done w3].
  destruct Ins as (_ & _ & Cm & El & Dk0 & Dk1). cbn [fst] in InsC.
  assert (El3 : elsewhere (databaseName c) w w3).
  { eapply elsewhere_trans; [eapply stepped_elsewhere; eauto|].
    eapply elsewhere_trans; [eapply stepped_elsewhere; eauto|]. exact El. }
  destruct done; cbn [negb].
  - refine (conj El3 (conj _ (conj _ (conj _ _)))).
    + discriminate.
    + intros _. exists tb. split; auto.
      destruct (Dk1 eq_refl) as (_ & ->).
      rewrite findTable_updateTable by reflexivity.
      rewrite F2. unfold current.
      now rewrite (stepped_disk St2), (stepped_disk St1).
    + intros X. rewrite X in F. discriminate.
    + intros Hc _ _ _ _. split; auto.
      apply Cm, (stepped_calm St2), (stepped_calm St1), Hc.
  - refine (conj El3 (conj _ (conj _ (conj _ _)))).
    + intros _. now rewrite (Dk0 eq_refl), (stepped_disk St2),
        (stepped_disk St1).
    + discriminate.
    + intros X. rewrite X in F. discriminate.
    + intros Hc _ tb' F' Ne. exfalso.
      assert (tb' = tb) by congruence. subst tb'.
      assert (X : false = true); [|discriminate].
      apply InsC; auto.
      * apply (stepped_calm St2), (stepped_calm St1), Hc.
      * apply insertCompiles_own_columns with (tb := tb); auto.
Qed.

(** X1. On a loaded file, with the engine refusing nothing, adding a row
    to an existing table adds exactly one row to the rows of the table:
    the values given, cut to the number of columns or filled up with empty
    texts, as the engine renders them.  The row comes after the rows
    already there when the engine keeps the order of insertion, and it
    holds the very texts given when, further, the engine gives back the
    text bound.  Other files are not touched. *)
Theorem AddRowToTable_appends t rowData self w tb :
  FileLoaded self = true -> t <> "" ->
  isOpen (SqlDatabase self) = true -> calm w ->
  findTable t (current (SqlDatabase self) w) = Some tb ->
  wfTable tb = true ->
  let '(ok, w') := AddRowToTable t rowData self w in
  ok = true /\
  (exists rows,
      findTable t (current (SqlDatabase self) w')
      = Some (mkTable (tblName tb) (tblColumns tb) rows) /\
      Permutation rows
        (tblRows tb
         ++ [renders (current (SqlDatabase self) w) (tblName tb)
               (More.padded (length (tblColumns tb)) rowData)]) /\
      (keepsOrder (current (SqlDatabase self) w) tb ->
       rows = tblRows tb
              ++ [renders (current (SqlDatabase self) w) (tblName tb)
                    (More.padded (length (tblColumns tb)) rowData)]) /\
      (keepsOrder (current (SqlDatabase self) w) tb ->
       keepsText (current (SqlDatabase self) w) tb ->
       rows = tblRows tb
              ++ [More.padded (length (tblColumns tb)) rowData])) /\
  elsewhere (databaseName (SqlDatabase self)) w w'.
Proof.
  intros Hl Hn Ho Hc F Wf.
  destruct (wfTable_parts tb Wf) as (Ne & Nd & _).
  pose proof (AddRowToTable_run t rowData self w Hl (isEmpty_false _ Hn))
    as Run.
  destruct (AddRowToTable t rowData self w) as [ok w'].
  destruct Run as (El & _ & Good & _ & Cal).
  destruct (Cal Hc Ho tb F Ne) as (-> & _).
  destruct (Good eq_refl) as (tb' & F' & D).
  assert (tb' = tb) by congruence. subst tb'.
  rewrite storedRow_own_columns in D; auto using padded_length.
  refine (conj eq_refl (conj _ El)).
  eexists. split; [exact D|]. unfold landed. split; [|split].
  - apply insertAt_perm.
  - intros K. now apply insertAt_last.
  - intros K Kt. rewrite Kt. now apply insertAt_last.
Qed.

Lemma AddRowToTable_appends_witness :
  let run := AddRowToTable "tags" ["b"] Sample.atDesk (Sample.deskReady []) in
  fst run = true /\
  findTable "tags" (disk (snd run) "desk.db")
  = Some (mkTable "tags" ["code"; "label"] [["a"; "red"]; ["b"; ""]]).
Proof.
  cbn zeta.
  assert (Hc : calm (Sample.deskReady [])) by constructor.
  pose proof (AddRowToTable_appends "tags" ["b"] Sample.atDesk
                (Sample.deskReady []) Sample.tags eq_refl ltac:(discriminate)
                eq_refl Hc eq_refl eq_refl) as H.
  destruct (AddRowToTable "tags" ["b"] Sample.atDesk (Sample.deskReady []))
    as [ok w'].
  destruct H as (H1 & (rows & H2 & _ & _ & H3) & _).
  cbn [fst snd]. split; [exact H1|].
  change (disk w' "desk.db") with (current (SqlDatabase Sample.atDesk) w').
  rewrite H2, H3; [reflexivity | |].
  - intros rs r. apply le_n.
  - intros r. reflexivity.
Defined.

(** X2. Whenever [AddRowToTable] returns false - no file loaded, empty
    name, no column found for the table, the insert refused at prepare or
    at execution - every file holds what it held before the call. *)
Theorem AddRowToTable_failure_keeps_storage t rowData self w :
  fst (AddRowToTable t rowData self w) = false ->
  sameStorage w (snd (AddRowToTable t rowData self w)).
Proof.
  destruct (FileLoaded self) eqn:Hl.
  - destruct (QStr.isEmpty t) eqn:Hn.
    + unfold AddRowToTable. rewrite Hl, Hn. intros _ p. reflexivity.
    + pose proof (AddRowToTable_run t rowData self w Hl Hn) as Run.
      destruct (AddRowToTable t rowData self w) as [ok w'].
      cbn [fst snd]. intros ->. destruct Run as (_ & Bad & _).
      intros p. now rewrite (Bad eq_refl).
  - unfold AddRowToTable. rewrite Hl. intros _ p. reflexivity.
Qed.

Lemma AddRowToTable_failure_keeps_storage_witness :
  let run := AddRowToTable "users" ["3"; "Cy"] Sample.loaded
                           (Sample.ready [false; false; true]) in
  fst run = false /\ sameStorage (Sample.ready [false; false; true]) (snd run).
Proof.
  cbn zeta. split; [reflexivity|].
  apply AddRowToTable_failure_keeps_storage. reflexivity.
Defined.



(** On the keyed table the new row takes the place its key gives it. *)
Example AddRowToTable_keyed :
  option_map texts
    (snd (fst (LoadTableData "people" (Some Sample.blank) Sample.atDesk
                 (snd (AddRowToTable "people" ["0"; "Zed"] Sample.atDesk
                         (Sample.deskReady []))))))
  = Some [["0"; "Zed"]; ["1"; "Ann"]; ["2"; "Bo"]].
Proof. vm_compute. reflexivity. Qed.



(** Every outcome of [DeleteRowFromTable] past its first test. *)
Lemma execDeleteRow_result c t k w :
  let '(ok, w') := execDeleteRow c t k w in
  trace w' = trace w ++ [EvExec (Sql.DELETE_ROW_QUERY t k)] /\
  elsewhere (databaseName c) w w' /\
  (ok = false -> disk w' = disk w) /\
  (ok = true ->
   exists tb, findTable t (current c w) = Some tb /\
     disk w' (databaseName c)
     = updateTable t
         (fun x => mkTable (tblName x) (tblColumns x)
                     (withoutRow (current c w) (tblName x) k (tblRows x)))
         (current c w)) /\
  (calm w -> isOpen c = true ->
   forall tb, findTable t (current c w) = Some tb -> ok = true).
Proof.
  unfold execDeleteRow.
  pose proof (call_stepped c (EvExec (Sql.DELETE_ROW_QUERY t k)) w) as St.
  pose proof (call_calm c (EvExec (Sql.DELETE_ROW_QUERY t k)) w) as Cal.
  destruct (call c (EvExec (Sql.DELETE_ROW_QUERY t k)) w) as [ok w0].
  cbn [fst snd] in *. destruct St as [d r tr cm]. unfold current. rewrite d.
  destruct (findTable t (disk w (databaseName c))) as [tb|] eqn:F.
  - destruct ok.
    + refine (conj tr (conj _ (conj _ (conj _ _)))).
      * intros p Hp. cbn. now rewrite Hp, d.
      * discriminate.
      * intros _. exists tb. split; auto. cbn [disk writeDisk].
        now rewrite String.eqb_refl.
      * auto.
    + refine (conj tr (conj _ (conj _ (conj _ _)))).
      * intros p _. now rewrite d.
      * auto.
      * discriminate.
      * intros Hc Ho tb' _. rewrite (Cal Hc), Ho. reflexivity.
  - refine (conj tr (conj _ (conj _ (conj _ _)))).
    + intros p _. now rewrite d.
    + auto.
    + discriminate.
    + intros _ _ tb'. discriminate.
Qed.

Lemma removeNth_length {A} k (l : list A) :
  k < length l -> length (removeNth k l) = length l - 1.
Proof.
  intros H. unfold removeNth.
  rewrite length_app, length_firstn, length_skipn. lia.
Qed.

Lemma withoutRow_beyond db name k rows :
  length rows <= k -> withoutRow db name k rows = rows.
Proof.
  intros H. unfold withoutRow.
  now replace (Nat.ltb k (length rows)) with false
    by (symmetry; apply Nat.ltb_ge; lia).
Qed.

(** X5. With the engine refusing nothing, asking [DeleteRowFromTable] for
    a row index at or beyond the number of rows of the table returns true
    although nothing is deleted: every file holds what it held. *)
Theorem DeleteRowFromTable_beyond_last t rowIndex self w tb :
  FileLoaded self = true -> t <> "" ->
  isOpen (SqlDatabase self) = true -> calm w ->
  findTable t (current (SqlDatabase self) w) = Some tb ->
  (Z.of_nat (length (tblRows tb)) <= rowIndex)%Z ->
  let '(ok, w') := DeleteRowFromTable t rowIndex self w in
  ok = true /\ sameStorage w w'.
Proof.
  intros Hl Hn Ho Hc F Hk. unfold DeleteRowFromTable.
  rewrite Hl, (isEmpty_false _ Hn). cbn [negb orb].
  replace (Z.ltb rowIndex 0) with false by (symmetry; apply Z.ltb_ge; lia).
  pose proof (execDeleteRow_result (SqlDatabase self) t (Z.to_nat rowIndex) w)
    as R.
  destruct (execDeleteRow (SqlDatabase self) t (Z.to_nat rowIndex) w)
    as [ok w'].
  destruct R as (_ & El & _ & Good & Cal).
  rewrite (Cal Hc Ho tb F) in *. split; auto.
  destruct (Good eq_refl) as (tb' & F' & D).
  assert (tb' = tb) by congruence. subst tb'.
  apply (elsewhere_sameStorage _ _ _ El). rewrite D.
  apply updateTable_fixed with (tb := tb); [exact F|].
  rewrite withoutRow_beyond by lia. now destruct tb.
Qed.

Lemma DeleteRowFromTable_beyond_last_witness :
  let run := DeleteRowFromTable "users" 2 Sample.loaded (Sample.ready []) in
  fst run = true /\ sameStorage (Sample.ready []) (snd run).
Proof.
  cbn zeta.
  assert (Hc : calm (Sample.ready [])) by constructor.
  pose proof (DeleteRowFromTable_beyond_last "users" 2 Sample.loaded
                (Sample.ready []) Sample.users eq_refl ltac:(discriminate)
                eq_refl Hc eq_refl ltac:(cbn; lia)) as H.
  destruct (DeleteRowFromTable "users" 2 Sample.loaded (Sample.ready []))
    as [ok w'].
  exact H.
Defined.

(** X6. With the engine refusing nothing, [DeleteRowFromTable] with the
    index of a row of the table returns true and leaves the table with
    one row less at most; where the engine walks the ROWIDs of the table
    in the order in which it returns the rows, the row removed is the one
    at that index and no other: the rows before and after it stay, in
    order.  Other files are not touched. *)
Theorem DeleteRowFromTable_removes_row t rowIndex self w tb :
  FileLoaded self = true -> t <> "" ->
  isOpen (SqlDatabase self) = true -> calm w ->
  findTable t (current (SqlDatabase self) w) = Some tb ->
  (0 <= rowIndex < Z.of_nat (length (tblRows tb)))%Z ->
  let '(ok, w') := DeleteRowFromTable t rowIndex self w in
  ok = true /\
  (exists rows,
      findTable t (current (SqlDatabase self) w')
      = Some (mkTable (tblName tb) (tblColumns tb) rows) /\
      length (tblRows tb) - 1 <= length rows <= length (tblRows tb) /\
      (walksInOrder (current (SqlDatabase self) w) tb ->
       rows = firstn (Z.to_nat rowIndex) (tblRows tb)
              ++ skipn (S (Z.to_nat rowIndex)) (tblRows tb) /\
       length rows = length (tblRows tb) - 1)) /\
  elsewhere (databaseName (SqlDatabase self)) w w'.
Proof.
  intros Hl Hn Ho Hc F Hk. unfold DeleteRowFromTable.
  rewrite Hl, (isEmpty_false _ Hn). cbn [negb orb].
  replace (Z.ltb rowIndex 0) with false by (symmetry; apply Z.ltb_ge; lia).
  pose proof (execDeleteRow_result (SqlDatabase self) t (Z.to_nat rowIndex) w)
    as R.
  destruct (execDeleteRow (SqlDatabase self) t (Z.to_nat rowIndex) w)
    as [ok w'].
  destruct R as (_ & El & _ & Good & Cal).
  rewrite (Cal Hc Ho tb F) in *.
  destruct (Good eq_refl) as (tb' & F' & D).
  assert (tb' = tb) by congruence. subst tb'.
  refine (conj eq_refl (conj _ El)).
  eexists. split; [|split].
  - unfold current at 1. rewrite D.
    rewrite findTable_updateTable by reflexivity. now rewrite F.
  - cbn [tblName tblRows]. unfold withoutRow.
    replace (Nat.ltb (Z.to_nat rowIndex) (length (tblRows tb))) with true
      by (symmetry; apply Nat.ltb_lt; lia).
    unfold removeNth. rewrite length_app, length_firstn, length_skipn. lia.
  - intros K. cbn [tblName tblRows]. unfold withoutRow.
    replace (Nat.ltb (Z.to_nat rowIndex) (length (tblRows tb))) with true
      by (symmetry; apply Nat.ltb_lt; lia).
    rewrite K. split; [reflexivity|].
    apply (removeNth_length (Z.to_nat rowIndex) (tblRows tb)). lia.
Qed.

Lemma DeleteRowFromTable_removes_row_witness :
  let run := DeleteRowFromTable "users" 0 Sample.loaded (Sample.ready []) in
  fst run = true /\
  findTable "users" (disk (snd run) "shop.db")
  = Some (mkTable "users" ["id"; "name"] [["2"; "Bo"]]).
Proof.
  cbn zeta.
  assert (Hc : calm (Sample.ready [])) by constructor.
  pose proof (DeleteRowFromTable_removes_row "users" 0 Sample.loaded
                (Sample.ready []) Sample.users eq_refl ltac:(discriminate)
                eq_refl Hc eq_refl ltac:(cbn; lia)) as H.
  destruct (DeleteRowFromTable "users" 0 Sample.loaded (Sample.ready []))
    as [ok w'].
  destruct H as (H1 & (rows & H2 & _ & H3) & _). cbn [fst snd].
  split; [exact H1|].
  change (disk w' "shop.db") with (current (SqlDatabase Sample.loaded) w').
  rewrite H2. destruct H3 as (-> & _); [|reflexivity].
  intros rs k. reflexivity.
Defined.

(** Where the engine walks an index instead, the row removed is another
    one: on [tags] of [desk.db], holding two rows, index 0 removes the
    second. *)
Example DeleteRowFromTable_walks_index :
  let w1 := snd (AddRowToTable "tags" ["b"; "blue"] Sample.atDesk
                   (Sample.deskReady [])) in
  findTable "tags" (disk w1 "desk.db")
  = Some (mkTable "tags" ["code"; "label"] [["a"; "red"]; ["b"; "blue"]])
  /\ findTable "tags"
       (disk (snd (DeleteRowFromTable "tags" 0 Sample.atDesk w1)) "desk.db")
     = Some (mkTable "tags" ["code"; "label"] [["a"; "red"]]).
Proof. vm_compute. split; reflexivity. Qed.

(** X7. Whenever [DeleteRowFromTable] returns false - no file loaded,
    empty name, negative index, unknown table, statement refused - every
    file holds what it held; with a negative index nothing at all is
    asked of the engine. *)
Theorem DeleteRowFromTable_failure_keeps_storage t rowIndex self w :
  fst (DeleteRowFromTable t rowIndex self w) = false ->
  sameStorage w (snd (DeleteRowFromTable t rowIndex self w)) /\
  ((rowIndex < 0)%Z -> snd (DeleteRowFromTable t rowIndex self w) = w).
Proof.
  unfold DeleteRowFromTable.
  destruct (negb (FileLoaded self) || QStr.isEmpty t) eqn:G; cbn [orb].
  - intros _. split; [intros p; reflexivity | reflexivity].
  - destruct (Z.ltb rowIndex 0) eqn:E.
    + intros _. split; [intros p; reflexivity | reflexivity].
    + pose proof (execDeleteRow_result (SqlDatabase self) t
                    (Z.to_nat rowIndex) w) as R.
      destruct (execDeleteRow (SqlDatabase self) t (Z.to_nat rowIndex) w)
        as [ok w'].
      cbn [fst snd]. intros ->. destruct R as (_ & _ & Bad & _). split.
      * intros p. now rewrite (Bad eq_refl).
      * intros Hneg. apply Z.ltb_ge in E. lia.
Qed.

Lemma DeleteRowFromTable_failure_keeps_storage_witness :
  let run := DeleteRowFromTable "users" (-1) Sample.loaded (Sample.ready []) in
  fst run = false /\ snd run = Sample.ready [].
Proof.
  cbn zeta. split; [reflexivity|].
  apply (DeleteRowFromTable_failure_keeps_storage "users" (-1) Sample.loaded
           (Sample.ready [])).
  - reflexivity.
  - reflexivity.
Defined.

(* ================================================================== *)
(** ** The loaded flag and the connection registry *)
(* ================================================================== *)

(** X8. [LoadSQLFile] never clears the loaded flag: once [SaveSQLFile]
    answers true it answers true after every later [LoadSQLFile], also
    after one that failed and left no connection open. *)
Theorem SaveSQLFile_after_reload filePath self w :
  SaveSQLFile self = true ->
  SaveSQLFile (snd (fst (LoadSQLFile filePath self w))) = true.
Proof.
  unfold SaveSQLFile. intros H.
  destruct (FileLoaded self) eqn:Hl; [|discriminate].
  destruct filePath as [|a rest].
  - unfold LoadSQLFile. cbn [QStr.isEmpty fst snd]. now rewrite Hl.
  - pose proof (LoadSQLFile_run (String a rest) self w ltac:(discriminate))
      as Run.
    destruct (LoadSQLFile (String a rest) self w) as [[ok self'] w'].
    cbn [fst snd]. destruct Run as (_ & Bad & Good).
    destruct ok.
    + destruct (Good eq_refl) as (_ & _ & -> & _). reflexivity.
    + destruct (Bad eq_refl) as (_ & _ & _ & ->). now rewrite Hl.
Qed.

Lemma SaveSQLFile_after_reload_witness :
  let after := snd (fst (LoadSQLFile "gone.db" Sample.loaded
                           (Sample.ready [true]))) in
  IsFileLoaded after = false /\ SaveSQLFile after = true.
Proof.
  cbn zeta. split; [reflexivity|].
  apply SaveSQLFile_after_reload. reflexivity.
Defined.

Lemma execRead_registry c sql rows w :
  registry (snd (execRead c sql rows w)) = registry w.
Proof. apply (stepped_registry (execRead_stepped c sql rows w)). Qed.

Lemma close_registry c w : registry (snd (close c w)) = registry w.
Proof. unfold close. now destruct (savepoint c). Qed.

Lemma open_registry c w : registry (snd (open c w)) = registry w.
Proof.
  unfold open, tick, emit. cbn [faults registry].
  destruct (faults w) as [|[|] rest]; reflexivity.
Qed.

Lemma ValidateDatabaseConnection_registry self w :
  registry (snd (ValidateDatabaseConnection self w)) = registry w.
Proof.
  unfold ValidateDatabaseConnection, execSelectOne.
  destruct (isOpen (SqlDatabase self)); cbn [negb]; auto.
  pose proof (execRead_registry (SqlDatabase self) Sql.SELECT_ONE
                (Some [["1"]]) w) as R1.
  destruct (execRead (SqlDatabase self) Sql.SELECT_ONE (Some [["1"]]) w)
    as [r1 w1]. cbn [snd] in R1.
  pose proof (execRead_registry (SqlDatabase self) Sql.SELECT_ONE
                (Some [["1"]]) w1) as R2.
  destruct (execRead (SqlDatabase self) Sql.SELECT_ONE (Some [["1"]]) w1)
    as [r2 w2]. cbn [snd] in R2.
  destruct r2; cbn [snd]; congruence.
Qed.

Lemma ParseSQLStructure_registry self w :
  registry (snd (ParseSQLStructure self w)) = registry w.
Proof.
  unfold ParseSQLStructure, execGetTables.
  pose proof (execRead_registry (SqlDatabase self) Sql.GET_TABLES_QUERY
                (Some (masterRows (current (SqlDatabase self) w))) w) as R1.
  destruct (execRead (SqlDatabase self) Sql.GET_TABLES_QUERY _ w)
    as [r1 w1]. cbn [snd] in R1.
  pose proof (execRead_registry (SqlDatabase self) Sql.GET_TABLES_QUERY
                (Some (masterRows (current (SqlDatabase self) w1))) w1) as R2.
  destruct (execRead (SqlDatabase self) Sql.GET_TABLES_QUERY _ w1)
    as [r2 w2]. cbn [snd] in R2.
  destruct r2; cbn [snd]; congruence.
Qed.

Lemma LoadSQLFile_registry filePath self w :
  filePath <> "" ->
  registry (snd (LoadSQLFile filePath self w))
  = ConnectionName self
    :: filter (fun n => negb (String.eqb n (ConnectionName self)))
              (registry w).
Proof.
  intros Hp. unfold LoadSQLFile. rewrite (isEmpty_false _ Hp).
  set (closed := if isOpen (SqlDatabase self)
                 then close (SqlDatabase self) w else (SqlDatabase self, w)).
  assert (R1 : registry (snd closed) = registry w).
  { unfold closed. destruct (isOpen (SqlDatabase self)); auto.
    apply close_registry. }
  destruct closed as [c1 w1]. cbn [snd] in R1.
  set (w2 := if contains (ConnectionName self) w1
             then removeDatabase (ConnectionName self) w1 else w1).
  assert (R2 : registry w2
               = filter (fun n => negb (String.eqb n (ConnectionName self)))
                        (registry w)).
  { unfold w2, contains, QStr.contains. rewrite <- R1.
    destruct (existsb (String.eqb (ConnectionName self)) (registry w1)) eqn:E;
      auto.
    symmetry. apply forallb_filter_id. apply forallb_forall.
    intros n Hin. apply negb_true_iff.
    destruct (String.eqb n (ConnectionName self)) eqn:En; auto.
    apply String.eqb_eq in En. subst n.
    assert (X : existsb (String.eqb (ConnectionName self)) (registry w1)
                = true); [|congruence].
    apply existsb_exists. exists (ConnectionName self).
    split; auto. apply String.eqb_refl. }
  unfold addDatabase, setDatabaseName. cbn [databaseName isOpen savepoint].
  set (w3 := mkWorld (disk w2) (ConnectionName self :: registry w2)
                     (faults w2) (trace w2)).
  pose proof (open_registry (mkConn filePath false None) w3) as R4.
  destruct (open (mkConn filePath false None) w3) as [[opened c4] w4].
  cbn [snd] in R4. unfold w3 in R4. cbn [registry] in R4. rewrite R2 in R4.
  destruct opened; cbn [negb]; [|exact R4].
  pose proof (ValidateDatabaseConnection_registry (withDb c4 self) w4) as R5.
  destruct (ValidateDatabaseConnection (withDb c4 self) w4) as [valid w5].
  cbn [snd] in R5.
  destruct valid; cbn [negb].
  - set (self7 := mkWorker filePath _ _ _ _).
    pose proof (ParseSQLStructure_registry self7 w5) as R8.
    destruct (ParseSQLStructure self7 w5) as [self8 w8].
    cbn [snd] in *. congruence.
  - pose proof (close_registry c4 w5) as R6.
    destruct (close c4 w5) as [c6 w6]. cbn [snd] in *. congruence.
Qed.

(** X9. After [LoadSQLFile] on a non-empty path, successful or not, the
    worker's connection name is registered exactly once, however often it
    was registered before, and every other connection name is registered
    as often as before. *)
Theorem LoadSQLFile_registers_once filePath self w :
  filePath <> "" ->
  count_occ string_dec (registry (snd (LoadSQLFile filePath self w)))
            (ConnectionName self) = 1 /\
  forall other, other <> ConnectionName self ->
    count_occ string_dec (registry (snd (LoadSQLFile filePath self w))) other
    = count_occ string_dec (registry w) other.
Proof.
  intros Hp. rewrite (LoadSQLFile_registry filePath self w Hp).
  set (name := ConnectionName self).
  assert (G : forall l other,
             count_occ string_dec
               (filter (fun n => negb (String.eqb n name)) l) other
             = if string_dec other name then 0
               else count_occ string_dec l other).
  { induction l as [|x l IH]; intros other.
    - now destruct (string_dec other name).
    - cbn [filter]. destruct (String.eqb x name) eqn:E; cbn [negb].
      + apply String.eqb_eq in E. subst x. rewrite IH.
        destruct (string_dec other name) as [->|Ne]; auto.
        rewrite count_occ_cons_neq; auto.
      + apply String.eqb_neq in E. cbn [count_occ].
        destruct (string_dec x other) as [->|Ne].
        * rewrite IH. destruct (string_dec other name); [contradiction|].
          reflexivity.
        * rewrite IH. reflexivity. }
  split.
  - rewrite count_occ_cons_eq by reflexivity. rewrite G.
    now destruct (string_dec name name).
  - intros other Ne. rewrite count_occ_cons_neq by congruence.
    rewrite G. now destruct (string_dec other name).
Qed.

Lemma LoadSQLFile_registers_once_witness :
  count_occ string_dec
    (registry (snd (LoadSQLFile "odd.db" Sample.loaded (Sample.ready []))))
    (ConnectionName Sample.loaded) = 1.
Proof.
  destruct (LoadSQLFile_registers_once "odd.db" Sample.loaded
              (Sample.ready []) ltac:(discriminate)) as (H & _).
  exact H.
Defined.

(* ================================================================== *)
(** ** More on load and commit *)
(* ================================================================== *)

Lemma LoadTableData_storage t tableWidget self w :
  sameStorage w (snd (LoadTableData t tableWidget self w)).
Proof.
  unfold LoadTableData. destruct tableWidget as [tw|];
    [|intros p; reflexivity].
  destruct (negb (FileLoaded self) || QStr.isEmpty t);
    [intros p; reflexivity|].
  destruct (negb (isOpen (SqlDatabase self))); [intros p; reflexivity|].
  pose proof (GetTableColumns_stepped t self w) as St1.
  destruct (GetTableColumns t self w) as [cols w1]. cbn [snd] in St1.
  destruct (Nat.eqb (length cols) 0);
    [intros p; cbn; now rewrite (stepped_disk St1)|].
  pose proof (execSelectAll_stepped (SqlDatabase self) t w1) as St2.
  destruct (execSelectAll (SqlDatabase self) t w1) as [[rows|] w2];
    cbn [snd] in St2.
  - destruct (LoadTableData_rows _ _ 0 _) as [ri tw4]. cbn [snd].
    intros p. now rewrite (stepped_disk St2), (stepped_disk St1).
  - cbn [snd]. intros p. now rewrite (stepped_disk St2), (stepped_disk St1).
Qed.

(** X10. [LoadTableData] only reads: whatever it returns, every file
    holds what it held; and when it returns false the grid it was given
    comes back as it was. *)
Theorem LoadTableData_only_reads t tableWidget self w :
  sameStorage w (snd (LoadTableData t tableWidget self w)) /\
  (fst (fst (LoadTableData t tableWidget self w)) = false ->
   snd (fst (LoadTableData t tableWidget self w)) = tableWidget).
Proof.
  unfold LoadTableData. destruct tableWidget as [tw|].
  2:{ split; [intros p|]; reflexivity. }
  destruct (negb (FileLoaded self) || QStr.isEmpty t).
  { split; [intros p|]; reflexivity. }
  destruct (negb (isOpen (SqlDatabase self))).
  { split; [intros p|]; reflexivity. }
  pose proof (GetTableColumns_stepped t self w) as St1.
  destruct (GetTableColumns t self w) as [cols w1]. cbn [snd] in St1.
  destruct (Nat.eqb (length cols) 0).
  { split; [intros p; cbn; now rewrite (stepped_disk St1)|reflexivity]. }
  pose proof (execSelectAll_stepped (SqlDatabase self) t w1) as St2.
  destruct (execSelectAll (SqlDatabase self) t w1) as [[rows|] w2];
    cbn [snd] in St2.
  - destruct (LoadTableData_rows _ _ 0 _) as [ri tw4]. cbn [fst snd]. split.
    + intros p. now rewrite (stepped_disk St2), (stepped_disk St1).
    + discriminate.
  - cbn [fst snd]. split; auto.
    intros p. now rewrite (stepped_disk St2), (stepped_disk St1).
Qed.

(** X11. A load that succeeds replaces the grid entirely: the grid it
    returns, and the world it leaves, are the same whatever grid was
    handed in. *)
Theorem LoadTableData_replaces_grid t before other self w g w' :
  LoadTableData t (Some before) self w = (true, g, w') ->
  LoadTableData t (Some other) self w = (true, g, w').
Proof.
  unfold LoadTableData.
  destruct (negb (FileLoaded self) || QStr.isEmpty t); [discriminate|].
  destruct (negb (isOpen (SqlDatabase self))); [discriminate|].
  destruct (GetTableColumns t self w) as [cols w1].
  destruct (Nat.eqb (length cols) 0); [discriminate|].
  destruct (execSelectAll (SqlDatabase self) t w1) as [[rows|] w2];
    [|discriminate].
  pose proof (LoadTableData_grid before cols rows) as G1.
  pose proof (LoadTableData_grid other cols rows) as G2.
  cbn zeta in G1, G2.
  destruct (LoadTableData_rows (length cols) rows 0
              (setHorizontalHeaderLabels cols
                 (setColumnCount (length cols) (clear before)))) as [r1 t1].
  destruct (LoadTableData_rows (length cols) rows 0
              (setHorizontalHeaderLabels cols
                 (setColumnCount (length cols) (clear other)))) as [r2 t2].
  rewrite G1, G2. auto.
Qed.

Lemma LoadTableData_replaces_grid_witness :
  LoadTableData "users" (Some Sample.grid) Sample.loaded (Sample.ready [])
  = LoadTableData "users" (Some Sample.blank) Sample.loaded (Sample.ready []).
Proof.
  destruct (LoadTableData "users" (Some Sample.blank) Sample.loaded
              (Sample.ready [])) as [[ok g] w'] eqn:E.
  assert (Hok : ok = true) by (now inversion E). subst ok.
  apply (LoadTableData_replaces_grid "users" Sample.blank Sample.grid
           Sample.loaded (Sample.ready []) g w' E).
Defined.

Lemma schema_updateTable t f db :
  (forall tb, tblName (f tb) = tblName tb) ->
  (forall tb, tblColumns (f tb) = tblColumns tb) ->
  More.schema (updateTable t f db) = More.schema db.
Proof.
  intros Hn Hc. unfold More.schema, updateTable.
  destruct (reads db t) as [n|]; auto. cbn [tables withTables].
  induction (tables db) as [|x ts IH]; cbn [updateStored map]; auto.
  destruct (String.eqb (tblName x) n); cbn [map].
  - now rewrite Hn, Hc.
  - now rewrite IH.
Qed.

(** X12. Whatever [UpdateCompleteTable] returns, it changes no schema: in
    every file the tables are those of before, in the same order, with
    the same names and the same column lists. *)
Theorem UpdateCompleteTable_keeps_schema tableName tableWidget self w :
  forall path,
    More.schema (disk (snd (UpdateCompleteTable tableName tableWidget self w))
                      path)
    = More.schema (disk w path).
Proof.
  intros path.
  destruct (UpdateCompleteTable_cases tableName tableWidget self w)
    as [E | (tw & -> & Hl & Hn & Ho)].
  - rewrite E. cbn [snd]. auto.
  - pose proof (UpdateCompleteTable_run tableName tw self w Hl Hn Ho) as Run.
    destruct (UpdateCompleteTable tableName (Some tw) self w)
      as [[ok self'] w'].
    cbn [snd]. destruct Run as (El & _ & Here & Cases).
    destruct (String.eqb path (databaseName (SqlDatabase self))) eqn:Ep.
    2:{ now rewrite (El path Ep). }
    apply String.eqb_eq in Ep. subst path.
    destruct ok; [|now rewrite (Here eq_refl)].
    destruct Cases as [A | [B | C]];
      [destruct A; discriminate | destruct B; discriminate |].
    destruct C as (tb & names & rest & _ & _ & _ & _ & _ & _ & _ & _ & Good).
    destruct (Good eq_refl) as (_ & _ & -> & _).
    unfold replaceRows, current. now apply schema_updateTable.
Qed.

(** The worker as [UpdateCompleteTable] leaves it. *)
Lemma UpdateCompleteTable_worker tableName tableWidget self w :
  savepoint (SqlDatabase self) = None ->
  snd (fst (UpdateCompleteTable tableName tableWidget self w)) = self
  \/ snd (fst (UpdateCompleteTable tableName tableWidget self w))
     = withDb (mkConn (databaseName (SqlDatabase self)) true None) self.
Proof.
  intros Sv.
  destruct (UpdateCompleteTable_cases tableName tableWidget self w)
    as [E | (tw & -> & Hl & Hn & Ho)].
  { rewrite E. auto. }
  unfold UpdateCompleteTable. rewrite Hl, Hn, Ho. cbn [negb orb].
  set (c := SqlDatabase self) in *.
  destruct (transaction c w) as [[started c1] w1] eqn:T.
  destruct started; cbn [negb].
  2:{ destruct (transaction_refused _ _ _ _ T) as (-> & _).
      left. cbn [fst snd]. now destruct self. }
  destruct (transaction_started _ _ _ _ T) as (_ & _ & -> & _).
  set (c1 := mkConn (databaseName c) true (Some (current c w))).
  destruct (execDeleteAll c1 tableName w1) as [deleted w2].
  destruct deleted; cbn [negb].
  2:{ pose proof (rollback_restores c1 w2 (current c w) eq_refl) as Rb.
      destruct (rollback c1 w2) as [c3 w3]. destruct Rb as (-> & _).
      right. reflexivity. }
  destruct (UpdateCompleteTable_columns tableName tw (withDb c1 self)
              (seq 0 (columnCount tw)) [] w2) as [names w3].
  set (sql := insertQueryString tableName names).
  destruct (prepareInsert c1 tableName names sql w3) as [prepared w4].
  destruct prepared; cbn [negb].
  2:{ pose proof (rollback_restores c1 w4 (current c w) eq_refl) as Rb.
      destruct (rollback c1 w4) as [c5 w5]. destruct Rb as (-> & _).
      right. reflexivity. }
  pose proof (rows_loop tableName tw names sql (current c w)
                (seq 0 (rowCount tw)) (withDb c1 self) w4 eq_refl) as Rows.
  destruct (UpdateCompleteTable_rows tableName tw names sql
              (seq 0 (rowCount tw)) (withDb c1 self) w4)
    as [[inserted self6] w6].
  destruct Rows as (_ & _ & _ & Bad & Good).
  destruct inserted; cbn [negb].
  2:{ destruct (Bad eq_refl) as (_ & ->). right. reflexivity. }
  destruct (Good eq_refl) as (-> & _). cbn [SqlDatabase withDb].
  pose proof (commit_result c1 w6 (current c w) eq_refl) as Com.
  destruct (commit c1 w6) as [[committed c7] w7].
  destruct Com as (_ & Good7 & Bad7).
  destruct committed; cbn [negb].
  - rewrite (Good7 eq_refl). right. reflexivity.
  - rewrite (Bad7 eq_refl).
    pose proof (rollback_restores c1 w7 (current c w) eq_refl) as Rb.
    destruct (rollback c1 w7) as [c8 w8]. destruct Rb as (-> & _).
    right. reflexivity.
Qed.

(** X13. [UpdateCompleteTable] leaves no transaction behind: called with
    none open, it returns with none open, whatever the outcome; the
    connection is open after the call if it was before, on the same file,
    and the catalog, the path, the loaded flag and the connection name of
    the worker are untouched. *)
Theorem UpdateCompleteTable_leaves_no_transaction tableName tableWidget self w :
  savepoint (SqlDatabase self) = None ->
  let self' := snd (fst (UpdateCompleteTable tableName tableWidget self w)) in
  savepoint (SqlDatabase self') = None /\
  (isOpen (SqlDatabase self) = true -> isOpen (SqlDatabase self') = true) /\
  databaseName (SqlDatabase self') = databaseName (SqlDatabase self) /\
  AvailableTableNames self' = AvailableTableNames self /\
  SQLWorker.CurrentFilePath self' = SQLWorker.CurrentFilePath self /\
  FileLoaded self' = FileLoaded self /\
  ConnectionName self' = ConnectionName self.
Proof.
  intros Sv. cbn zeta.
  destruct (UpdateCompleteTable_worker tableName tableWidget self w Sv)
    as [-> | ->]; cbn; auto 10.
Qed.

Lemma UpdateCompleteTable_leaves_no_transaction_witness :
  let schedule := [false; false; false; false; true] in
  let run := UpdateCompleteTable "users" (Some Sample.grid) Sample.loaded
                                 (Sample.ready schedule) in
  fst (fst run) = false /\ savepoint (SqlDatabase (snd (fst run))) = None.
Proof.
  cbn zeta. split; [reflexivity|].
  apply (UpdateCompleteTable_leaves_no_transaction "users" (Some Sample.grid)
           Sample.loaded (Sample.ready [false; false; false; false; true])).
  reflexivity.
Defined.




(* ================================================================== *)
(** ** The window: modes, grid edits, update *)
(* ================================================================== *)

Lemma Window_LoadTableData_keeps m w :
  let '(m', w') := Window.LoadTableData m w in
  Window.IsAddMode m' = Window.IsAddMode m /\
  Window.IsDeleteMode m' = Window.IsDeleteMode m /\
  Window.IsEditMode m' = Window.IsEditMode m /\
  Window.editTriggers m' = Window.editTriggers m /\
  Window.Worker m' = Window.Worker m /\
  Window.CurrentTableName m' = Window.CurrentTableName m /\
  sameStorage w w'.
Proof.
  unfold Window.LoadTableData.
  destruct (QStr.isEmpty (Window.CurrentTableName m)
            || negb (IsFileLoaded (Window.Worker m))).
  { repeat split. }
  pose proof (LoadTableData_storage (Window.CurrentTableName m)
                (Some (Window.DataTable m)) (Window.Worker m) w) as S.
  destruct (LoadTableData (Window.CurrentTableName m)
              (Some (Window.DataTable m)) (Window.Worker m) w)
    as [[ok tableWidget] w1].
  cbn [snd] in S. destruct ok; cbn; repeat split; auto.
Qed.

Lemma modeShape_reset m : Window.modeShape (Window.ResetToggleButtons m).
Proof. reflexivity. Qed.

Lemma handle_modeShape click m w :
  Window.modeShape m -> Window.modeShape (fst (Window.handle click m w)).
Proof.
  intros H. destruct click as [| | | |yes|row yes|i text]; cbn [Window.handle fst].
  - unfold Window.OnAddButtonClicked, Window.modeShape in *.
    destruct (Window.IsAddMode m), (Window.IsDeleteMode m),
      (Window.IsEditMode m); cbn in *; auto; contradiction.
  - unfold Window.OnDeleteButtonClicked, Window.modeShape in *.
    destruct (Window.IsAddMode m), (Window.IsDeleteMode m),
      (Window.IsEditMode m); cbn in *; auto; contradiction.
  - unfold Window.OnEditButtonClicked, Window.modeShape in *.
    destruct (Window.IsAddMode m), (Window.IsDeleteMode m),
      (Window.IsEditMode m); cbn in *; auto; contradiction.
  - unfold Window.OnUpdateButtonClicked.
    destruct (Window.idle m); auto.
    destruct (UpdateCompleteTable (Window.CurrentTableName m)
                (Some (Window.DataTable m)) (Window.Worker m) w)
      as [[success self1] w1].
    destruct success; [|exact H].
    pose proof (Window_LoadTableData_keeps
                  (Window.ResetToggleButtons (Window.setWorker self1 m)) w1)
      as K.
    destruct (Window.LoadTableData
                (Window.ResetToggleButtons (Window.setWorker self1 m)) w1)
      as [m2 w2].
    destruct K as (K1 & K2 & K3 & K4 & _).
    unfold Window.modeShape. cbn. rewrite K1, K2, K3, K4. reflexivity.
  - unfold Window.OnCancelButtonClicked.
    destruct (Window.idle m); auto. destruct yes; auto.
    pose proof (Window_LoadTableData_keeps (Window.ResetToggleButtons m) w)
      as K.
    destruct (Window.LoadTableData (Window.ResetToggleButtons m) w)
      as [m2 w2].
    destruct K as (K1 & K2 & K3 & K4 & _).
    unfold Window.modeShape. cbn. rewrite K1, K2, K3, K4. reflexivity.
  - unfold Window.OnRowDoubleClicked, Window.DeleteRow.
    destruct (Window.IsDeleteMode m && Z.leb 0 row); auto.
    destruct yes; auto.
    destruct (Z.leb 0 row
              && Z.ltb row (Z.of_nat (rowCount (Window.DataTable m))));
      exact H.
  - unfold Window.OnTableSelectionChanged.
    destruct (Z.leb 0 i); auto.
    destruct (Window.LoadTableData (Window.setTableName text m) w)
      as [m1 w1].
    reflexivity.
Qed.

(** X15. The modes of the window: through every sequence of clicks (add,
    delete, edit, update, cancel, row double-click, table selection) at
    most one of add, delete and edit mode is active, and the grid takes
    edits exactly in add mode (double click) and in edit mode (double
    click or edit key): it is read-only in delete mode and when no mode is
    active. *)
Theorem session_keeps_mode_shape clicks :
  forall m w,
    Window.modeShape m ->
    Window.modeShape (fst (Window.session clicks m w)).
Proof.
  induction clicks as [|click rest IH]; intros m w H; cbn [Window.session].
  - exact H.
  - pose proof (handle_modeShape click m w H) as H1.
    destruct (Window.handle click m w) as [m1 w1]. now apply IH.
Qed.

Lemma session_keeps_mode_shape_witness :
  let clicks := [Window.AddClicked; Window.EditClicked;
                 Window.RowDoubleClicked 0 true; Window.UpdateClicked;
                 Window.DeleteClicked] in
  let m := fst (Window.session clicks More.shown (Sample.ready [])) in
  Window.modeShape More.shown /\ Window.modeShape m /\
  Window.IsDeleteMode m = true /\
  Window.editTriggers m = Window.NoEditTriggers.
Proof.
  cbn zeta. split; [reflexivity|]. split; [|split; reflexivity].
  apply session_keeps_mode_shape. reflexivity.
Defined.

Lemma handle_storage click m w :
  click <> Window.UpdateClicked ->
  sameStorage w (snd (Window.handle click m w)).
Proof.
  intros Hne.
  destruct click as [| | | |yes|row yes|i text]; cbn [Window.handle snd];
    try (intros p; reflexivity).
  - contradiction.
  - unfold Window.OnCancelButtonClicked.
    destruct (Window.idle m); [intros p; reflexivity|].
    destruct yes; [|intros p; reflexivity].
    pose proof (Window_LoadTableData_keeps (Window.ResetToggleButtons m) w)
      as K.
    destruct (Window.LoadTableData (Window.ResetToggleButtons m) w)
      as [m2 w2].
    cbn [snd]. apply K.
  - unfold Window.OnTableSelectionChanged.
    destruct (Z.leb 0 i); [|intros p; reflexivity].
    pose proof (Window_LoadTableData_keeps (Window.setTableName text m) w)
      as K.
    destruct (Window.LoadTableData (Window.setTableName text m) w)
      as [m1 w1].
    cbn [snd]. apply K.
Qed.

(** X16. Only the update button writes: a sequence of clicks without a
    click on update - adding rows, deleting rows, toggling modes,
    cancelling, selecting tables - leaves every file holding what it
    held. *)
Theorem session_without_update_keeps_storage clicks :
  forall m w,
    ~ In Window.UpdateClicked clicks ->
    sameStorage w (snd (Window.session clicks m w)).
Proof.
  induction clicks as [|click rest IH]; intros m w H; cbn [Window.session].
  - intros p. reflexivity.
  - assert (Hc : click <> Window.UpdateClicked) by (intros ->; apply H; now left).
    pose proof (handle_storage click m w Hc) as S1.
    destruct (Window.handle click m w) as [m1 w1]. cbn [snd] in S1.
    assert (Hr : ~ In Window.UpdateClicked rest)
      by (intros X; apply H; now right).
    specialize (IH m1 w1 Hr). intros p. now rewrite IH, S1.
Qed.

Lemma session_without_update_keeps_storage_witness :
  let clicks := [Window.AddClicked; Window.DeleteClicked;
                 Window.RowDoubleClicked 0 true; Window.CancelClicked true] in
  rowCount (Window.DataTable
              (fst (Window.session [Window.AddClicked; Window.DeleteClicked;
                                    Window.RowDoubleClicked 0 true]
                      More.shown (Sample.ready [])))) = 2
  /\ sameStorage (Sample.ready [])
       (snd (Window.session clicks More.shown (Sample.ready []))).
Proof.
  cbn zeta. split; [reflexivity|].
  apply session_without_update_keeps_storage.
  intros [H | [H | [H | [H | []]]]]; discriminate.
Defined.

Lemma commit_failure_storage tableName tableWidget self w :
  fst (fst (UpdateCompleteTable tableName tableWidget self w)) = false ->
  sameStorage w (snd (UpdateCompleteTable tableName tableWidget self w)).
Proof.
  destruct (UpdateCompleteTable_cases tableName tableWidget self w)
    as [E | (tw & -> & Hl & Hn & Ho)].
  - rewrite E. intros _ p. reflexivity.
  - pose proof (UpdateCompleteTable_run tableName tw self w Hl Hn Ho) as Run.
    destruct (UpdateCompleteTable tableName (Some tw) self w)
      as [[ok self'] w'].
    cbn [fst snd]. intros ->. destruct Run as (El & _ & Here & _).
    apply (elsewhere_sameStorage _ _ _ El (Here eq_refl)).
Qed.

(** X17. A failed update loses nothing: when the commit made by the
    update button returns false, the grid, the unsaved-changes flag, the
    active mode and the edit triggers of the window are those of before
    the click, and every file holds what it held. *)
Theorem OnUpdateButtonClicked_failure m w :
  Window.idle m = false ->
  fst (fst (UpdateCompleteTable (Window.CurrentTableName m)
              (Some (Window.DataTable m)) (Window.Worker m) w)) = false ->
  let '(m', w') := Window.OnUpdateButtonClicked m w in
  Window.DataTable m' = Window.DataTable m /\
  Window.HasUnsavedChanges m' = Window.HasUnsavedChanges m /\
  Window.IsAddMode m' = Window.IsAddMode m /\
  Window.IsDeleteMode m' = Window.IsDeleteMode m /\
  Window.IsEditMode m' = Window.IsEditMode m /\
  Window.editTriggers m' = Window.editTriggers m /\
  sameStorage w w'.
Proof.
  intros Hi Hf. unfold Window.OnUpdateButtonClicked. rewrite Hi.
  pose proof (commit_failure_storage (Window.CurrentTableName m)
                (Some (Window.DataTable m)) (Window.Worker m) w Hf) as S.
  destruct (UpdateCompleteTable (Window.CurrentTableName m)
              (Some (Window.DataTable m)) (Window.Worker m) w)
    as [[success self1] w1].
  cbn [fst snd] in *. subst success. cbn. repeat split; auto.
Qed.

Lemma OnUpdateButtonClicked_failure_witness :
  let m := Window.OnAddButtonClicked More.shown in
  let w := Sample.ready [false; false; false; false; true] in
  Window.idle m = false /\
  Window.DataTable (fst (Window.OnUpdateButtonClicked m w))
  = Window.DataTable m /\
  sameStorage w (snd (Window.OnUpdateButtonClicked m w)).
Proof.
  cbn zeta. split; [reflexivity|].
  pose proof (OnUpdateButtonClicked_failure
                (Window.OnAddButtonClicked More.shown)
                (Sample.ready [false; false; false; false; true])
                eq_refl eq_refl) as H.
  destruct (Window.OnUpdateButtonClicked
              (Window.OnAddButtonClicked More.shown)
              (Sample.ready [false; false; false; false; true]))
    as [m' w'].
  destruct H as (H1 & _ & _ & _ & _ & _ & H7). split; assumption.
Defined.

(** With the engine refusing nothing, a commit of a grid that carries the
    table's columns as headers goes through and stores the grid's texts. *)
Lemma commit_own_headers_calm t tw self w tb :
  FileLoaded self = true -> t <> "" ->
  isOpen (SqlDatabase self) = true ->
  savepoint (SqlDatabase self) = None -> calm w ->
  findTable t (current (SqlDatabase self) w) = Some tb ->
  wfTable tb = true ->
  headerItems tw = map Some (tblColumns tb) ->
  let '(ok, self', w') := UpdateCompleteTable t (Some tw) self w in
  ok = true /\ calm w' /\
  self' = withDb (mkConn (databaseName (SqlDatabase self)) true None) self /\
  disk w' (databaseName (SqlDatabase self))
  = replaceRows t (texts tw) (current (SqlDatabase self) w).
Proof.
  intros Hl Hn Ho Sv Hc F Wf Hh.
  destruct (wfTable_parts tb Wf) as (Ne & Nd & _).
  pose proof (UpdateCompleteTable_run t tw self w Hl (isEmpty_false _ Hn) Ho)
    as Run.
  destruct (UpdateCompleteTable t (Some tw) self w) as [[ok self'] w'].
  destruct Run as (_ & _ & _ & [A | [B | C]]).
  - destruct A as (_ & _ & _ & X). now destruct (X Hc).
  - destruct B as (_ & _ & _ & X). rewrite (X Hc) in F. discriminate.
  - destruct C as (tb' & names & rest & _ & F' & Res & _ & _ & _ & -> & Ok
                   & Good).
    assert (tb' = tb) by congruence. subst tb'.
    assert (names = tblColumns tb) by (eapply resolved_headers; eauto).
    subst names.
    rewrite (insertCompiles_own_columns t _ tb F Ne) in Ok.
    specialize (Ok Hc). subst ok.
    destruct (Good eq_refl) as (_ & _ & D & Hc').
    assert (Hcc : columnCount tw = length (tblColumns tb)).
    { unfold columnCount. now rewrite Hh, length_map. }
    rewrite committedRows_own_columns in D by assumption.
    auto.
Qed.

Lemma refilled_as_given db tb rows :
  keepsOrder db tb -> keepsText db tb ->
  refilled db (tblName tb) rows = rows.
Proof.
  intros K Kt. unfold refilled. rewrite (landed_in_order db tb rows K []).
  cbn [app]. rewrite <- (map_id rows) at 2. apply map_ext. intros row.
  apply Kt.
Qed.

(** X18. A successful update, end to end: with unsaved edits on a grid
    that carries the table's columns as headers, on a loaded file, an
    engine that refuses nothing and a table whose rows it returns in the
    order of their insertion and with the text that was bound, a click on
    update stores the texts of the grid as the rows of the table, reloads
    the grid with the same texts, and leaves the window with no unsaved
    changes, no active mode and a read-only grid. *)
Theorem OnUpdateButtonClicked_success m w tb :
  Window.idle m = false ->
  IsFileLoaded (Window.Worker m) = true ->
  Window.CurrentTableName m <> "" ->
  savepoint (SqlDatabase (Window.Worker m)) = None ->
  calm w ->
  findTable (Window.CurrentTableName m)
            (current (SqlDatabase (Window.Worker m)) w) = Some tb ->
  wfTable tb = true ->
  keepsOrder (current (SqlDatabase (Window.Worker m)) w) tb ->
  keepsText (current (SqlDatabase (Window.Worker m)) w) tb ->
  headerItems (Window.DataTable m) = map Some (tblColumns tb) ->
  let '(m', w') := Window.OnUpdateButtonClicked m w in
  findTable (Window.CurrentTableName m)
            (current (SqlDatabase (Window.Worker m)) w')
  = Some (mkTable (tblName tb) (tblColumns tb) (texts (Window.DataTable m)))
  /\ texts (Window.DataTable m') = texts (Window.DataTable m)
  /\ headerItems (Window.DataTable m') = headerItems (Window.DataTable m)
  /\ Window.HasUnsavedChanges m' = false
  /\ Window.IsAddMode m' = false /\ Window.IsDeleteMode m' = false
  /\ Window.IsEditMode m' = false
  /\ Window.editTriggers m' = Window.NoEditTriggers.
Proof.
  intros Hi Hfl Hn Sv Hc F Wf K Kt Hh.
  unfold IsFileLoaded in Hfl. apply andb_true_iff in Hfl.
  destruct Hfl as [Hl Ho].
  destruct (wfTable_parts tb Wf) as (Ne & _ & _).
  unfold Window.OnUpdateButtonClicked. rewrite Hi.
  pose proof (commit_own_headers_calm (Window.CurrentTableName m)
                (Window.DataTable m) (Window.Worker m) w tb Hl Hn Ho Sv Hc
                F Wf Hh) as Com.
  destruct (UpdateCompleteTable (Window.CurrentTableName m)
              (Some (Window.DataTable m)) (Window.Worker m) w)
    as [[success self1] w1].
  destruct Com as (-> & Hc1 & -> & D).
  set (self1 := withDb _ (Window.Worker m)).
  set (rows := texts (Window.DataTable m)) in *.
  assert (F1 : findTable (Window.CurrentTableName m)
                 (current (SqlDatabase self1) w1)
               = Some (mkTable (tblName tb) (tblColumns tb) rows)).
  { unfold current. cbn [self1 SqlDatabase withDb databaseName]. rewrite D.
    unfold replaceRows. rewrite findTable_updateTable by reflexivity.
    rewrite F. cbn [option_map]. now rewrite refilled_as_given. }
  unfold Window.LoadTableData.
  cbn [Window.ResetToggleButtons Window.setEditTriggers Window.setModes
       Window.setWorker Window.CurrentTableName Window.Worker
       Window.DataTable].
  rewrite (isEmpty_false _ Hn).
  assert (Il : IsFileLoaded self1 = true).
  { unfold IsFileLoaded. cbn [self1 FileLoaded SqlDatabase withDb isOpen].
    now rewrite Hl. }
  rewrite Il. cbn [negb orb].
  destruct (LoadTableData_calm (Window.CurrentTableName m)
              (Window.DataTable m) self1 w1 _ Hl (isEmpty_false _ Hn)
              eq_refl Hc1 F1 Ne) as (w2 & L & St).
  rewrite L. cbn [tblColumns tblRows].
  assert (Hcc : columnCount (Window.DataTable m) = length (tblColumns tb)).
  { unfold columnCount. now rewrite Hh, length_map. }
  cbn. refine (conj _ (conj _ (conj _ _))); auto 10.
  - unfold current in *. cbn [self1 SqlDatabase withDb databaseName] in F1.
    now rewrite (stepped_disk St).
  - now apply texts_loadedGrid_texts.
Qed.

Lemma OnUpdateButtonClicked_success_witness :
  let m := Window.OnAddButtonClicked More.labelled in
  let run := Window.OnUpdateButtonClicked m (Sample.deskReady []) in
  texts (Window.DataTable m) = [["a"; "red"]; [""; ""]] /\
  findTable "tags" (disk (snd run) "desk.db")
  = Some (mkTable "tags" ["code"; "label"] [["a"; "red"]; [""; ""]]) /\
  texts (Window.DataTable (fst run)) = [["a"; "red"]; [""; ""]] /\
  Window.HasUnsavedChanges (fst run) = false.
Proof.
  cbn zeta. split; [reflexivity|].
  assert (Hc : calm (Sample.deskReady [])) by constructor.
  pose proof (OnUpdateButtonClicked_success
                (Window.OnAddButtonClicked More.labelled)
                (Sample.deskReady []) Sample.tags eq_refl eq_refl
                ltac:(discriminate) eq_refl Hc eq_refl eq_refl
                ltac:(intros rs r; apply le_n)
                ltac:(intros r; reflexivity) eq_refl) as H.
  destruct (Window.OnUpdateButtonClicked
              (Window.OnAddButtonClicked More.labelled)
              (Sample.deskReady [])) as [m' w'].
  destruct H as (H1 & H2 & _ & H4 & _). cbn [fst snd].
  refine (conj _ (conj _ H4)).
  - exact H1.
  - rewrite H2. reflexivity.
Defined.

(** The texts of a grid, read off its rows of cells. *)
Lemma texts_cells tw :
  texts tw
  = map (fun cells =>
           map (fun col => cellText (nth col cells None))
               (seq 0 (columnCount tw)))
        (cellItems tw).
Proof.
  unfold texts, rowTexts, item, rowCount.
  apply (map_nth_seq
           (fun cells => map (fun col => cellText (nth col cells None))
                             (seq 0 (columnCount tw)))
           [] (cellItems tw)).
Qed.

Lemma AddNewRow_cells m :
  Window.DataTable (Window.AddNewRow m)
  = mkWidget (headerItems (Window.DataTable m))
             (cellItems (Window.DataTable m)
              ++ [map (fun _ => Some "")
                      (seq 0 (columnCount (Window.DataTable m)))]).
Proof.
  unfold Window.AddNewRow. cbn [Window.DataTable Window.setUnsaved
    Window.setEditTriggers Window.setTable].
  destruct (Window.DataTable m) as [hs cells].
  unfold rowCount, columnCount. cbn [cellItems headerItems].
  pose proof (insertRow_at hs cells []) as I. rewrite app_nil_r in I.
  rewrite I. cbn [headerItems].
  pose proof (fill_row hs cells [] (fun _ => "") (length hs) 0 eq_refl) as Fl.
  cbn [seq map app Nat.add] in Fl. exact Fl.
Qed.

(** X19. A click on the add button outside add mode appends one row of
    empty cells after the rows shown, enters add mode and marks unsaved
    changes; a second click leaves add mode but keeps the row and the
    mark. *)
Theorem OnAddButtonClicked_appends_row m :
  Window.IsAddMode m = false ->
  let m1 := Window.OnAddButtonClicked m in
  let m2 := Window.OnAddButtonClicked m1 in
  texts (Window.DataTable m1)
  = texts (Window.DataTable m)
    ++ [repeat "" (columnCount (Window.DataTable m))] /\
  Window.IsAddMode m1 = true /\ Window.HasUnsavedChanges m1 = true /\
  Window.DataTable m2 = Window.DataTable m1 /\
  Window.IsAddMode m2 = false /\ Window.HasUnsavedChanges m2 = true.
Proof.
  intros Ha. cbn zeta.
  assert (E1 : Window.OnAddButtonClicked m
               = Window.AddNewRow
                   (Window.setModes true false false
                      (Window.ResetToggleButtons m))).
  { unfold Window.OnAddButtonClicked. now rewrite Ha. }
  rewrite E1. split; [|repeat split].
  rewrite (texts_cells (Window.DataTable m)).
  rewrite texts_cells, AddNewRow_cells.
  cbn [Window.DataTable Window.setModes Window.ResetToggleButtons
       Window.setEditTriggers].
  unfold columnCount. cbn [headerItems cellItems].
  rewrite map_app. f_equal. cbn [map]. f_equal.
  set (n := length (headerItems (Window.DataTable m))).
  set (L := map (fun _ : nat => Some "") (seq 0 n)).
  assert (HL : length L = n) by (unfold L; now rewrite length_map, length_seq).
  rewrite <- HL at 1. rewrite (map_nth_seq cellText None L).
  unfold L. rewrite map_map. cbn [cellText].
  clear. generalize 0. induction n as [|n IH]; intros k; cbn; auto.
  now rewrite IH.
Qed.

Lemma OnAddButtonClicked_appends_row_witness :
  texts (Window.DataTable (Window.OnAddButtonClicked More.shown))
  = [["1"; "Ann"]; ["2"; "Bo"]; [""; ""]].
Proof.
  destruct (OnAddButtonClicked_appends_row More.shown eq_refl) as (H & _).
  rewrite H. reflexivity.
Defined.

Lemma texts_removeRow k tw :
  k < rowCount tw ->
  texts (removeRow k tw) = firstn k (texts tw) ++ skipn (S k) (texts tw).
Proof.
  intros Hk. rewrite !texts_cells. unfold removeRow.
  apply Nat.ltb_lt in Hk. rewrite Hk.
  unfold columnCount. cbn [headerItems cellItems].
  now rewrite map_app, firstn_map, skipn_map.
Qed.

(** X20. A double click on a row deletes from the grid exactly that row,
    and only in delete mode and after a yes: the rows before and after
    stay in order and unsaved changes are marked; outside delete mode, or
    after a no, the window is left as it was. *)
Theorem OnRowDoubleClicked_deletes_row row yes m :
  (Window.IsDeleteMode m = true -> yes = true ->
   (0 <= row < Z.of_nat (rowCount (Window.DataTable m)))%Z ->
   texts (Window.DataTable (Window.OnRowDoubleClicked row yes m))
   = firstn (Z.to_nat row) (texts (Window.DataTable m))
     ++ skipn (S (Z.to_nat row)) (texts (Window.DataTable m)) /\
   headerItems (Window.DataTable (Window.OnRowDoubleClicked row yes m))
   = headerItems (Window.DataTable m) /\
   Window.HasUnsavedChanges (Window.OnRowDoubleClicked row yes m) = true) /\
  (Window.IsDeleteMode m = false \/ yes = false ->
   Window.OnRowDoubleClicked row yes m = m).
Proof.
  split.
  - intros Hd -> Hr. unfold Window.OnRowDoubleClicked, Window.DeleteRow.
    rewrite Hd.
    replace (Z.leb 0 row) with true by (symmetry; apply Z.leb_le; lia).
    replace (Z.ltb row (Z.of_nat (rowCount (Window.DataTable m)))) with true
      by (symmetry; apply Z.ltb_lt; lia).
    cbn. split; [|split; auto].
    + apply texts_removeRow. lia.
    + unfold removeRow.
      now destruct (Nat.ltb (Z.to_nat row) (rowCount (Window.DataTable m))).
  - intros [Hd | ->]; unfold Window.OnRowDoubleClicked.
    + now rewrite Hd.
    + now destruct (Window.IsDeleteMode m && Z.leb 0 row).
Qed.

Lemma OnRowDoubleClicked_deletes_row_witness :
  texts (Window.DataTable
           (Window.OnRowDoubleClicked 0 true
              (Window.OnDeleteButtonClicked More.shown)))
  = [["2"; "Bo"]].
Proof.
  destruct (OnRowDoubleClicked_deletes_row 0 true
              (Window.OnDeleteButtonClicked More.shown)) as (H & _).
  destruct (H eq_refl eq_refl ltac:(cbn; lia)) as (T & _).
  rewrite T. reflexivity.
Defined.

(* ================================================================== *)
(** ** The flat-text export *)
(* ================================================================== *)

Lemma containsChar_false_undouble text :
  Csv.containsChar Csv.QUOTE text = false -> Csv.undouble text = text.
Proof.
  induction text as [|d rest IH]; cbn [Csv.containsChar Csv.undouble]; auto.
  intros H. apply orb_false_iff in H. destruct H as [H1 H2].
  rewrite H1. now rewrite IH.
Qed.

Lemma undouble_doubleQuotes text :
  Csv.undouble (Csv.doubleQuotes text ++ String Csv.QUOTE "") = text.
Proof.
  induction text as [|d rest IH].
  - reflexivity.
  - cbn [Csv.doubleQuotes]. destruct (Ascii.eqb d Csv.QUOTE) eqn:E.
    + apply Ascii.eqb_eq in E. subst d.
      cbn [String.append Csv.undouble]. rewrite Ascii.eqb_refl.
      now rewrite IH.
    + cbn [String.append Csv.undouble]. rewrite E. now rewrite IH.
Qed.

(** X21. The escaping of the flat-text export loses nothing: taking off
    the outer quotes of an escaped field and reading every doubled quote
    once gives back the text of the cell, so two different texts are
    never written as the same field. *)
Theorem field_reads_back text text' :
  Csv.unfield (Csv.field text) = text /\
  (Csv.field text = Csv.field text' -> text = text').
Proof.
  assert (R : forall t, Csv.unfield (Csv.field t) = t).
  { intros t. unfold Csv.field.
    destruct (Csv.containsChar Csv.COMMA t) eqn:Ec;
      destruct (Csv.containsChar Csv.QUOTE t) eqn:Eq;
      destruct (Csv.containsChar Csv.NEWLINE t) eqn:En; cbn [orb];
      try (cbn [Csv.unfield]; rewrite Ascii.eqb_refl;
           apply undouble_doubleQuotes).
    destruct t as [|d rest]; auto. cbn [Csv.unfield].
    cbn [Csv.containsChar] in Eq. apply orb_false_iff in Eq.
    destruct Eq as [E1 _]. now rewrite E1. }
  split; [apply R|].
  intros E. rewrite <- (R text), <- (R text'). now rewrite E.
Qed.

Lemma countChar_append c a b :
  Csv.countChar c (a ++ b) = Csv.countChar c a + Csv.countChar c b.
Proof.
  induction a as [|d rest IH]; cbn [String.append Csv.countChar]; auto.
  rewrite IH. lia.
Qed.

Lemma countChar_doubleQuotes text :
  Csv.countChar Csv.QUOTE (Csv.doubleQuotes text)
  = 2 * Csv.countChar Csv.QUOTE text.
Proof.
  induction text as [|d rest IH]; auto.
  cbn [Csv.doubleQuotes Csv.countChar].
  destruct (Ascii.eqb d Csv.QUOTE) eqn:E.
  - cbn [Csv.countChar]. rewrite Ascii.eqb_refl, IH. lia.
  - cbn [Csv.countChar]. rewrite E, IH. lia.
Qed.

Lemma countChar_none c text :
  Csv.containsChar c text = false -> Csv.countChar c text = 0.
Proof.
  induction text as [|d rest IH]; cbn [Csv.containsChar Csv.countChar]; auto.
  intros H. apply orb_false_iff in H. destruct H as [H1 H2].
  rewrite H1. now rewrite IH.
Qed.

(** X22. Every field the export writes holds an even number of quote
    characters: none when the text needs no escaping, otherwise the two
    outer quotes and two for each quote of the text. *)
Theorem field_quotes_even text :
  Csv.countChar Csv.QUOTE (Csv.field text)
  = if Csv.containsChar Csv.COMMA text || Csv.containsChar Csv.QUOTE text
       || Csv.containsChar Csv.NEWLINE text
    then 2 * (Csv.countChar Csv.QUOTE text + 1)
    else 0.
Proof.
  unfold Csv.field.
  destruct (Csv.containsChar Csv.COMMA text || Csv.containsChar Csv.QUOTE text
            || Csv.containsChar Csv.NEWLINE text) eqn:E.
  - cbn [Csv.countChar]. rewrite Ascii.eqb_refl, countChar_append,
      countChar_doubleQuotes.
    cbn [Csv.countChar]. rewrite Ascii.eqb_refl. lia.
  - apply countChar_none.
    apply orb_false_iff in E. destruct E as [E _].
    apply orb_false_iff in E. now destruct E.
Qed.

Lemma countChar_field_newline text :
  Csv.countChar Csv.NEWLINE (Csv.field text)
  = Csv.countChar Csv.NEWLINE text.
Proof.
  assert (D : forall t, Csv.countChar Csv.NEWLINE (Csv.doubleQuotes t)
                        = Csv.countChar Csv.NEWLINE t).
  { induction t as [|d rest IH]; auto. cbn [Csv.doubleQuotes].
    destruct (Ascii.eqb d Csv.QUOTE) eqn:E.
    - apply Ascii.eqb_eq in E. subst d. cbn. now rewrite IH.
    - cbn [Csv.countChar]. now rewrite IH. }
  unfold Csv.field.
  destruct (Csv.containsChar Csv.COMMA text || Csv.containsChar Csv.QUOTE text
            || Csv.containsChar Csv.NEWLINE text); auto.
  cbn [Csv.countChar]. rewrite countChar_append, D. cbn. lia.
Qed.

Lemma countChar_line fields :
  Forall (fun f => Csv.countChar Csv.NEWLINE f = 0) fields ->
  Csv.countChar Csv.NEWLINE (Csv.line fields) = 1.
Proof.
  intros H. unfold Csv.line. rewrite countChar_append. cbn [Csv.countChar].
  replace (Csv.countChar Csv.NEWLINE (QStr.join (String Csv.COMMA "") fields))
    with 0; [reflexivity|].
  induction H as [|f rest Hf H IH]; auto.
  cbn [QStr.join]. destruct rest as [|g rest']; [now rewrite Hf|].
  rewrite !countChar_append, Hf, <- IH. reflexivity.
Qed.

Lemma countChar_concat_lines (lines : list string) :
  Forall (fun l => Csv.countChar Csv.NEWLINE l = 1) lines ->
  Csv.countChar Csv.NEWLINE (String.concat "" lines) = length lines.
Proof.
  induction 1 as [|l rest Hl H IH]; auto.
  cbn [String.concat length]. destruct rest as [|m rest'].
  - now rewrite Hl.
  - rewrite !countChar_append, Hl. cbn [String.append Csv.countChar Nat.add].
    rewrite IH. reflexivity.
Qed.

(** X23. When the file can be opened and no header and no cell of the
    grid holds a line break, the flat-text export writes one line for the
    headers and one line for each row of the grid, rows or no rows: the
    text written holds exactly [rowCount + 1] line breaks. *)
Theorem ExportTableToExcel_line_count tw :
  (forall col, col < columnCount tw ->
               Csv.countChar Csv.NEWLINE (Csv.headerText tw col) = 0) ->
  (forall row col, row < rowCount tw -> col < columnCount tw ->
      Csv.countChar Csv.NEWLINE (cellText (item row col tw)) = 0) ->
  Csv.ExportTableToExcel true tw = (true, Some (Csv.content tw)) /\
  Csv.countChar Csv.NEWLINE (Csv.content tw) = rowCount tw + 1.
Proof.
  intros Hh Hc. split; [reflexivity|].
  unfold Csv.content. rewrite !countChar_append.
  replace (Csv.countChar Csv.NEWLINE Csv.BOM) with 0 by reflexivity.
  rewrite countChar_line.
  - rewrite countChar_concat_lines.
    + rewrite length_map, length_seq. lia.
    + apply Forall_forall. intros l Hin. apply in_map_iff in Hin.
      destruct Hin as (row & <- & Hrow). apply in_seq in Hrow.
      apply countChar_line.
      apply Forall_forall. intros f Hf. apply in_map_iff in Hf.
      destruct Hf as (col & <- & Hcol). apply in_seq in Hcol.
      rewrite countChar_field_newline. apply Hc; lia.
  - apply Forall_forall. intros f Hf. apply in_map_iff in Hf.
    destruct Hf as (col & <- & Hcol). apply in_seq in Hcol.
    rewrite countChar_field_newline. apply Hh; lia.
Qed.

Lemma ExportTableToExcel_line_count_witness :
  Csv.countChar Csv.NEWLINE (Csv.content Sample.grid) = 4.
Proof.
  destruct (ExportTableToExcel_line_count Sample.grid) as (_ & H).
  - intros col Hcol. cbn in Hcol.
    destruct col as [|[|col]]; [reflexivity | reflexivity | lia].
  - intros row col Hrow Hcol. cbn in Hrow, Hcol.
    destruct row as [|[|[|row]]]; [| | |lia];
      (destruct col as [|[|col]]; [reflexivity | reflexivity | lia]).
  - exact H.
Defined.


